(** * OpenTV EPG grabber (src/epggrab/opentv.c): a shallow embedding

    The C functions of [opentv.c] are rendered as Rocq functions over
    explicit state.  Integers are [Z]; a byte read goes through [u8], a
    [time_t] store through [time_t_wrap] (64-bit two's complement).  The
    partial-event tree [_opentv_events] and the EPG-channel tree
    [_opentv_channels] are finite maps; calls into the EPG store are
    recorded in a log, their results being supplied by an oracle. *)

From Stdlib Require Import ZArith Lia List Bool.
From stdpp Require Import gmap strings list fin_maps pretty.

Local Open Scope Z_scope.

(** ** Bytes, buffers and machine integers *)

(** A [uint8_t] value. *)
Definition u8 (z : Z) : Z := z mod 256.

(** A [uint16_t] value. *)
Definition u16 (z : Z) : Z := z mod 65536.

(** [buf[i]] for a [uint8_t *buf].  The list is the memory that starts at
    the pointer; the length the C code passes around is a separate
    argument, exactly as in the source.  A read beyond the modelled
    memory yields 0. *)
Definition byte_at (buf : list Z) (i : Z) : Z := u8 (nth (Z.to_nat i) buf 0).

(** [buf + i] *)
Definition ptr_add (buf : list Z) (i : Z) : list Z := drop (Z.to_nat i) buf.

(** The value of a byte seen through a [char], which is signed on the
    platforms the program is built for. *)
Definition schar (c : Z) : Z := if u8 c <? 128 then u8 c else u8 c - 256.

(** A store into a [time_t] (64 bits, two's complement). *)
Definition time_t_wrap (z : Z) : Z := (z + 2 ^ 63) mod 2 ^ 64 - 2 ^ 63.

(** ** Results of code that can fault

    [Fault] stands for an execution that leaves defined behaviour (here: a
    store through the null pointer returned by a failed [malloc]). *)
Inductive outcome (A : Type) : Type :=
| Ok (a : A)
| Fault.
Arguments Ok {A} a.
Arguments Fault {A}.

#[global] Instance outcome_bind : MBind outcome := fun A B k m =>
  match m with
  | Ok a => k a
  | Fault => Fault
  end.

(** A pointer test: [!p]. *)
Definition is_null {A : Type} (p : option A) : bool :=
  match p with
  | None => true
  | Some _ => false
  end.

(** ** Data model *)

(** A decoded, NUL-terminated [char *]: the bytes before the terminator. *)
Abbreviation cstring := (list Z) (only parsing).

(** [opentv_prov_t]; [codes] is the provider dictionary's [huffman_node_t *]. *)
Record opentv_prov (codes : Type) : Type := mk_prov {
  prov_id : string;
  prov_name : string;
  prov_nid : Z;
  prov_tsid : Z;
  prov_sid : Z;
  prov_channel : list Z;
  prov_title : list Z;
  prov_summary : list Z;
  prov_dict : codes
}.
Arguments mk_prov {codes}.
Arguments prov_id {codes}.
Arguments prov_name {codes}.
Arguments prov_tsid {codes}.
Arguments prov_dict {codes}.

Definition OPENTV_TITLE : Z := 0x01.
Definition OPENTV_SUMMARY : Z := 0x02.

(** [opentv_event_t] without its tree linkage. *)
Record opentv_event : Type := mk_event {
  ev_cid : Z;
  ev_eid : Z;
  ev_start : Z;
  ev_stop : Z;
  ev_title : option cstring;
  ev_summary : option cstring;
  ev_desc : option cstring;
  ev_cat : Z;
  ev_series : Z;
  ev_status : Z
}.

Definition set_times (ev : opentv_event) (start stop cat : Z) : opentv_event :=
  mk_event (ev_cid ev) (ev_eid ev) start stop (ev_title ev) (ev_summary ev)
           (ev_desc ev) cat (ev_series ev) (ev_status ev).

Definition set_title (ev : opentv_event) (t : option cstring) : opentv_event :=
  mk_event (ev_cid ev) (ev_eid ev) (ev_start ev) (ev_stop ev) t (ev_summary ev)
           (ev_desc ev) (ev_cat ev) (ev_series ev) (ev_status ev).

Definition set_summary (ev : opentv_event) (t : option cstring) : opentv_event :=
  mk_event (ev_cid ev) (ev_eid ev) (ev_start ev) (ev_stop ev) (ev_title ev) t
           (ev_desc ev) (ev_cat ev) (ev_series ev) (ev_status ev).

Definition set_desc (ev : opentv_event) (t : option cstring) : opentv_event :=
  mk_event (ev_cid ev) (ev_eid ev) (ev_start ev) (ev_stop ev) (ev_title ev)
           (ev_summary ev) t (ev_cat ev) (ev_series ev) (ev_status ev).

Definition set_series (ev : opentv_event) (s : Z) : opentv_event :=
  mk_event (ev_cid ev) (ev_eid ev) (ev_start ev) (ev_stop ev) (ev_title ev)
           (ev_summary ev) (ev_desc ev) (ev_cat ev) s (ev_status ev).

Definition set_status (ev : opentv_event) (s : Z) : opentv_event :=
  mk_event (ev_cid ev) (ev_eid ev) (ev_start ev) (ev_stop ev) (ev_title ev)
           (ev_summary ev) (ev_desc ev) (ev_cat ev) (ev_series ev) s.

(** The zeroed [skel] of [_opentv_parse_event] with its key filled in. *)
Definition skel_event (cid eid : Z) : opentv_event :=
  mk_event (u16 cid) (u16 eid) 0 0 None None None 0 0 0.

(** ** The Huffman decoder (huffman.c, outside this file's sources)

    [huffman_decode codes data len mask outl] is [None] for a NULL return
    and otherwise the string left in the output buffer. *)
Class Huffman (codes : Type) : Type :=
  huffman_decode : codes -> list Z -> Z -> Z -> Z -> option cstring.

Section EventRecords.
Context {codes : Type} {huffman : Huffman codes}.

(** The scan of [_opentv_parse_string] for a character above 0x20. *)
Fixpoint has_printable (s : cstring) : bool :=
  match s with
  | [] => false
  | c :: s' =>
      if u8 c =? 0 then false
      else if 0x20 <? schar c then true
      else has_printable s'
  end.

(** [_opentv_parse_string].  [malloc(len+1)] with [len+1 < 0] asks for
    more than the address space and returns NULL, and [*ret = 0] then
    stores through it; with [len+1 = 0] the store lands outside a
    zero-sized object.  Both are [Fault]. *)
Definition _opentv_parse_string (prov : opentv_prov codes) (buf : list Z) (len : Z)
  : outcome (option cstring) :=
  if len <? 0 then Fault
  else
    match huffman_decode (prov_dict prov) buf len 0x20 len with
    | Some s => if has_printable s then Ok (Some s) else Ok None
    | None => Ok None
    end.

(** The 9-bit-quantum offset of a title record: [(b0 << 9) | (b1 << 1)]. *)
Definition quantum_offset (b0 b1 : Z) : Z :=
  Z.lor (Z.shiftl b0 9) (Z.shiftl b1 1).

(** [_opentv_parse_event_record]: the updated event and the returned
    [rlen + 2]. *)
Definition _opentv_parse_event_record (prov : opentv_prov codes)
    (ev : opentv_event) (buf : list Z) (len : Z) (mjd : Z)
  : outcome (opentv_event * Z) :=
  let rtag := byte_at buf 0 in
  let rlen := byte_at buf 1 in
  if rlen + 2 <=? len then
    if rtag =? 0xb5 then
      let start := time_t_wrap (quantum_offset (byte_at buf 2) (byte_at buf 3) + mjd) in
      let stop := time_t_wrap (quantum_offset (byte_at buf 4) (byte_at buf 5) + start) in
      let ev1 := set_times ev start stop (byte_at buf 6) in
      match ev_title ev1 with
      | None =>
          t ← _opentv_parse_string prov (ptr_add buf 9) (rlen - 7);
          Ok (set_title ev1 t, rlen + 2)
      | Some _ => Ok (ev1, rlen + 2)
      end
    else if rtag =? 0xb9 then
      match ev_summary ev with
      | None =>
          t ← _opentv_parse_string prov (ptr_add buf 2) rlen;
          Ok (set_summary ev t, rlen + 2)
      | Some _ => Ok (ev, rlen + 2)
      end
    else if rtag =? 0xbb then
      match ev_desc ev with
      | None =>
          t ← _opentv_parse_string prov (ptr_add buf 2) rlen;
          Ok (set_desc ev t, rlen + 2)
      | Some _ => Ok (ev, rlen + 2)
      end
    else if rtag =? 0xc1 then
      Ok (set_series ev (u16 (Z.lor (Z.shiftl (byte_at buf 2) 8) (byte_at buf 3))), rlen + 2)
    else Ok (ev, rlen + 2)
  else Ok (ev, rlen + 2).

(** The [slen] of [_opentv_parse_event]:
    [((int)buf[2] & 0xf << 8) | buf[3]], where [<<] binds tighter than [&]. *)
Definition event_slen (buf : list Z) : Z :=
  Z.lor (Z.land (byte_at buf 2) (Z.shiftl 0xf 8)) (byte_at buf 3).

(** The record loop of [_opentv_parse_event]:
    [while (i < slen+4) i += _opentv_parse_event_record(prov, ev, buf+i, len-i, mjd);] *)
Fixpoint record_loop (fuel : nat) (prov : opentv_prov codes) (buf : list Z)
    (len mjd slen : Z) (i : Z) (ev : opentv_event) : outcome opentv_event :=
  if i <? slen + 4 then
    match fuel with
    | O => Ok ev
    | S fuel' =>
        '(ev', n) ← _opentv_parse_event_record prov ev (ptr_add buf i) (len - i) mjd;
        record_loop fuel' prov buf len mjd slen (i + n) ev'
    end
  else Ok ev.

End EventRecords.

(** ** Channels and the EPG store *)

(** [channel_t], as far as the grabber looks at it. *)
Record channel_t : Type := mk_channel {
  ch_id : Z;
  ch_name : string
}.

(** [epggrab_channel_t]: the grabber-side channel and its binding. *)
Record epggrab_channel : Type := mk_epggrab_channel {
  ec_id : string;
  ec_channel : option channel_t
}.

(** Calls into the EPG store (epg.c).  Episodes, seasons and broadcasts
    are opaque references. *)
Inductive epg_call : Type :=
| Epg_episode_find_by_uri (uri : string)
| Epg_episode_set_title (ee : Z) (title : cstring)
| Epg_episode_set_summary (ee : Z) (summary : cstring)
| Epg_episode_set_description (ee : Z) (desc : cstring)
| Epg_episode_set_genre (ee : Z) (cat : Z)
| Epg_season_find_by_uri (uri : string)
| Epg_episode_set_season (ee es : Z)
| Epg_broadcast_find_by_time (ch : channel_t) (start stop eid : Z)
| Epg_broadcast_set_episode (ebc ee : Z)
| Epg_updated.

(** What the EPG store answers, given the calls made so far. *)
Class EpgStore : Type := {
  epg_hash : option cstring -> option cstring -> option cstring -> option string;
  (** the episode (or NULL) and whether [*save] was raised *)
  episode_find_reply : list epg_call -> string -> option Z * bool;
  (** the return value of an [epg_*_set_*] call *)
  epg_set_reply : list epg_call -> epg_call -> bool;
  (** [ee->season] *)
  episode_season : list epg_call -> Z -> option Z;
  season_find_reply : list epg_call -> string -> option Z;
  broadcast_find_reply : list epg_call -> channel_t -> Z -> Z -> Z -> option Z * bool
}.

(** The process-wide state the event and BAT decoders work on:
    [_opentv_events], [_opentv_channels] (every module's [channels]
    points at it) and the EPG calls made so far. *)
Record opentv_state : Type := mk_state {
  _opentv_events : gmap (Z * Z) opentv_event;
  _opentv_channels : gmap string epggrab_channel;
  epg_log : list epg_call
}.

(** [opentv_status_t] *)
Inductive sta_status : Type := OPENTV_STA_INIT | OPENTV_STA_STARTED | OPENTV_STA_COMPLETE.

Record opentv_status : Type := mk_status {
  sta_pid : Z;
  sta_state : sta_status;
  sta_start : list Z
}.

(** [opentv_module_t]: the provider and the carousel status list. *)
Record opentv_module (codes : Type) : Type := mk_module {
  mod_prov : opentv_prov codes;
  mod_status : list opentv_status
}.
Arguments mk_module {codes}.
Arguments mod_prov {codes}.
Arguments mod_status {codes}.

(** The key [_ev_cmp] orders by: equal keys are exactly those on which
    it returns 0. *)
Definition _ev_cmp (a b : opentv_event) : Z :=
  let r := ev_cid a - ev_cid b in
  if r =? 0 then ev_eid a - ev_eid b else r.

Definition ev_key (ev : opentv_event) : Z * Z := (ev_cid ev, ev_eid ev).

(** How a section parse ends: it returns, or it faults inside an event
    block; [Crashed] carries the state in which that block was entered
    (of what the process did, only the calls already made to the EPG
    store matter after the fault). *)
Inductive section_result : Type :=
| Returned (s : opentv_state)
| Crashed (s : opentv_state).

Definition final_state (r : section_result) : opentv_state :=
  match r with
  | Returned s => s
  | Crashed s => s
  end.

Section EventSections.
Context {codes : Type} {huffman : Huffman codes} {epg : EpgStore}.

(** [sprintf(chid, "%s-%d", mod->prov->id, cid)] (the identifier is
    taken to fit the 32-byte buffer). *)
Definition chid_of (omod : opentv_module codes) (cid : Z) : string :=
  prov_id (mod_prov omod) +:+ "-" +:+ pretty cid.

(** [sprintf(uri, "%s-%d-%d", mod->prov->id, cid, slink)] *)
Definition season_uri (omod : opentv_module codes) (cid slink : Z) : string :=
  prov_id (mod_prov omod) +:+ "-" +:+ pretty cid +:+ "-" +:+ pretty slink.

(** Modelled from the spec: [epggrab_module_channel_find] (epggrab
    module code, not among the sources) looks the identifier up in the
    module's channel tree and, when asked to create, adds an unbound
    channel for a new identifier and raises [*save]. *)
Definition epggrab_module_channel_find (chid : string) (create : bool)
    (chs : gmap string epggrab_channel)
  : option epggrab_channel * bool * gmap string epggrab_channel :=
  match chs !! chid with
  | Some ec => (Some ec, false, chs)
  | None =>
      if create then
        let ec := mk_epggrab_channel chid None in
        (Some ec, true, <[chid := ec]> chs)
      else (None, false, chs)
  end.

(** [_opentv_find_epggrab_channel] *)
Definition _opentv_find_epggrab_channel (omod : opentv_module codes) (cid : Z)
    (create : bool) (chs : gmap string epggrab_channel)
  : option epggrab_channel * bool * gmap string epggrab_channel :=
  epggrab_module_channel_find (chid_of omod cid) create chs.

(** [_opentv_parse_event]: the tree after the insert-or-find and the
    record loop, the node [*ev] points at (its key and its contents), and
    the returned [slen+4]. *)
Definition _opentv_parse_event (prov : opentv_prov codes) (buf : list Z)
    (len cid mjd : Z) (events : gmap (Z * Z) opentv_event)
  : outcome (gmap (Z * Z) opentv_event * (Z * Z) * opentv_event * Z) :=
  let slen := event_slen buf in
  let skel := skel_event cid (Z.lor (Z.shiftl (byte_at buf 0) 8) (byte_at buf 1)) in
  let ev := match events !! ev_key skel with
            | Some found => found
            | None => skel
            end in
  ev' ← record_loop (Z.to_nat slen) prov buf len mjd slen 4 ev;
  Ok (<[ev_key skel := ev']> events, ev_key skel, ev', slen + 4).

(** One call to the EPG store that returns a change flag. *)
Definition epg_set (c : epg_call) (sl : bool * list epg_call) : bool * list epg_call :=
  (fst sl || epg_set_reply (snd sl) c, snd sl ++ [c]).

Definition epg_set_if (b : bool) (c : epg_call) (sl : bool * list epg_call)
  : bool * list epg_call :=
  if b then epg_set c sl else sl.

(** The body of the event loop of [_opentv_parse_event_section] from
    "Find episode" to "Find broadcast": [save] and the call log. *)
Definition emit_event (omod : opentv_module codes) (cid : Z) (ch : channel_t)
    (ev : opentv_event) (sl : bool * list epg_call) : bool * list epg_call :=
  match epg_hash (ev_title ev) (ev_summary ev) (ev_desc ev) with
  | None => sl
  | Some uri =>
      let '(ee, created) := episode_find_reply (snd sl) uri in
      let sl := (fst sl || created, snd sl ++ [Epg_episode_find_by_uri uri]) in
      match ee with
      | None => sl
      | Some ee =>
          let sl := match ev_title ev with
                    | Some t => epg_set (Epg_episode_set_title ee t) sl
                    | None => sl
                    end in
          let sl := match ev_summary ev with
                    | Some t => epg_set (Epg_episode_set_summary ee t) sl
                    | None => sl
                    end in
          let sl := match ev_desc ev with
                    | Some t => epg_set (Epg_episode_set_description ee t) sl
                    | None => sl
                    end in
          let sl := epg_set_if (negb (ev_cat ev =? 0))
                      (Epg_episode_set_genre ee (ev_cat ev)) sl in
          let sl :=
            if negb (ev_series ev =? 0) && is_null (episode_season (snd sl) ee)
            then
              let uri := season_uri omod cid (ev_series ev) in
              let es := season_find_reply (snd sl) uri in
              let sl := (fst sl, snd sl ++ [Epg_season_find_by_uri uri]) in
              match es with
              | Some es => epg_set (Epg_episode_set_season ee es) sl
              | None => sl
              end
            else sl in
          let '(ebc, created) :=
            broadcast_find_reply (snd sl) ch (ev_start ev) (ev_stop ev) (ev_eid ev) in
          let sl := (fst sl || created,
                     snd sl ++ [Epg_broadcast_find_by_time ch (ev_start ev) (ev_stop ev)
                                  (ev_eid ev)]) in
          match ebc with
          | Some ebc => epg_set (Epg_broadcast_set_episode ebc ee) sl
          | None => sl
          end
      end
  end.

(** The event loop of [_opentv_parse_event_section]. *)
Fixpoint event_loop (fuel : nat) (omod : opentv_module codes) (buf : list Z)
    (len cid mjd type : Z) (ch : channel_t) (i : Z) (save : bool)
    (s : opentv_state) : section_result * bool :=
  if i <? len then
    match fuel with
    | O => (Returned s, save)
    | S fuel' =>
        match _opentv_parse_event (mod_prov omod) (ptr_add buf i) (len - i) cid mjd
                (_opentv_events s) with
        | Fault => (Crashed s, save)
        | Ok (events, key, ev, n) =>
            let ev := set_status ev (u8 (Z.lor (ev_status ev) type)) in
            if ev_status ev =? Z.lor OPENTV_TITLE OPENTV_SUMMARY then
              let '(save', log) := emit_event omod cid ch ev (save, epg_log s) in
              event_loop fuel' omod buf len cid mjd type ch (i + n) save'
                (mk_state (delete key events) (_opentv_channels s) log)
            else
              event_loop fuel' omod buf len cid mjd type ch (i + n) save
                (mk_state (<[key := ev]> events) (_opentv_channels s) (epg_log s))
        end
    end
  else (Returned s, save).

(** The Unix time of the day an MJD names: [(mjd - 40587) * 86400]. *)
Definition mjd_to_unix (mjd : Z) : Z := time_t_wrap ((mjd - 40587) * 86400).

(** The 16-bit MJD of an event section: [((int)buf[5] << 8) | buf[6]]. *)
Definition section_mjd (buf : list Z) : Z :=
  Z.lor (Z.shiftl (byte_at buf 5) 8) (byte_at buf 6).

(** [_opentv_parse_event_section] *)
Definition _opentv_parse_event_section (omod : opentv_module codes) (buf : list Z)
    (len type : Z) (s : opentv_state) : section_result :=
  let cid := Z.lor (Z.shiftl (byte_at buf 0) 8) (byte_at buf 1) in
  match _opentv_find_epggrab_channel omod cid false (_opentv_channels s) with
  | (None, _, _) => Returned s
  | (Some ec, _, _) =>
      match ec_channel ec with
      | None => Returned s
      | Some ch =>
          if String.eqb (ch_name ch) "" then Returned s
          else
            let mjd := mjd_to_unix (section_mjd buf) in
            match event_loop (Z.to_nat len) omod buf len cid mjd type ch 7 false s with
            | (Returned s', save) =>
                Returned (if save
                          then mk_state (_opentv_events s') (_opentv_channels s')
                                        (epg_log s' ++ [Epg_updated])
                          else s')
            | (Crashed s', _) => Crashed s'
            end
      end
  end.

End EventSections.

(** ** Service lookup and the BAT decoder *)

(** [service_t], [th_dvb_mux_instance_t] and [th_dvb_adapter_t], reduced
    to the fields [_opentv_find_service] walks. *)
Record service_t : Type := mk_service {
  s_dvb_service_id : Z;
  s_ch : option channel_t
}.

Record th_dvb_mux_instance : Type := mk_mux {
  tdmi_transport_stream_id : Z;
  tdmi_transports : list service_t
}.

Record th_dvb_adapter : Type := mk_adapter {
  tda_muxes : list th_dvb_mux_instance
}.

Section Bat.
Context {codes : Type}.
Variable dvb_adapters : list th_dvb_adapter.

Fixpoint find_in_transports (sid : Z) (ts : list service_t) : option service_t :=
  match ts with
  | [] => None
  | t :: ts' => if s_dvb_service_id t =? sid then Some t else find_in_transports sid ts'
  end.

Fixpoint find_in_muxes (tsid sid : Z) (ms : list th_dvb_mux_instance) : option service_t :=
  match ms with
  | [] => None
  | tdmi :: ms' =>
      if tdmi_transport_stream_id tdmi =? tsid then
        match find_in_transports sid (tdmi_transports tdmi) with
        | Some t => Some t
        | None => find_in_muxes tsid sid ms'
        end
      else find_in_muxes tsid sid ms'
  end.

Fixpoint find_in_adapters (tsid sid : Z) (tdas : list th_dvb_adapter) : option service_t :=
  match tdas with
  | [] => None
  | tda :: tdas' =>
      match find_in_muxes tsid sid (tda_muxes tda) with
      | Some t => Some t
      | None => find_in_adapters tsid sid tdas'
      end
  end.

(** [_opentv_find_service] *)
Definition _opentv_find_service (tsid sid : Z) : option service_t :=
  find_in_adapters tsid sid dvb_adapters.

(** [_opentv_find_channel]: [t ? t->s_ch : NULL] *)
Definition _opentv_find_channel (tsid sid : Z) : option channel_t :=
  match _opentv_find_service tsid sid with
  | Some t => s_ch t
  | None => None
  end.

(** The body of the innermost loop of [_opentv_bat_section], from
    "Find the channel" on, for one (tsid, sid, cid) record. *)
Definition bat_record (omod : opentv_module codes) (tsid sid cid : Z)
    (chs : gmap string epggrab_channel) : gmap string epggrab_channel :=
  match _opentv_find_channel tsid sid with
  | Some ch =>
      match _opentv_find_epggrab_channel omod cid true chs with
      | (Some ec, save, chs') =>
          if save then <[ec_id ec := mk_epggrab_channel (ec_id ec) (Some ch)]> chs'
          else chs'
      | (None, _, chs') => chs'
      end
  | None => chs
  end.

(** [while (dlen > 0)]: the 9-byte service records of a 0xb1 descriptor. *)
Fixpoint bat_service_loop (fuel : nat) (omod : opentv_module codes) (buf : list Z)
    (tsid k dlen : Z) (chs : gmap string epggrab_channel) : gmap string epggrab_channel :=
  if 0 <? dlen then
    match fuel with
    | O => chs
    | S fuel' =>
        let sid := u16 (Z.lor (Z.shiftl (byte_at buf k) 8) (byte_at buf (k + 1))) in
        let cid := Z.lor (Z.shiftl (byte_at buf (k + 3)) 8) (byte_at buf (k + 4)) in
        bat_service_loop fuel' omod buf tsid (k + 9) (dlen - 9)
          (bat_record omod tsid sid cid chs)
    end
  else chs.

(** [while (tdlen > 0)]: the descriptors of one transport stream. *)
Fixpoint bat_descriptor_loop (fuel : nat) (omod : opentv_module codes) (buf : list Z)
    (tsid j tdlen : Z) (chs : gmap string epggrab_channel) : gmap string epggrab_channel :=
  if 0 <? tdlen then
    match fuel with
    | O => chs
    | S fuel' =>
        let dtag := byte_at buf j in
        let dlen := byte_at buf (j + 1) in
        let k := j + 2 in
        let chs' :=
          if dtag =? 0xb1
          then bat_service_loop (Z.to_nat (dlen - 2)) omod buf tsid (k + 2) (dlen - 2) chs
          else chs in
        bat_descriptor_loop fuel' omod buf tsid (j + (dlen + 2)) (tdlen - (dlen + 2)) chs'
    end
  else chs.

(** [while (tslen > 0)]: the transport-stream loop. *)
Fixpoint bat_ts_loop (fuel : nat) (omod : opentv_module codes) (buf : list Z)
    (i tslen : Z) (chs : gmap string epggrab_channel) : gmap string epggrab_channel :=
  if 0 <? tslen then
    match fuel with
    | O => chs
    | S fuel' =>
        let tsid := Z.lor (Z.shiftl (byte_at buf i) 8) (byte_at buf (i + 1)) in
        let tdlen := Z.lor (Z.shiftl (Z.land (byte_at buf (i + 4)) 0xf) 8)
                           (byte_at buf (i + 5)) in
        let chs' := bat_descriptor_loop (Z.to_nat tdlen) omod buf tsid (i + 6) tdlen chs in
        bat_ts_loop fuel' omod buf (i + (tdlen + 6)) (tslen - (tdlen + 6)) chs'
    end
  else chs.

(** [_opentv_bat_section] ([len] is not looked at by the C code). *)
Definition _opentv_bat_section (omod : opentv_module codes) (buf : list Z) (len : Z)
    (s : opentv_state) : opentv_state :=
  let i := 7 + Z.lor (Z.shiftl (Z.land (byte_at buf 5) 0xf) 8) (byte_at buf 6) in
  let tslen := Z.lor (Z.shiftl (Z.land (byte_at buf i) 0xf) 8) (byte_at buf (i + 1)) in
  mk_state (_opentv_events s)
           (bat_ts_loop (Z.to_nat tslen) omod buf (i + 2) tslen (_opentv_channels s))
           (epg_log s).

End Bat.

(** ** The carousel tracker *)

(** What the OTA layer (epggrab/ota.c, outside this file's sources)
    answers during one call of [_opentv_table_callback]: whether
    [epggrab_ota_register] returned a mux, and the results of
    [epggrab_ota_is_complete] and [epggrab_ota_begin]. *)
Record ota_reply : Type := mk_ota_reply {
  ota_registered : bool;
  ota_is_complete : bool;
  ota_begin : bool
}.

(** What one call of [_opentv_table_callback] leaves behind: the module,
    whether the module was returned (rather than NULL) and whether
    [epggrab_ota_complete] was called. *)
Record callback_result (codes : Type) : Type := mk_callback_result {
  cb_module : opentv_module codes;
  cb_returns_mod : bool;
  cb_completed : bool
}.
Arguments mk_callback_result {codes}.
Arguments cb_module {codes}.
Arguments cb_returns_mod {codes}.
Arguments cb_completed {codes}.

Section Carousel.
Context {codes : Type}.

(** The first 20 bytes at [buf], as [memcpy]/[memcmp] see them. *)
Definition fingerprint (buf : list Z) : list Z :=
  map (fun i => byte_at buf (Z.of_nat i)) (seq 0 20).

(** [LIST_FOREACH(sta, ...) if (sta->pid == tdt->tdt_pid) break;] as the
    position of the entry the loop stops at. *)
Fixpoint find_status (pid : Z) (l : list opentv_status) : option nat :=
  match l with
  | [] => None
  | sta :: l' =>
      if sta_pid sta =? pid then Some O
      else option_map S (find_status pid l')
  end.

Definition is_complete_sta (sta : opentv_status) : bool :=
  match sta_state sta with
  | OPENTV_STA_COMPLETE => true
  | _ => false
  end.

Definition reset_status (sta : opentv_status) : opentv_status :=
  mk_status (sta_pid sta) OPENTV_STA_INIT (sta_start sta).

(** [calloc(1, sizeof(opentv_status_t))]: every field zero.  The source
    does not assign [sta->pid] afterwards. *)
Definition calloc_status : opentv_status :=
  mk_status 0 OPENTV_STA_INIT (repeat 0 20).

(** [_opentv_table_callback] *)
Definition _opentv_table_callback (omod : opentv_module codes) (tdt_pid : Z)
    (buf : list Z) (len : Z) (ota : ota_reply) : callback_result codes :=
  if len <? 20 then mk_callback_result omod false false
  else if negb (ota_registered ota) then mk_callback_result omod false false
  else if ota_is_complete ota then mk_callback_result omod false false
  else
    let l0 := if ota_begin ota then map reset_status (mod_status omod)
              else mod_status omod in
    let '(l1, n) := match find_status tdt_pid l0 with
                    | Some n => (l0, n)
                    | None => (calloc_status :: l0, O)
                    end in
    match l1 !! n with
    | None => mk_callback_result (mk_module (mod_prov omod) l1) false false
    | Some sta =>
        match sta_state sta with
        | OPENTV_STA_INIT =>
            let l2 := <[n := mk_status (sta_pid sta) OPENTV_STA_STARTED (fingerprint buf)]> l1 in
            mk_callback_result (mk_module (mod_prov omod) l2) true false
        | OPENTV_STA_STARTED =>
            if bool_decide (sta_start sta = fingerprint buf) then
              let l2 := <[n := mk_status (sta_pid sta) OPENTV_STA_COMPLETE (sta_start sta)]> l1 in
              if forallb is_complete_sta l2
              then mk_callback_result (mk_module (mod_prov omod) l2) false true
              else mk_callback_result (mk_module (mod_prov omod) l2) true false
            else mk_callback_result (mk_module (mod_prov omod) l1) false true
        | OPENTV_STA_COMPLETE =>
            mk_callback_result (mk_module (mod_prov omod) l1) false true
        end
    end.

End Carousel.

(** ** The section callbacks *)

Section Callbacks.
Context {codes : Type} {huffman : Huffman codes} {epg : EpgStore}.

(** [_opentv_title_callback] *)
Definition _opentv_title_callback (omod : opentv_module codes) (tdt_pid : Z)
    (buf : list Z) (len : Z) (ota : ota_reply) (s : opentv_state)
  : callback_result codes * section_result :=
  let r := _opentv_table_callback omod tdt_pid buf len ota in
  (r, if cb_returns_mod r
      then _opentv_parse_event_section (cb_module r) buf len OPENTV_TITLE s
      else Returned s).

(** [_opentv_summary_callback] *)
Definition _opentv_summary_callback (omod : opentv_module codes) (tdt_pid : Z)
    (buf : list Z) (len : Z) (ota : ota_reply) (s : opentv_state)
  : callback_result codes * section_result :=
  let r := _opentv_table_callback omod tdt_pid buf len ota in
  (r, if cb_returns_mod r
      then _opentv_parse_event_section (cb_module r) buf len OPENTV_SUMMARY s
      else Returned s).

(** [_opentv_channel_callback] *)
Definition _opentv_channel_callback (dvb_adapters : list th_dvb_adapter)
    (omod : opentv_module codes) (tdt_pid : Z)
    (buf : list Z) (len : Z) (ota : ota_reply) (s : opentv_state)
  : callback_result codes * opentv_state :=
  let r := _opentv_table_callback omod tdt_pid buf len ota in
  (r, if cb_returns_mod r
      then _opentv_bat_section dvb_adapters (cb_module r) buf len s
      else s).

End Callbacks.

(** ** Auxiliary notions used in the statements *)

(** An event whose stop time is not before its start time. *)
Definition event_times_ok (ev : opentv_event) : Prop := ev_start ev <= ev_stop ev.

(** A call that hands a broadcast over with [start <= stop]; any other
    call qualifies. *)
Definition call_times_ok (c : epg_call) : Prop :=
  match c with
  | Epg_broadcast_find_by_time _ start stop _ => start <= stop
  | _ => True
  end.

(** The invariant behind [stop >= start]: it holds of every partial
    event in the tree and of every broadcast handed over so far. *)
Definition times_invariant (s : opentv_state) : Prop :=
  map_Forall (fun _ ev => event_times_ok ev) (_opentv_events s) /\
  Forall call_times_ok (epg_log s).

(** The first-writer-wins fields of [old] are found unchanged in [new]. *)
Definition texts_kept (old new : opentv_event) : Prop :=
  (ev_title old <> None -> ev_title new = ev_title old) /\
  (ev_summary old <> None -> ev_summary new = ev_summary old) /\
  (ev_desc old <> None -> ev_desc new = ev_desc old).

(** The channel id an event section opens with. *)
Definition section_cid (buf : list Z) : Z :=
  Z.lor (Z.shiftl (byte_at buf 0) 8) (byte_at buf 1).

(** The event id an event block opens with. *)
Definition block_eid (buf : list Z) : Z :=
  Z.lor (Z.shiftl (byte_at buf 0) 8) (byte_at buf 1).

(** The key of the first event block of a section. *)
Definition first_key (buf : list Z) : Z * Z :=
  (u16 (section_cid buf), u16 (block_eid (ptr_add buf 7))).

(** The section holds one event block: the block that starts at offset
    7 reaches the end of the section. *)
Definition single_block (buf : list Z) (len : Z) : Prop :=
  7 < len <= 7 + (event_slen (ptr_add buf 7) + 4).

(** A time base far from the ends of [time_t]. *)
Definition mjd_in_range (mjd : Z) : Prop := - 2 ^ 62 <= mjd <= 2 ^ 62.

Section RecordOffers.
Context {codes : Type} {huffman : Huffman codes}.

(** What a record offers for each first-writer-wins field. *)
Definition fits (buf : list Z) (len : Z) : bool := byte_at buf 1 + 2 <=? len.

Definition offered (r : outcome (option cstring)) : option cstring :=
  match r with
  | Ok t => t
  | Fault => None
  end.

Definition record_title (prov : opentv_prov codes) (buf : list Z) (len : Z)
  : option cstring :=
  if fits buf len && (byte_at buf 0 =? 0xb5)
  then offered (_opentv_parse_string prov (ptr_add buf 9) (byte_at buf 1 - 7))
  else None.

Definition record_summary (prov : opentv_prov codes) (buf : list Z) (len : Z)
  : option cstring :=
  if fits buf len && (byte_at buf 0 =? 0xb9)
  then offered (_opentv_parse_string prov (ptr_add buf 2) (byte_at buf 1))
  else None.

Definition record_desc (prov : opentv_prov codes) (buf : list Z) (len : Z)
  : option cstring :=
  if fits buf len && (byte_at buf 0 =? 0xbb)
  then offered (_opentv_parse_string prov (ptr_add buf 2) (byte_at buf 1))
  else None.

(** [if (!field) field = text]: the first writer wins. *)
Definition keep_first (old new : option cstring) : option cstring :=
  match old with
  | Some t => Some t
  | None => new
  end.

End RecordOffers.

Section ChannelUse.
Context {codes : Type}.

(** The channel the three tests at the head of
    [_opentv_parse_event_section] let through: the EPG channel exists, is
    bound, and the bound channel has a name. *)
Definition usable_channel (omod : opentv_module codes) (cid : Z)
    (chs : gmap string epggrab_channel) : option channel_t :=
  match chs !! chid_of omod cid with
  | Some ec =>
      match ec_channel ec with
      | Some ch => if String.eqb (ch_name ch) "" then None else Some ch
      | None => None
      end
  | None => None
  end.

End ChannelUse.

Section Runs.
Context {codes : Type} {huffman : Huffman codes} {epg : EpgStore}.

(** The states the decoders can be in: the tree and the log start
    empty, and each step is one event section or one BAT section of some
    module. *)
Inductive reachable : opentv_state -> Prop :=
| reach_start : reachable (mk_state ∅ ∅ [])
| reach_event_section (omod : opentv_module codes) buf len type s :
    reachable s ->
    reachable (final_state (_opentv_parse_event_section omod buf len type s))
| reach_bat_section dvb_adapters (omod : opentv_module codes) buf len s :
    reachable s ->
    reachable (_opentv_bat_section dvb_adapters omod buf len s).

(** A section as the tracker receives it: the table's PID, the bytes,
    their length and what the OTA layer answers during the call. *)
Record incoming : Type := mk_incoming {
  in_pid : Z;
  in_buf : list Z;
  in_len : Z;
  in_ota : ota_reply
}.

(** A sequence of calls of [_opentv_table_callback] on one module, with
    the number of calls of [epggrab_ota_complete]. *)
Fixpoint carousel_run (omod : opentv_module codes) (completions : nat)
    (sections : list incoming) : opentv_module codes * nat :=
  match sections with
  | [] => (omod, completions)
  | x :: rest =>
      let r := _opentv_table_callback omod (in_pid x) (in_buf x) (in_len x) (in_ota x) in
      carousel_run (cb_module r)
        (if cb_completed r then S completions else completions) rest
  end.

(** The claim on unknown channels: the title section creates a partial
    event, the summary section joins and drops it, and no call reaches
    the EPG store. *)
Definition unknown_channel_claim (omod : opentv_module codes)
    (title_sec : list Z) (title_len : Z) (summary_sec : list Z) (summary_len : Z)
    (s : opentv_state) : Prop :=
  let s1 := final_state (_opentv_parse_event_section omod title_sec title_len
                           OPENTV_TITLE s) in
  let s2 := final_state (_opentv_parse_event_section omod summary_sec summary_len
                           OPENTV_SUMMARY s1) in
  is_Some (_opentv_events s1 !! first_key title_sec) /\
  _opentv_events s2 !! first_key title_sec = None /\
  epg_log s2 = epg_log s.

End Runs.

Section BatClaims.
Context {codes : Type}.

(** A BAT record establishes the binding of an EPG channel: after the
    record the channel is bound, and it was not so before. *)
Definition establishes_binding (chid : string) (chs chs' : gmap string epggrab_channel)
  : Prop :=
  (exists ch, chs' !! chid = Some (mk_epggrab_channel chid (Some ch))) /\
  chs' !! chid <> chs !! chid.

(** The claim on BAT records: a binding if and only if the service is
    found and its channel has a name. *)
Definition bat_binding_claim (dvb_adapters : list th_dvb_adapter)
    (omod : opentv_module codes) (tsid sid cid : Z)
    (chs : gmap string epggrab_channel) : Prop :=
  establishes_binding (chid_of omod cid) chs (bat_record dvb_adapters omod tsid sid cid chs)
  <->
  exists t ch, _opentv_find_service dvb_adapters tsid sid = Some t /\
               s_ch t = Some ch /\ ch_name ch <> "".

End BatClaims.

(** ** A small installation to run the decoders on *)

(** A dictionary whose code is the identity: [len] bytes decode to
    themselves, and nothing decodes to NULL. *)
Definition demo_huffman : Huffman unit :=
  fun _ data len _ _ => if len =? 0 then None else Some (take (Z.to_nat len) data).

(** An EPG store that creates what it is asked for and reports every
    setter as a change. *)
Definition demo_epg : EpgStore := {|
  epg_hash := fun t s d =>
    match t, s, d with
    | None, None, None => None
    | _, _, _ => Some "episode"
    end;
  episode_find_reply := fun _ _ => (Some 1, true);
  epg_set_reply := fun _ _ => true;
  episode_season := fun _ _ => None;
  season_find_reply := fun _ _ => Some 2;
  broadcast_find_reply := fun _ _ _ _ _ => (Some 3, true)
|}.

Definition demo_prov : opentv_prov unit :=
  mk_prov "sky" "Sky UK" 2 7 4152 [0x11] [0x30; 0x31] [0x40] tt.

Definition demo_prov_it : opentv_prov unit :=
  mk_prov "skyit" "Sky Italia" 64511 7 4152 [0x11] [0x30] [0x40] tt.

Definition demo_mod : opentv_module unit := mk_module demo_prov [].
Definition demo_mod_it : opentv_module unit := mk_module demo_prov_it [].

Definition demo_channel : channel_t := mk_channel 1 "BBC One".
Definition demo_unnamed : channel_t := mk_channel 2 "".

(** One adapter, one mux with transport stream 7 and three services: one
    with a named channel, one with an unnamed channel, one without. *)
Definition demo_adapters : list th_dvb_adapter :=
  [mk_adapter [mk_mux 7 [mk_service 0x1001 (Some demo_channel);
                         mk_service 0x1002 (Some demo_unnamed);
                         mk_service 0x1003 None]]].

(** A BAT section with one 0xb1 descriptor of one record:
    transport stream 7, service [sid], channel id [cid]. *)
Definition demo_bat (sid_hi sid_lo cid_hi cid_lo : Z) : list Z :=
  [0x4a; 0; 0; 0; 0; 0x00; 0x00; 0x00; 0x13;
   0x00; 0x07; 0x00; 0x02; 0x00; 0x0d;
   0xb1; 0x0b; 0; 0;
   sid_hi; sid_lo; 0; cid_hi; cid_lo; 0x00; 0x65; 0; 0].

(** A title section: channel 0x42, MJD 59000, one event 0x1234 with a
    title record: start offset 512, duration 128, category 0x10, "Hello". *)
Definition demo_title_section : list Z :=
  [0x00; 0x42; 0; 0; 0; 0xe6; 0x78;
   0x12; 0x34; 0x00; 0x0e;
   0xb5; 0x0c; 0x01; 0x00; 0x00; 0x40; 0x10; 0; 0; 72; 101; 108; 108; 111].

(** The matching summary section: a summary "World" and a description "abc". *)
Definition demo_summary_section : list Z :=
  [0x00; 0x42; 0; 0; 0; 0xe6; 0x78;
   0x12; 0x34; 0x00; 0x0c;
   0xb9; 0x05; 87; 111; 114; 108; 100;
   0xbb; 0x03; 97; 98; 99].


Definition demo_start : opentv_state := mk_state ∅ ∅ [].

(** The state once both providers' BAT sections have bound channel 0x42. *)
Definition demo_bound : opentv_state :=
  _opentv_bat_section demo_adapters demo_mod_it (demo_bat 0x10 0x01 0x00 0x42) 28
    (_opentv_bat_section demo_adapters demo_mod (demo_bat 0x10 0x01 0x00 0x42) 28
       demo_start).

(** ... and once the title section has been parsed for provider "sky". *)
Definition demo_titled : opentv_state :=
  final_state (_opentv_parse_event_section (huffman := demo_huffman) (epg := demo_epg)
                 demo_mod demo_title_section 25 OPENTV_TITLE demo_bound).

(** ... and the summary section for provider "skyit". *)
Definition demo_joined : opentv_state :=
  final_state (_opentv_parse_event_section (huffman := demo_huffman) (epg := demo_epg)
                 demo_mod_it demo_summary_section 23 OPENTV_SUMMARY demo_titled).

(** Scenario 3: PIDs 0x30, 0x31 and 0x40 each receive a first section and
    then a section with the same leading 20 bytes.  The OTA layer has the
    mux registered, reports it as not complete, and begins the pass at the
    first call. *)
Definition demo_section (pid : Z) : list Z := pid :: repeat 0xaa 24.

Definition demo_carousel : list incoming :=
  [mk_incoming 0x30 (demo_section 0x30) 25 (mk_ota_reply true false true);
   mk_incoming 0x31 (demo_section 0x31) 25 (mk_ota_reply true false false);
   mk_incoming 0x40 (demo_section 0x40) 25 (mk_ota_reply true false false);
   mk_incoming 0x30 (demo_section 0x30) 25 (mk_ota_reply true false false);
   mk_incoming 0x31 (demo_section 0x31) 25 (mk_ota_reply true false false);
   mk_incoming 0x40 (demo_section 0x40) 25 (mk_ota_reply true false false)].

(** ** Configuration loading and module set-up *)

Arguments prov_nid {codes}.
Arguments prov_sid {codes}.
Arguments prov_channel {codes}.
Arguments prov_title {codes}.
Arguments prov_summary {codes}.

(** A conversion to [int] (32 bits, two's complement). *)
Definition int_cast (z : Z) : Z := (z + 2 ^ 31) mod 2 ^ 32 - 2 ^ 31.

(** The first loop of [_pid_list_to_array]: [i] goes up once per field
    whose [hmf_s64] is not zero.  A message is given by the [hmf_s64] of
    its fields, in order. *)
Fixpoint count_pid_fields (m : list Z) (i : nat) : nat :=
  match m with
  | [] => i
  | v :: m' => count_pid_fields m' (if v =? 0 then i else S i)
  end.

(** The second loop: [ret[i++] = (int)f->hmf_s64] for the same fields. *)
Fixpoint fill_pid_array (m : list Z) (ret : list Z) (i : nat) : list Z :=
  match m with
  | [] => ret
  | v :: m' =>
      if v =? 0 then fill_pid_array m' ret i
      else fill_pid_array m' (<[i := int_cast v]> ret) (S i)
  end.

(** [_pid_list_to_array]: [calloc(i, sizeof(int))] with [i] counted from
    1, then filled from index 0. *)
Definition _pid_list_to_array (m : list Z) : list Z :=
  fill_pid_array m (repeat 0 (count_pid_fields m 1)) 0.

(** The reading loop of [_opentv_tune], [while ( *t ) ... t++]: the
    entries of an array up to its first zero. *)
Fixpoint pids_until_zero (t : list Z) : list Z :=
  match t with
  | [] => []
  | p :: t' => if p =? 0 then [] else p :: pids_until_zero t'
  end.

(** What the settings getters ([htsmsg_get_str], [htsmsg_get_list],
    [htsmsg_get_u32]; htsmsg.c is outside this file's sources) return for
    the fields [_opentv_prov_load] asks for: [None] for a missing field.
    A list is given by the [hmf_s64] of its fields. *)
Record prov_fields : Type := mk_prov_fields {
  f_name : option string;
  f_dict : option string;
  f_channel : option (list Z);
  f_title : option (list Z);
  f_summary : option (list Z);
  f_nid : option Z;
  f_tsid : option Z;
  f_sid : option Z
}.

Section Registries.
Context {codes : Type}.

(** [_opentv_dict_find] on the dictionary tree [_opentv_dicts], which is
    ordered by [strcmp] on the identifier. *)
Definition _opentv_dict_find (id : string) (dicts : gmap string codes) : option codes :=
  dicts !! id.

(** [_opentv_dict_load]: the return value and the dictionary tree.
    [tree] is what [huffman_tree_build] makes of the message. *)
Definition _opentv_dict_load (id : string) (tree : option codes)
    (dicts : gmap string codes) : Z * gmap string codes :=
  match dicts !! id with
  | Some _ => (0, dicts)
  | None =>
      match tree with
      | None => (-1, dicts)
      | Some c => (1, <[id := c]> dicts)
      end
  end.

(** [_opentv_prov_load]: the return value and the provider tree
    [_opentv_provs]. *)
Definition _opentv_prov_load (id : string) (m : prov_fields)
    (dicts : gmap string codes) (provs : gmap string (opentv_prov codes))
  : Z * gmap string (opentv_prov codes) :=
  match f_name m with
  | None => (-1, provs)
  | Some name =>
  match f_dict m with
  | None => (-1, provs)
  | Some str =>
  match _opentv_dict_find str dicts with
  | None => (-1, provs)
  | Some dict =>
  match f_channel m with
  | None => (-1, provs)
  | Some cl =>
  match f_title m with
  | None => (-5, provs)
  | Some tl =>
  match f_summary m with
  | None => (-1, provs)
  | Some sl =>
  match f_nid m with
  | None => (-1, provs)
  | Some nid =>
  match f_tsid m with
  | None => (-1, provs)
  | Some tsid =>
  match f_sid m with
  | None => (-1, provs)
  | Some sid =>
      match provs !! id with
      | Some _ => (0, provs)
      | None =>
          (1, <[id := mk_prov id name (int_cast nid) (int_cast tsid) (int_cast sid)
                        (_pid_list_to_array cl) (_pid_list_to_array tl)
                        (_pid_list_to_array sl) dict]> provs)
      end
  end end end end end end end end end.

(** The dictionary loop of [opentv_init].  [names] are the [hmf_name] of
    the fields of the settings message, in order.  The loop does not
    take the list from the field it stands on: it asks
    [htsmsg_get_list(m, f->hmf_name)], by name, in the message it walks,
    so two fields of one name get the same answer.  [get] is that answer
    (htsmsg.c is outside these sources): [None] for NULL, and for a list
    what [huffman_tree_build] makes of it. *)
Definition load_dictionaries (names : list string) (get : string -> option (option codes))
    (dicts : gmap string codes) : gmap string codes :=
  fold_left (fun d name => match get name with
                           | Some tree => snd (_opentv_dict_load name tree d)
                           | None => d
                           end) names dicts.

(** The provider loop of [opentv_init]: each entry is a field name with
    the provider fields read from that field ([htsmsg_get_map_by_field]);
    a field that is not a map is passed over. *)
Definition load_providers (entries : list (string * option prov_fields))
    (dicts : gmap string codes) (provs : gmap string (opentv_prov codes))
  : gmap string (opentv_prov codes) :=
  fold_left (fun p e => match snd e with
                        | Some m => snd (_opentv_prov_load (fst e) m dicts p)
                        | None => p
                        end) entries provs.

End Registries.

(** The part of [epggrab_module_t] the set-up code works on. *)
Record epggrab_module_base : Type := mk_base {
  m_id : string;
  m_name : string;
  m_enabled : Z
}.

(** A call of [tdt_add]: the first filter and mask byte, the callback
    and the PID. *)
Inductive table_callback : Type := Channel_callback | Title_callback | Summary_callback.

Record installed_table : Type := mk_table {
  tbl_filter : Z;
  tbl_mask : Z;
  tbl_callback : table_callback;
  tbl_pid : Z
}.

(** Calls into the OTA layer made by [_opentv_enable]. *)
Inductive ota_call : Type :=
| Ota_register (tdmi : th_dvb_mux_instance) (max period : Z)
| Ota_unregister_one (tdmi : th_dvb_mux_instance).

Definition OPENTV_SCAN_MAX : Z := 600.
Definition OPENTV_SCAN_PER : Z := 3600.

Section Setup.
Context {codes : Type}.

(** [_opentv_tune]: the tables it adds to the mux, in order. *)
Definition _opentv_tune (m : epggrab_module_base) (omod : opentv_module codes)
    (tdmi : th_dvb_mux_instance) : list installed_table :=
  if negb (m_enabled m =? 0)
     && (prov_tsid (mod_prov omod) =? tdmi_transport_stream_id tdmi)
  then
    map (mk_table 0x4a 0xff Channel_callback) (pids_until_zero (prov_channel (mod_prov omod)))
    ++ map (mk_table 0xa0 0xfc Title_callback) (pids_until_zero (prov_title (mod_prov omod)))
    ++ map (mk_table 0xa8 0xfc Summary_callback)
         (pids_until_zero (prov_summary (mod_prov omod)))
  else [].

(** The walk of [_opentv_enable] over the muxes of one adapter. *)
Fixpoint enable_muxes (tsid e : Z) (ms : list th_dvb_mux_instance) : list ota_call :=
  match ms with
  | [] => []
  | tdmi :: ms' =>
      if tdmi_transport_stream_id tdmi =? tsid then
        (if e =? 0 then Ota_unregister_one tdmi
         else Ota_register tdmi OPENTV_SCAN_MAX OPENTV_SCAN_PER)
        :: enable_muxes tsid e ms'
      else enable_muxes tsid e ms'
  end.

Fixpoint enable_adapters (tsid e : Z) (tdas : list th_dvb_adapter) : list ota_call :=
  match tdas with
  | [] => []
  | tda :: tdas' => enable_muxes tsid e (tda_muxes tda) ++ enable_adapters tsid e tdas'
  end.

(** [_opentv_enable]: the return value, the module and the calls made;
    [e] is a [uint8_t]. *)
Definition _opentv_enable (dvb_adapters : list th_dvb_adapter)
    (m : epggrab_module_base) (omod : opentv_module codes) (e : Z)
  : Z * epggrab_module_base * list ota_call :=
  if m_enabled m =? u8 e then (0, m, [])
  else
    (1, mk_base (m_id m) (m_name m) (u8 e),
     enable_adapters (prov_tsid (mod_prov omod)) (u8 e) dvb_adapters).

(** The module [opentv_init] creates for a provider. *)
Definition init_module (p : opentv_prov codes) : epggrab_module_base * opentv_module codes :=
  (mk_base ("opentv-" +:+ prov_id p) ("OpenTV: " +:+ prov_name p) 0, mk_module p []).

End Setup.

(** The tree the settings message holds for [id]: [id] is the name of
    one of its fields, the list fetched under that name is there and the
    tree can be built from it. *)
Definition settings_tree {codes : Type} (names : list string)
    (get : string -> option (option codes)) (id : string) : option codes :=
  if bool_decide (id ∈ names) then
    match get id with
    | Some (Some c) => Some c
    | _ => None
    end
  else None.

(** What a provider that came out of [_opentv_prov_load] looks like. *)
Definition loaded_provider {codes : Type} (dicts : gmap string codes) (id : string)
    (p : opentv_prov codes) : Prop :=
  prov_id p = id /\
  (exists str, dicts !! str = Some (prov_dict p)) /\
  (exists cl tl sl,
      prov_channel p = _pid_list_to_array cl /\
      prov_title p = _pid_list_to_array tl /\
      prov_summary p = _pid_list_to_array sl).

(** A value that [(int)] leaves as it is. *)
Definition fits_int (v : Z) : Prop := - 2 ^ 31 <= v < 2 ^ 31.

(** Provider settings as they are shipped: the "sky" provider of the
    small installation, with a zero among the title PIDs. *)
Definition demo_fields : prov_fields :=
  mk_prov_fields (Some "Sky UK") (Some "skyeng") (Some [0x11]) (Some [0x30; 0; 0x31])
                 (Some [0x40]) (Some 2) (Some 7) (Some 4152).

Definition demo_dicts : gmap string unit := {["skyeng" := tt]}.

Definition demo_mux : th_dvb_mux_instance :=
  mk_mux 7 [mk_service 0x1001 (Some demo_channel)].

(** The order of the three states of a status record within a pass. *)
Definition sta_rank (st : sta_status) : nat :=
  match st with
  | OPENTV_STA_INIT => 0
  | OPENTV_STA_STARTED => 1
  | OPENTV_STA_COMPLETE => 2
  end.

(** [new] continues [old] within a pass: same PID, a state that is not
    behind, and the fingerprint kept once it has been taken. *)
Definition sta_continues (old new : opentv_status) : Prop :=
  sta_pid new = sta_pid old /\
  (sta_rank (sta_state old) <= sta_rank (sta_state new))%nat /\
  (sta_state old <> OPENTV_STA_INIT -> sta_start new = sta_start old).

Section BatFrames.
Context {codes : Type}.

(** [chs'] comes from [chs] by BAT records of the module: every EPG
    channel of [chs] is in [chs'] as it was, and every other EPG channel
    of [chs'] is filed under its identifier and bound to a channel that
    the service lookup gives for some transport stream and service. *)
Definition bat_extends (dvb_adapters : list th_dvb_adapter) (omod : opentv_module codes)
    (chs chs' : gmap string epggrab_channel) : Prop :=
  (forall chid ec, chs !! chid = Some ec -> chs' !! chid = Some ec) /\
  (forall chid ec, chs' !! chid = Some ec ->
     chs !! chid = Some ec \/
     exists tsid sid cid ch,
       _opentv_find_channel dvb_adapters tsid sid = Some ch /\
       chid = chid_of omod cid /\
       ec = mk_epggrab_channel chid (Some ch)).

End BatFrames.

(** Every EPG channel is filed under its identifier and is bound. *)
Definition channels_bound (chs : gmap string epggrab_channel) : Prop :=
  map_Forall (fun chid ec => ec_id ec = chid /\ ec_channel ec <> None) chs.

(** Every partial event is filed under its own (channel id, event id),
    has a status byte, and is not complete. *)
Definition events_filed (events : gmap (Z * Z) opentv_event) : Prop :=
  map_Forall (fun key ev => ev_key ev = key /\ 0 <= ev_status ev < 256 /\
                            ev_status ev <> Z.lor OPENTV_TITLE OPENTV_SUMMARY) events.

(** No partial event carries a status bit other than [type]'s. *)
Definition only_role (type : Z) (events : gmap (Z * Z) opentv_event) : Prop :=
  map_Forall (fun _ ev => ev_status ev = 0 \/ ev_status ev = type) events.

From Stdlib Require Import Ascii.

(** A string without the character '-'. *)
Fixpoint dash_free (s : string) : Prop :=
  match s with
  | EmptyString => True
  | String a s' => a <> "-"%char /\ dash_free s'
  end.

(** The calls that hand a broadcast over. *)
Definition is_broadcast_call (c : epg_call) : bool :=
  match c with
  | Epg_broadcast_find_by_time _ _ _ _ => true
  | _ => false
  end.

(** A character that counts in the scan of [_opentv_parse_string]. *)
Definition counts_as_text (c : Z) : Prop := 0x20 < u8 c < 0x80.

(** [ev] with its summary, description, series link and status replaced. *)
Definition restamp (su de : option (list Z)) (se st : Z) (ev : opentv_event)
  : opentv_event :=
  mk_event (ev_cid ev) (ev_eid ev) (ev_start ev) (ev_stop ev) (ev_title ev) su de
           (ev_cat ev) se st.

(** The records the loop of [_opentv_parse_event] visits in an event
    block, by the same cursor: every one of them that fits the remaining
    length has a tag that [allowed] accepts. *)
Fixpoint block_tags (allowed : Z -> bool) (fuel : nat) (buf : list Z)
    (len slen : Z) (i : Z) : bool :=
  if i <? slen + 4 then
    match fuel with
    | O => true
    | S fuel' =>
        (negb (byte_at (ptr_add buf i) 1 + 2 <=? len - i)
         || allowed (byte_at (ptr_add buf i) 0))
        && block_tags allowed fuel' buf len slen (i + (byte_at (ptr_add buf i) 1 + 2))
      end
  else true.

(** Tags a title section is expected to carry: anything but summary,
    description and series link. *)
Definition title_side (tag : Z) : bool :=
  negb (tag =? 0xb9) && negb (tag =? 0xbb) && negb (tag =? 0xc1).

(** Tags a summary section is expected to carry: anything but title. *)
Definition summary_side (tag : Z) : bool := negb (tag =? 0xb5).

(** The one event block of a section carries records of one side only. *)
Definition block_of_section (allowed : Z -> bool) (buf : list Z) (len : Z) : Prop :=
  block_tags allowed (Z.to_nat (event_slen (ptr_add buf 7))) (ptr_add buf 7) (len - 7)
    (event_slen (ptr_add buf 7)) 4 = true.

(** The provider that [_opentv_prov_load] makes of [demo_fields]. *)
Definition demo_loaded : opentv_prov unit :=
  mk_prov "sky" "Sky UK" 2 7 4152 [0x11; 0] [0x30; 0x31; 0] [0x40; 0] tt.

(** The partial event the title section leaves in the tree. *)
Definition demo_partial : opentv_event :=
  mk_event 0x42 0x1234 1590883712 1590883840 (Some [72; 101; 108; 108; 111]) None None
           0x10 0 OPENTV_TITLE.

(** * Properties *)

(** ** Machine arithmetic *)

Lemma u8_range z : 0 <= u8 z < 256.
Proof. unfold u8. apply Z.mod_pos_bound. lia. Qed.

Lemma byte_at_range buf i : 0 <= byte_at buf i < 256.
Proof. apply u8_range. Qed.

Lemma u8_land z : u8 z = Z.land z 255.
Proof. unfold u8. change 255 with (Z.ones 8). now rewrite Z.land_ones by lia. Qed.

Lemma time_t_wrap_small z : - 2 ^ 63 <= z < 2 ^ 63 -> time_t_wrap z = z.
Proof. intros Hz. unfold time_t_wrap. rewrite Z.mod_small; lia. Qed.

(** Two bytes joined as [(hi << 8) | lo] form a 16-bit value. *)
Lemma be16_range hi lo :
  0 <= hi < 256 -> 0 <= lo < 256 -> 0 <= Z.lor (Z.shiftl hi 8) lo < 65536.
Proof.
  intros Hhi Hlo. split.
  - apply Z.lor_nonneg. split; [apply Z.shiftl_nonneg|]; lia.
  - destruct (Z.eq_dec (Z.lor (Z.shiftl hi 8) lo) 0) as [->|Hne]; [lia|].
    assert (Hnn : 0 <= Z.lor (Z.shiftl hi 8) lo).
    { apply Z.lor_nonneg. split; [apply Z.shiftl_nonneg|]; lia. }
    change 65536 with (2 ^ 16). apply Z.log2_lt_pow2; [lia|].
    rewrite Z.log2_lor by (try apply Z.shiftl_nonneg; lia).
    apply Z.max_lub_lt.
    + destruct (Z.eq_dec hi 0) as [->|Hh]; [reflexivity|].
      rewrite Z.log2_shiftl by lia.
      assert (Z.log2 hi < 8) by (apply Z.log2_lt_pow2; lia). lia.
    + destruct (Z.eq_dec lo 0) as [->|Hl]; [reflexivity|].
      assert (Z.log2 lo < 8) by (apply Z.log2_lt_pow2; lia). lia.
Qed.

Lemma quantum_offset_range b0 b1 :
  0 <= b0 < 256 -> 0 <= b1 < 256 -> 0 <= quantum_offset b0 b1 < 2 ^ 17.
Proof.
  intros H0 H1. unfold quantum_offset.
  assert (Hnn : 0 <= Z.lor (Z.shiftl b0 9) (Z.shiftl b1 1)).
  { apply Z.lor_nonneg. split; apply Z.shiftl_nonneg; lia. }
  split; [exact Hnn|].
  destruct (Z.eq_dec (Z.lor (Z.shiftl b0 9) (Z.shiftl b1 1)) 0) as [->|Hne]; [lia|].
  apply Z.log2_lt_pow2; [lia|].
  rewrite Z.log2_lor by (apply Z.shiftl_nonneg; lia).
  apply Z.max_lub_lt.
  - destruct (Z.eq_dec b0 0) as [->|Hh]; [reflexivity|].
    rewrite Z.log2_shiftl by lia.
    assert (Z.log2 b0 < 8) by (apply Z.log2_lt_pow2; lia). lia.
  - destruct (Z.eq_dec b1 0) as [->|Hl]; [reflexivity|].
    rewrite Z.log2_shiftl by lia.
    assert (Z.log2 b1 < 8) by (apply Z.log2_lt_pow2; lia). lia.
Qed.

(** ** The payload length of an event block *)

(** A byte has no bit in common with [0xf << 8]. *)
Lemma byte_land_0xf00 b : 0 <= b < 256 -> Z.land b (Z.shiftl 0xf 8) = 0.
Proof.
  intros Hb. rewrite <- (Z.mod_small b 256) by lia.
  change (b mod 256) with (u8 b). rewrite u8_land, <- Z.land_assoc.
  apply Z.land_0_r.
Qed.

(** As the source is written, the length of an event block is its
    fourth byte alone. *)
Lemma event_slen_low_byte buf : event_slen buf = byte_at buf 3.
Proof.
  unfold event_slen. rewrite byte_land_0xf00 by apply byte_at_range.
  apply Z.lor_0_l.
Qed.

(** Case analysis along the branches of [_opentv_parse_event_record]. *)
Ltac record_cases :=
  unfold _opentv_parse_event_record; cbn [ev_title set_times];
  repeat match goal with
    | |- context [if ?b then _ else _] => destruct b eqn:?
    | |- context [match ev_title ?e with _ => _ end] => destruct (ev_title e) eqn:?
    | |- context [match ev_summary ?e with _ => _ end] => destruct (ev_summary e) eqn:?
    | |- context [match ev_desc ?e with _ => _ end] => destruct (ev_desc e) eqn:?
    | |- context [mbind _ (_opentv_parse_string ?p ?b ?l)] =>
        let Hs := fresh "Heq_s" in
        destruct (_opentv_parse_string p b l) eqn:Hs; cbn [mbind outcome_bind]
    end.

Section RecordProperties.
Context {codes : Type} {huffman : Huffman codes}.

Lemma parse_string_fault (prov : opentv_prov codes) buf len :
  _opentv_parse_string prov buf len = Fault <-> len < 0.
Proof.
  unfold _opentv_parse_string. destruct (Z.ltb_spec len 0) as [Hlt|Hge].
  - tauto.
  - split; [|lia]. destruct (huffman_decode _ _ _ _ _) as [s|]; [|discriminate].
    destruct (has_printable s); discriminate.
Qed.

(** C1, which the source does not meet: on an event block whose length field is 0x100 the
    source computes a payload length of 0 and consumes 4 bytes, where
    [((buf[2] & 0x0F) << 8) | buf[3]] is 256 (260 bytes consumed). *)
Theorem payload_length_ignores_high_nibble :
  let buf := [0x12; 0x34; 0x01; 0x00] in
  event_slen buf = 0 /\
  Z.lor (Z.shiftl (Z.land (byte_at buf 2) 0x0f) 8) (byte_at buf 3) = 256 /\
  forall (prov : opentv_prov codes) len cid mjd events,
    exists events' key ev,
      _opentv_parse_event prov buf len cid mjd events = Ok (events', key, ev, 4).
Proof.
  cbv zeta. split; [reflexivity|]. split; [reflexivity|].
  intros prov len cid mjd events. unfold _opentv_parse_event.
  change (event_slen [18; 52; 1; 0]) with 0. cbn [Z.to_nat record_loop].
  change (4 <? 0 + 4) with false. cbn. eauto.
Qed.

(** The value returned by [_opentv_parse_event_record]. *)
Lemma record_cursor_advance_aux (prov : opentv_prov codes) ev buf len mjd ev' n :
  _opentv_parse_event_record prov ev buf len mjd = Ok (ev', n) -> n = byte_at buf 1 + 2.
Proof. record_cases; intros Heq; simplify_eq; reflexivity. Qed.

(** The one way [_opentv_parse_event_record] faults. *)
Lemma record_fault_iff (prov : opentv_prov codes) ev buf len mjd :
  _opentv_parse_event_record prov ev buf len mjd = Fault <->
  byte_at buf 0 = 0xb5 /\ byte_at buf 1 < 7 /\ byte_at buf 1 + 2 <= len /\
  ev_title ev = None.
Proof.
  split.
  - record_cases; intros Heq; try discriminate.
    all: apply parse_string_fault in Heq_s; pose proof (byte_at_range buf 1).
    all: repeat match goal with
           | H : (_ <=? _) = true |- _ => apply Z.leb_le in H
           | H : (_ =? _) = true |- _ => apply Z.eqb_eq in H
           end.
    all: try lia.
    repeat split; (lia || reflexivity).
  - intros (Htag & Hlen & Hfit & Htitle).
    unfold _opentv_parse_event_record. cbn [ev_title set_times].
    rewrite Htitle, Htag. cbn [Z.eqb Pos.eqb].
    destruct (Z.leb_spec (byte_at buf 1 + 2) len); [|lia].
    assert (Hf : _opentv_parse_string prov (ptr_add buf 9) (byte_at buf 1 - 7) = Fault)
      by (apply parse_string_fault; lia).
    rewrite Hf. reflexivity.
Qed.

(** C8, which the source does not meet for one kind of record.  A call
    of [_opentv_parse_event_record] that returns, returns the record's
    declared length plus 2, whatever the tag and whether or not the
    record fits the remaining [len], and the record loop moves its
    cursor by that amount.  But the call does not return for a fitting
    title record (tag 0xb5) of declared length below 7 on an event
    without title, and for no other record: there the cursor is not
    advanced, the record loop ends in the fault and the records behind
    it are not reached.  The bytes b5 03 01 00 00 40 10 with seven bytes
    left, on a fresh event, are such a record: the claim has the cursor
    move by 5. *)
Theorem record_cursor_advance (prov : opentv_prov codes) (ev : opentv_event)
    (buf : list Z) (len mjd : Z) :
  (forall ev' n, _opentv_parse_event_record prov ev buf len mjd = Ok (ev', n) ->
                 n = byte_at buf 1 + 2) /\
  (_opentv_parse_event_record prov ev buf len mjd = Fault <->
   byte_at buf 0 = 0xb5 /\ byte_at buf 1 < 7 /\ byte_at buf 1 + 2 <= len /\
   ev_title ev = None) /\
  (forall fuel slen i ev' n,
      i < slen + 4 ->
      _opentv_parse_event_record prov ev (ptr_add buf i) (len - i) mjd = Ok (ev', n) ->
      record_loop (S fuel) prov buf len mjd slen i ev =
      record_loop fuel prov buf len mjd slen (i + (byte_at (ptr_add buf i) 1 + 2)) ev') /\
  (forall fuel slen i,
      i < slen + 4 ->
      byte_at (ptr_add buf i) 0 = 0xb5 -> byte_at (ptr_add buf i) 1 < 7 ->
      byte_at (ptr_add buf i) 1 + 2 <= len - i -> ev_title ev = None ->
      record_loop (S fuel) prov buf len mjd slen i ev = Fault) /\
  (let rec := [0xb5; 0x03; 0x01; 0x00; 0x00; 0x40; 0x10] in
   byte_at rec 1 + 2 = 5 /\
   forall cid eid, _opentv_parse_event_record prov (skel_event cid eid) rec 7 mjd = Fault).
Proof.
  split; [|split; [|split; [|split]]].
  - intros ev' n. apply record_cursor_advance_aux.
  - apply record_fault_iff.
  - intros fuel slen i ev' n Hi Hrec. cbn [record_loop].
    destruct (Z.ltb_spec i (slen + 4)); [|lia].
    rewrite Hrec. cbn.
    now rewrite (record_cursor_advance_aux _ _ _ _ _ _ _ Hrec).
  - intros fuel slen i Hi Htag Hshort Hfit Htitle. cbn [record_loop].
    destruct (Z.ltb_spec i (slen + 4)); [|lia].
    assert (Hf : _opentv_parse_event_record prov ev (ptr_add buf i) (len - i) mjd = Fault)
      by (apply record_fault_iff; auto).
    rewrite Hf. reflexivity.
  - cbv zeta. split; [reflexivity|]. intros cid eid.
    apply record_fault_iff.
    repeat split; first [reflexivity | vm_compute; reflexivity | vm_compute; discriminate].
Qed.

Lemma keep_first_some old new : old <> None -> keep_first old new = old.
Proof. destruct old; [reflexivity | congruence]. Qed.

Lemma keep_first_none old : keep_first old None = old.
Proof. now destruct old. Qed.

Lemma record_fields (prov : opentv_prov codes) ev buf len mjd ev' n :
  _opentv_parse_event_record prov ev buf len mjd = Ok (ev', n) ->
  ev_title ev' = keep_first (ev_title ev) (record_title prov buf len) /\
  ev_summary ev' = keep_first (ev_summary ev) (record_summary prov buf len) /\
  ev_desc ev' = keep_first (ev_desc ev) (record_desc prov buf len) /\
  ev_cid ev' = ev_cid ev /\ ev_eid ev' = ev_eid ev /\ ev_status ev' = ev_status ev.
Proof.
  record_cases; intros Heq; simplify_eq;
    unfold record_title, record_summary, record_desc, fits;
    repeat match goal with
      | H : (byte_at buf 0 =? _) = true |- _ => apply Z.eqb_eq in H
      end;
    repeat match goal with
      | H : ?x = _ |- context [?x] => rewrite H
      end;
    cbn; rewrite ?keep_first_none;
    repeat match goal with
      | H : ?x = _ |- context [?x] => rewrite H
      end;
    repeat split; reflexivity.
Qed.

(** A record never changes a title, summary or description that is
    already there. *)
Lemma record_first_writer_wins (prov : opentv_prov codes) ev buf len mjd ev' n :
  _opentv_parse_event_record prov ev buf len mjd = Ok (ev', n) ->
  (ev_title ev <> None -> ev_title ev' = ev_title ev) /\
  (ev_summary ev <> None -> ev_summary ev' = ev_summary ev) /\
  (ev_desc ev <> None -> ev_desc ev' = ev_desc ev).
Proof.
  intros Hrec. destruct (record_fields _ _ _ _ _ _ _ Hrec) as (Ht & Hs & Hd & _).
  rewrite Ht, Hs, Hd. repeat split; apply keep_first_some.
Qed.

End RecordProperties.

(** ** The record loop of an event block *)

Section RecordLoop.
Context {codes : Type} {huffman : Huffman codes}.

Lemma record_advance_pos (prov : opentv_prov codes) ev buf len mjd ev' n :
  _opentv_parse_event_record prov ev buf len mjd = Ok (ev', n) -> 2 <= n < 258.
Proof.
  intros Hrec. pose proof (byte_at_range buf 1).
  assert (n = byte_at buf 1 + 2); [|lia].
  revert Hrec. record_cases; intros Heq; simplify_eq; reflexivity.
Qed.

(** The loop leaves through its test, never through lack of fuel: any
    fuel from [slen + 4 - i] on gives the same result. *)
Lemma record_loop_fuel (prov : opentv_prov codes) buf len mjd slen fuel1 :
  forall fuel2 i ev,
    (Z.to_nat (slen + 4 - i) <= fuel1)%nat ->
    (Z.to_nat (slen + 4 - i) <= fuel2)%nat ->
    record_loop fuel1 prov buf len mjd slen i ev =
    record_loop fuel2 prov buf len mjd slen i ev.
Proof.
  induction fuel1 as [|fuel1 IH]; intros fuel2 i ev H1 H2.
  - destruct fuel2; cbn [record_loop]; [reflexivity|].
    destruct (Z.ltb_spec i (slen + 4)); [lia | reflexivity].
  - destruct fuel2 as [|fuel2]; cbn [record_loop].
    + destruct (Z.ltb_spec i (slen + 4)); [lia | reflexivity].
    + destruct (Z.ltb_spec i (slen + 4)); [|reflexivity].
      destruct (_opentv_parse_event_record prov ev (ptr_add buf i) (len - i) mjd)
        as [[ev' n]|] eqn:Hrec; [|reflexivity].
      cbn. apply record_advance_pos in Hrec. apply IH; lia.
Qed.

(** The first-writer-wins fields, the key and the status along the loop. *)
Lemma record_loop_fields (prov : opentv_prov codes) buf len mjd slen fuel :
  forall i ev ev',
    record_loop fuel prov buf len mjd slen i ev = Ok ev' ->
    (ev_title ev <> None -> ev_title ev' = ev_title ev) /\
    (ev_summary ev <> None -> ev_summary ev' = ev_summary ev) /\
    (ev_desc ev <> None -> ev_desc ev' = ev_desc ev) /\
    ev_key ev' = ev_key ev /\ ev_status ev' = ev_status ev.
Proof.
  induction fuel as [|fuel IH]; intros i ev ev'; cbn [record_loop].
  - destruct (i <? slen + 4); intros Heq; simplify_eq; tauto.
  - destruct (i <? slen + 4); [|intros Heq; simplify_eq; tauto].
    destruct (_opentv_parse_event_record prov ev (ptr_add buf i) (len - i) mjd)
      as [[ev1 n]|] eqn:Hrec; [|discriminate].
    cbn. intros Hloop. apply IH in Hloop as (Ht & Hs & Hd & Hk & Hst).
    destruct (record_first_writer_wins _ _ _ _ _ _ _ Hrec) as (Ht1 & Hs1 & Hd1).
    destruct (record_fields _ _ _ _ _ _ _ Hrec) as (_ & _ & _ & Hc & He & Hst1).
    unfold ev_key in *. rewrite Hk, Hst, Hc, He, Hst1.
    repeat split.
    + intros Hne. specialize (Ht1 Hne). rewrite <- Ht1 in Hne. now rewrite (Ht Hne).
    + intros Hne. specialize (Hs1 Hne). rewrite <- Hs1 in Hne. now rewrite (Hs Hne).
    + intros Hne. specialize (Hd1 Hne). rewrite <- Hd1 in Hne. now rewrite (Hd Hne).
Qed.


End RecordLoop.

(** ** Start and stop times *)

Section Times.
Context {codes : Type} {huffman : Huffman codes}.

(** The MJD read from a section is a 16-bit value. *)
Lemma section_mjd_range buf : 0 <= section_mjd buf < 65536.
Proof. apply be16_range; apply byte_at_range. Qed.

Lemma mjd_to_unix_exact m : 0 <= m < 65536 -> mjd_to_unix m = (m - 40587) * 86400.
Proof. intros Hm. unfold mjd_to_unix. apply time_t_wrap_small. lia. Qed.

Lemma section_time_base_in_range buf : mjd_in_range (mjd_to_unix (section_mjd buf)).
Proof.
  pose proof (section_mjd_range buf) as Hm. unfold mjd_in_range.
  rewrite mjd_to_unix_exact by exact Hm. lia.
Qed.

(** What a fitting title record does to the times: the offsets are
    non-negative, [start = mjd + start_offset] and
    [stop = start + duration_offset]. *)
Lemma title_record_times (prov : opentv_prov codes) ev buf len mjd ev' n :
  mjd_in_range mjd ->
  byte_at buf 1 + 2 <= len -> byte_at buf 0 = 0xb5 ->
  _opentv_parse_event_record prov ev buf len mjd = Ok (ev', n) ->
  0 <= quantum_offset (byte_at buf 2) (byte_at buf 3) /\
  0 <= quantum_offset (byte_at buf 4) (byte_at buf 5) /\
  ev_start ev' = mjd + quantum_offset (byte_at buf 2) (byte_at buf 3) /\
  ev_stop ev' = ev_start ev' + quantum_offset (byte_at buf 4) (byte_at buf 5) /\
  ev_cat ev' = byte_at buf 6.
Proof.
  intros Hmjd Hfit Htag.
  pose proof (quantum_offset_range (byte_at buf 2) (byte_at buf 3)
                (byte_at_range _ _) (byte_at_range _ _)) as Hs.
  pose proof (quantum_offset_range (byte_at buf 4) (byte_at buf 5)
                (byte_at_range _ _) (byte_at_range _ _)) as Hd.
  unfold mjd_in_range in Hmjd.
  unfold _opentv_parse_event_record. rewrite Htag. cbn [Z.eqb Pos.eqb].
  destruct (Z.leb_spec (byte_at buf 1 + 2) len); [|lia].
  cbn [ev_title set_times].
  rewrite (time_t_wrap_small (quantum_offset (byte_at buf 2) (byte_at buf 3) + mjd)) by lia.
  rewrite (time_t_wrap_small
             (quantum_offset (byte_at buf 4) (byte_at buf 5) +
              (quantum_offset (byte_at buf 2) (byte_at buf 3) + mjd))) by lia.
  destruct (ev_title ev).
  - intros Heq; simplify_eq; cbn. repeat split; lia.
  - destruct (_opentv_parse_string prov (ptr_add buf 9) (byte_at buf 1 - 7));
      cbn; intros Heq; simplify_eq; cbn. repeat split; lia.
Qed.

(** Every record keeps [start <= stop]. *)
Lemma record_times_ok (prov : opentv_prov codes) ev buf len mjd ev' n :
  mjd_in_range mjd -> event_times_ok ev ->
  _opentv_parse_event_record prov ev buf len mjd = Ok (ev', n) ->
  event_times_ok ev'.
Proof.
  intros Hmjd Hok Hrec.
  destruct (Z.leb_spec (byte_at buf 1 + 2) len) as [Hfit|Hnofit];
    [destruct (Z.eq_dec (byte_at buf 0) 0xb5) as [Htag|Htag]|].
  - destruct (title_record_times _ _ _ _ _ _ _ Hmjd Hfit Htag Hrec)
      as (_ & Hd & _ & Hstop & _).
    unfold event_times_ok. lia.
  - revert Hrec. unfold event_times_ok in *. apply Z.eqb_neq in Htag.
    unfold _opentv_parse_event_record. rewrite Htag.
    record_cases; intros Heq; simplify_eq; cbn; assumption.
  - revert Hrec. unfold _opentv_parse_event_record.
    destruct (Z.leb_spec (byte_at buf 1 + 2) len); [lia|].
    intros Heq; simplify_eq; assumption.
Qed.

Lemma record_loop_times_ok (prov : opentv_prov codes) buf len mjd slen fuel :
  forall i ev ev',
    mjd_in_range mjd -> event_times_ok ev ->
    record_loop fuel prov buf len mjd slen i ev = Ok ev' ->
    event_times_ok ev'.
Proof.
  induction fuel as [|fuel IH]; intros i ev ev' Hmjd Hok; cbn [record_loop].
  - destruct (i <? slen + 4); intros Heq; simplify_eq; assumption.
  - destruct (i <? slen + 4); [|intros Heq; simplify_eq; assumption].
    destruct (_opentv_parse_event_record prov ev (ptr_add buf i) (len - i) mjd)
      as [[ev1 n]|] eqn:Hrec; [|discriminate].
    cbn. apply IH; [assumption|]. eapply record_times_ok; eassumption.
Qed.

(** C7: the time base of an event section is [(mjd - 40587) * 86400] for
    the 16-bit MJD the section carries; on the 16-bit range the map is
    one-to-one, and MJD 40587 is Unix time 0. *)
Theorem mjd_to_unix_bijective (buf : list Z) (m1 m2 : Z)
    (H1 : 0 <= m1 < 65536) (H2 : 0 <= m2 < 65536) :
  0 <= section_mjd buf < 65536 /\
  mjd_to_unix (section_mjd buf) = (section_mjd buf - 40587) * 86400 /\
  mjd_to_unix m1 = (m1 - 40587) * 86400 /\
  (mjd_to_unix m1 = mjd_to_unix m2 <-> m1 = m2) /\
  mjd_to_unix 40587 = 0.
Proof.
  pose proof (section_mjd_range buf) as Hb.
  repeat split.
  - lia.
  - lia.
  - apply mjd_to_unix_exact, Hb.
  - apply mjd_to_unix_exact, H1.
  - rewrite !mjd_to_unix_exact by assumption. lia.
  - intros ->. reflexivity.
Qed.

Lemma mjd_to_unix_bijective_witness :
  mjd_to_unix 59000 = 1590883200 /\ (mjd_to_unix 59000 = mjd_to_unix 59001 <-> 59000 = 59001).
Proof.
  destruct (mjd_to_unix_bijective [0; 0x42; 0; 0; 0; 0xe6; 0x78] 59000 59001
              ltac:(lia) ltac:(lia)) as (_ & _ & Hval & Hinj & _).
  split; [exact Hval | exact Hinj].
Defined.

End Times.

(** ** Event blocks and event sections *)

(** The comparator of the tree calls two events equal exactly when they
    agree on (channel id, event id): the tree is a map on that key. *)
Lemma _ev_cmp_zero a b : _ev_cmp a b = 0 <-> ev_key a = ev_key b.
Proof.
  unfold _ev_cmp, ev_key.
  destruct (Z.eqb_spec (ev_cid a - ev_cid b) 0) as [Hc|Hc].
  - split; [intros He; f_equal; lia | intros Heq; injection Heq as _ He; lia].
  - split; [intros He; lia | intros Heq; injection Heq as Hc' _; lia].
Qed.

Section EventBlocks.
Context {codes : Type} {huffman : Huffman codes} {epg : EpgStore}.

(** What a returning [_opentv_parse_event] has done. *)
Lemma parse_event_inv (prov : opentv_prov codes) buf len cid mjd events events' key ev' n :
  _opentv_parse_event prov buf len cid mjd events = Ok (events', key, ev', n) ->
  key = (u16 cid, u16 (Z.lor (Z.shiftl (byte_at buf 0) 8) (byte_at buf 1))) /\
  n = event_slen buf + 4 /\
  events' = <[key := ev']> events /\
  record_loop (Z.to_nat (event_slen buf)) prov buf len mjd (event_slen buf) 4
    (default (skel_event cid (Z.lor (Z.shiftl (byte_at buf 0) 8) (byte_at buf 1)))
             (events !! key)) = Ok ev'.
Proof.
  unfold _opentv_parse_event.
  set (skel := skel_event cid _).
  change (ev_key skel)
    with (u16 cid, u16 (Z.lor (Z.shiftl (byte_at buf 0) 8) (byte_at buf 1))).
  set (key0 := (u16 cid, _)).
  replace (match events !! key0 with Some found => found | None => skel end)
    with (default skel (events !! key0)) by (destruct (events !! key0); reflexivity).
  destruct (record_loop _ _ _ _ _ _ _ _) as [e|] eqn:Hloop; cbn; [|discriminate].
  intros Heq; simplify_eq. auto.
Qed.

Lemma parse_event_advance (prov : opentv_prov codes) buf len cid mjd events r n :
  _opentv_parse_event prov buf len cid mjd events = Ok (r, n) -> 4 <= n < 260.
Proof.
  destruct r as [[events' key] ev']. intros Hev.
  apply parse_event_inv in Hev as (_ & -> & _).
  rewrite event_slen_low_byte. pose proof (byte_at_range buf 3). lia.
Qed.

Lemma skel_times_ok cid eid : event_times_ok (skel_event cid eid).
Proof. unfold event_times_ok. cbn. lia. Qed.

Lemma parse_event_times_ok (prov : opentv_prov codes) buf len cid mjd events events' key ev' n :
  mjd_in_range mjd ->
  map_Forall (fun _ ev => event_times_ok ev) events ->
  _opentv_parse_event prov buf len cid mjd events = Ok (events', key, ev', n) ->
  event_times_ok ev' /\ map_Forall (fun _ ev => event_times_ok ev) events'.
Proof.
  intros Hmjd Hall Hev. apply parse_event_inv in Hev as (_ & _ & -> & Hloop).
  assert (Hok : event_times_ok ev').
  { eapply record_loop_times_ok; [exact Hmjd| |exact Hloop].
    destruct (events !! key) as [found|] eqn:Hfound; cbn.
    - exact (Hall _ _ Hfound).
    - apply skel_times_ok. }
  split; [exact Hok|]. apply map_Forall_insert_2; assumption.
Qed.

Lemma epg_set_log c sl : snd (epg_set c sl) = snd sl ++ [c].
Proof. reflexivity. Qed.

(** Every call [emit_event] makes that names a start and a stop names
    those of the event. *)
Lemma emit_event_times_ok (omod : opentv_module codes) cid ch ev sl :
  event_times_ok ev ->
  Forall call_times_ok (snd sl) ->
  Forall call_times_ok (snd (emit_event omod cid ch ev sl)).
Proof.
  intros Hev Hlog. unfold emit_event, epg_set_if, epg_set.
  repeat match goal with
    | |- context [match ?x with _ => _ end] => destruct x eqn:?
    end;
    cbn [fst snd]; rewrite ?Forall_app; repeat split; try assumption;
    repeat constructor; exact Hev.
Qed.

Lemma set_status_times_ok ev st : event_times_ok ev -> event_times_ok (set_status ev st).
Proof. exact (fun H => H). Qed.

(** The event loop keeps the invariant, whether it returns or faults. *)
Lemma event_loop_times (omod : opentv_module codes) buf len cid mjd type ch fuel :
  forall i save s,
    mjd_in_range mjd -> times_invariant s ->
    times_invariant (final_state (fst (event_loop fuel omod buf len cid mjd type ch i save s))).
Proof.
  induction fuel as [|fuel IH]; intros i save s Hmjd Hinv; cbn [event_loop].
  - destruct (i <? len); exact Hinv.
  - destruct (i <? len); [|exact Hinv].
    destruct (_opentv_parse_event _ _ _ _ _ _) as [[[[events key] ev] n]|] eqn:Hev;
      [|exact Hinv].
    destruct Hinv as [Hstore Hlog].
    destruct (parse_event_times_ok _ _ _ _ _ _ _ _ _ _ Hmjd Hstore Hev) as [Hok Hstore'].
    cbn [ev_status set_status].
    destruct (_ =? _).
    + destruct (emit_event _ _ _ _ _) as [save' log] eqn:Hemit.
      apply IH; [exact Hmjd|]. split; cbn.
      * apply map_Forall_delete, Hstore'.
      * change log with (snd (save', log)). rewrite <- Hemit.
        apply emit_event_times_ok; [apply set_status_times_ok, Hok | exact Hlog].
    + apply IH; [exact Hmjd|]. split; cbn; [|exact Hlog].
      apply map_Forall_insert_2; [apply set_status_times_ok, Hok | exact Hstore'].
Qed.

Lemma parse_event_section_times (omod : opentv_module codes) buf len type s :
  times_invariant s ->
  times_invariant (final_state (_opentv_parse_event_section omod buf len type s)).
Proof.
  intros Hinv. unfold _opentv_parse_event_section.
  destruct (_opentv_find_epggrab_channel _ _ _ _) as [[[ec|] ?] ?]; [|exact Hinv].
  destruct (ec_channel ec) as [ch|]; [|exact Hinv].
  destruct (String.eqb _ _); [exact Hinv|].
  pose proof (event_loop_times omod buf len
                (Z.lor (Z.shiftl (byte_at buf 0) 8) (byte_at buf 1))
                (mjd_to_unix (section_mjd buf)) type ch (Z.to_nat len) 7 false s
                (section_time_base_in_range buf) Hinv) as Hloop.
  destruct (event_loop _ _ _ _ _ _ _ _ _ _ _) as [[s'|s'] save]; cbn in *; [|exact Hloop].
  destruct save; [|exact Hloop].
  destruct Hloop as [Hs Hl]. split; cbn; [exact Hs|].
  apply Forall_app; split; [exact Hl | repeat constructor].
Qed.

(** The event loop, too, leaves through its test: any fuel from
    [len - i] on gives the same result. *)
Lemma event_loop_fuel (omod : opentv_module codes) buf len cid mjd type ch fuel1 :
  forall fuel2 i save s,
    (Z.to_nat (len - i) <= fuel1)%nat ->
    (Z.to_nat (len - i) <= fuel2)%nat ->
    event_loop fuel1 omod buf len cid mjd type ch i save s =
    event_loop fuel2 omod buf len cid mjd type ch i save s.
Proof.
  induction fuel1 as [|fuel1 IH]; intros fuel2 i save s H1 H2.
  - destruct fuel2; cbn [event_loop]; [reflexivity|].
    destruct (Z.ltb_spec i len); [lia | reflexivity].
  - destruct fuel2 as [|fuel2]; cbn [event_loop].
    + destruct (Z.ltb_spec i len); [lia | reflexivity].
    + destruct (Z.ltb_spec i len); [|reflexivity].
      destruct (_opentv_parse_event _ _ _ _ _ _) as [[r n]|] eqn:Hev; [|reflexivity].
      pose proof (parse_event_advance _ _ _ _ _ _ _ _ Hev) as Hn.
      destruct r as [[events key] ev].
      destruct (_ =? _).
      * destruct (emit_event _ _ _ _ _). apply IH; lia.
      * apply IH; lia.
Qed.

Lemma event_loop_done (omod : opentv_module codes) buf len cid mjd type ch fuel i save s :
  len <= i -> event_loop fuel omod buf len cid mjd type ch i save s = (Returned s, save).
Proof.
  intros Hi. destruct fuel; cbn [event_loop];
    destruct (Z.ltb_spec i len); (lia || reflexivity).
Qed.

(** How the head of [_opentv_parse_event_section] decides. *)
Lemma section_head (omod : opentv_module codes) buf len type s :
  _opentv_parse_event_section omod buf len type s =
  match usable_channel omod (section_cid buf) (_opentv_channels s) with
  | None => Returned s
  | Some ch =>
      match event_loop (Z.to_nat len) omod buf len (section_cid buf)
              (mjd_to_unix (section_mjd buf)) type ch 7 false s with
      | (Returned s', save) =>
          Returned (if save
                    then mk_state (_opentv_events s') (_opentv_channels s')
                                  (epg_log s' ++ [Epg_updated])
                    else s')
      | (Crashed s', _) => Crashed s'
      end
  end.
Proof.
  unfold _opentv_parse_event_section, usable_channel, _opentv_find_epggrab_channel,
    epggrab_module_channel_find, section_cid.
  destruct (_opentv_channels s !! _) as [ec|]; [|reflexivity].
  destruct (ec_channel ec) as [ch|]; [|reflexivity].
  destruct (String.eqb _ _); reflexivity.
Qed.

(** A section of one event block, spelled out. *)
Lemma single_block_section (omod : opentv_module codes) buf len type s ch :
  usable_channel omod (section_cid buf) (_opentv_channels s) = Some ch ->
  single_block buf len ->
  _opentv_parse_event_section omod buf len type s =
  match record_loop (Z.to_nat (event_slen (ptr_add buf 7))) (mod_prov omod)
          (ptr_add buf 7) (len - 7) (mjd_to_unix (section_mjd buf))
          (event_slen (ptr_add buf 7)) 4
          (default (skel_event (section_cid buf) (block_eid (ptr_add buf 7)))
                   (_opentv_events s !! first_key buf)) with
  | Fault => Crashed s
  | Ok ev =>
      let ev1 := set_status ev (u8 (Z.lor (ev_status ev) type)) in
      if ev_status ev1 =? Z.lor OPENTV_TITLE OPENTV_SUMMARY then
        let '(save, log) := emit_event omod (section_cid buf) ch ev1 (false, epg_log s) in
        Returned (mk_state (delete (first_key buf) (_opentv_events s)) (_opentv_channels s)
                    (if save then log ++ [Epg_updated] else log))
      else
        Returned (mk_state (<[first_key buf := ev1]> (_opentv_events s))
                    (_opentv_channels s) (epg_log s))
  end.
Proof.
  intros Hch [Hlo Hhi]. rewrite section_head, Hch.
  destruct (Z.to_nat len) as [|fuel] eqn:Hfuel; [lia|].
  cbn [event_loop]. destruct (Z.ltb_spec 7 len); [|lia].
  unfold _opentv_parse_event.
  change (ev_key (skel_event (section_cid buf)
            (Z.lor (Z.shiftl (byte_at (ptr_add buf 7) 0) 8) (byte_at (ptr_add buf 7) 1))))
    with (first_key buf).
  change (Z.lor (Z.shiftl (byte_at (ptr_add buf 7) 0) 8) (byte_at (ptr_add buf 7) 1))
    with (block_eid (ptr_add buf 7)).
  replace (match _opentv_events s !! first_key buf with
           | Some found => found
           | None => skel_event (section_cid buf) (block_eid (ptr_add buf 7))
           end)
    with (default (skel_event (section_cid buf) (block_eid (ptr_add buf 7)))
                  (_opentv_events s !! first_key buf))
    by (destruct (_opentv_events s !! first_key buf); reflexivity).
  destruct (record_loop _ _ _ _ _ _ _ _) as [ev|]; cbn [mbind outcome_bind]; [|reflexivity].
  cbv zeta. cbn [ev_status set_status].
  destruct (_ =? _).
  - destruct (emit_event _ _ _ _ _) as [save log].
    rewrite event_loop_done by lia. cbn.
    rewrite delete_insert_eq. destruct save; reflexivity.
  - rewrite event_loop_done by lia. cbn.
    rewrite insert_insert_eq. reflexivity.
Qed.

End EventBlocks.

(** ** Joining titles and summaries *)

Section Join.
Context {codes : Type} {huffman : Huffman codes} {epg : EpgStore}.

Lemma record_loop_texts_kept (prov : opentv_prov codes) buf len mjd slen fuel i ev ev' :
  record_loop fuel prov buf len mjd slen i ev = Ok ev' ->
  texts_kept ev ev' /\ ev_status ev' = ev_status ev.
Proof.
  intros Hloop. apply record_loop_fields in Hloop as (Ht & Hs & Hd & _ & Hst).
  unfold texts_kept. auto.
Qed.

Lemma texts_kept_set_status old new st : texts_kept old new -> texts_kept old (set_status new st).
Proof. exact (fun H => H). Qed.

Lemma usable_channel_unbound (omod : opentv_module codes) cid chs :
  chs !! chid_of omod cid = None -> usable_channel omod cid chs = None.
Proof. unfold usable_channel. now intros ->. Qed.

(** C3, in the form that holds: a title or summary section whose channel id has no
    usable EPG channel (never created by a BAT section, or unbound, or
    bound to a channel without name) is dropped on entry: the call
    returns with the state as it was, so no partial event is created and
    no call reaches the EPG store. *)
Theorem unknown_channel_section_dropped (omod : opentv_module codes) (buf : list Z)
    (len type : Z) (s : opentv_state)
    (Hmiss : usable_channel omod (section_cid buf) (_opentv_channels s) = None) :
  _opentv_parse_event_section omod buf len type s = Returned s /\
  _opentv_events (final_state (_opentv_parse_event_section omod buf len type s))
    = _opentv_events s /\
  epg_log (final_state (_opentv_parse_event_section omod buf len type s)) = epg_log s.
Proof. rewrite section_head, Hmiss. auto. Qed.


(** C10: the tree of partial events is one for all modules and its key
    is (channel id, event id) alone.  A partial event that the title
    section of one module has put there is found under that key by the
    summary section of any other module, which merges its records onto
    it, hands the joined event to the EPG store and removes it. *)
Theorem partial_events_shared_by_all_modules (omodA omodB : opentv_module codes)
    (bufA bufB : list Z) (lenA lenB : Z) (s s1 s2 : opentv_state) (chA chB : channel_t)
    (HchA : usable_channel omodA (section_cid bufA) (_opentv_channels s) = Some chA)
    (HchB : usable_channel omodB (section_cid bufB) (_opentv_channels s) = Some chB)
    (Hkey : first_key bufB = first_key bufA)
    (HoneA : single_block bufA lenA) (HoneB : single_block bufB lenB)
    (Hnew : _opentv_events s !! first_key bufA = None)
    (HA : _opentv_parse_event_section omodA bufA lenA OPENTV_TITLE s = Returned s1)
    (HB : _opentv_parse_event_section omodB bufB lenB OPENTV_SUMMARY s1 = Returned s2) :
  exists e1 e2,
    _opentv_events s1 !! first_key bufA = Some e1 /\
    record_loop (Z.to_nat (event_slen (ptr_add bufB 7))) (mod_prov omodB)
      (ptr_add bufB 7) (lenB - 7) (mjd_to_unix (section_mjd bufB))
      (event_slen (ptr_add bufB 7)) 4 e1 = Ok e2 /\
    texts_kept e1 e2 /\
    _opentv_events s2 = delete (first_key bufA) (_opentv_events s1) /\
    _opentv_events s2 !! first_key bufA = None /\
    epg_log s2 =
      (let '(save, log) :=
         emit_event omodB (section_cid bufB) chB
           (set_status e2 (Z.lor OPENTV_TITLE OPENTV_SUMMARY)) (false, epg_log s1) in
       if save then log ++ [Epg_updated] else log).
Proof.
  rewrite (single_block_section _ _ _ _ _ _ HchA HoneA), Hnew in HA.
  cbn [default] in HA.
  destruct (record_loop _ _ _ _ _ _ _ _) as [ev|] eqn:Hloop1; [|discriminate].
  destruct (record_loop_texts_kept _ _ _ _ _ _ _ _ _ Hloop1) as [_ Hst1].
  cbv zeta in HA. cbn [ev_status set_status] in HA.
  rewrite Hst1 in HA. cbn [skel_event ev_status] in HA.
  change (u8 (Z.lor 0 OPENTV_TITLE)) with 1 in HA.
  change (1 =? Z.lor OPENTV_TITLE OPENTV_SUMMARY) with false in HA.
  cbv iota in HA. injection HA as <-.
  set (e1 := set_status ev 1) in *.
  rewrite (single_block_section _ _ _ _ _ chB) in HB; [|exact HchB|exact HoneB].
  cbn [_opentv_events _opentv_channels epg_log] in HB.
  rewrite Hkey, lookup_insert_eq in HB. cbn [default from_option] in HB. unfold id in HB.
  destruct (record_loop _ _ _ _ _ _ _ e1) as [e2|] eqn:Hloop2; [|discriminate].
  destruct (record_loop_texts_kept _ _ _ _ _ _ _ _ _ Hloop2) as [Hkept Hst2].
  cbv zeta in HB. cbn [ev_status set_status] in HB.
  rewrite Hst2 in HB. cbn [ev_status set_status e1] in HB.
  change (u8 (Z.lor 1 OPENTV_SUMMARY)) with 3 in HB.
  change (3 =? Z.lor OPENTV_TITLE OPENTV_SUMMARY) with true in HB. cbv iota in HB.
  exists e1, e2. cbn [_opentv_events].
  split; [apply lookup_insert_eq|].
  split; [exact Hloop2|].
  split; [exact Hkept|].
  change (Z.lor OPENTV_TITLE OPENTV_SUMMARY) with 3.
  destruct (emit_event _ _ _ _ _) as [save log]. injection HB as <-.
  cbn [_opentv_events epg_log].
  rewrite delete_insert_eq.
  split; [reflexivity|]. split; [apply lookup_delete_eq | reflexivity].
Qed.

End Join.

(** The fuel each definition hands to its loop is enough. *)
Lemma parse_event_fuel_enough {codes : Type} {huffman : Huffman codes}
    (prov : opentv_prov codes) buf len mjd ev fuel :
  (Z.to_nat (event_slen buf) <= fuel)%nat ->
  record_loop fuel prov buf len mjd (event_slen buf) 4 ev =
  record_loop (Z.to_nat (event_slen buf)) prov buf len mjd (event_slen buf) 4 ev.
Proof. intros Hfuel. apply record_loop_fuel; lia. Qed.

Lemma parse_event_section_fuel_enough {codes : Type} {huffman : Huffman codes}
    {epg : EpgStore} (omod : opentv_module codes) buf len cid mjd type ch s fuel :
  (Z.to_nat len <= fuel)%nat ->
  event_loop fuel omod buf len cid mjd type ch 7 false s =
  event_loop (Z.to_nat len) omod buf len cid mjd type ch 7 false s.
Proof. intros Hfuel. apply event_loop_fuel; lia. Qed.

(** ** Stop never precedes start *)

Section Reachability.
Context {codes : Type} {huffman : Huffman codes} {epg : EpgStore}.

Lemma reachable_times (s : opentv_state) : reachable s -> times_invariant s.
Proof.
  induction 1 as [|omod buf len type s _ IH|adapters omod buf len s _ IH].
  - split; cbn; [apply map_Forall_empty | constructor].
  - apply parse_event_section_times, IH.
  - exact IH.
Qed.

(** C6: in every state the decoders can reach, each broadcast that was
    handed to the EPG store has [start <= stop].  Behind it: a title
    record that is taken up sets [start = mjd + start_offset] and
    [stop = start + duration_offset], both offsets being the non-negative
    [(b0 << 9) | (b1 << 1)]; an event no title record has reached has
    start and stop 0. *)
Theorem emitted_stop_not_before_start (s : opentv_state) (Hs : reachable s)
    (ch : channel_t) (start stop eid : Z)
    (Hin : Epg_broadcast_find_by_time ch start stop eid ∈ epg_log s) :
  start <= stop /\
  (forall (prov : opentv_prov codes) ev sbuf rbuf rlen ev' n,
      byte_at rbuf 1 + 2 <= rlen -> byte_at rbuf 0 = 0xb5 ->
      _opentv_parse_event_record prov ev rbuf rlen (mjd_to_unix (section_mjd sbuf))
        = Ok (ev', n) ->
      0 <= quantum_offset (byte_at rbuf 2) (byte_at rbuf 3) /\
      0 <= quantum_offset (byte_at rbuf 4) (byte_at rbuf 5) /\
      ev_start ev' = mjd_to_unix (section_mjd sbuf)
                     + quantum_offset (byte_at rbuf 2) (byte_at rbuf 3) /\
      ev_stop ev' = ev_start ev' + quantum_offset (byte_at rbuf 4) (byte_at rbuf 5)) /\
  (forall cid eid', ev_start (skel_event cid eid') = 0 /\ ev_stop (skel_event cid eid') = 0).
Proof.
  split; [|split].
  - destruct (reachable_times s Hs) as [_ Hlog].
    rewrite Forall_forall in Hlog. exact (Hlog _ Hin).
  - intros prov ev sbuf rbuf rlen ev' n Hfit Htag Hrec.
    destruct (title_record_times _ _ _ _ _ _ _ (section_time_base_in_range sbuf)
                Hfit Htag Hrec) as (H1 & H2 & H3 & H4 & _).
    auto.
  - intros cid eid'. split; reflexivity.
Qed.

End Reachability.

(** ** The BAT decoder *)

Section BatProperties.
Context {codes : Type}.
Variable dvb_adapters : list th_dvb_adapter.

Lemma bat_service_loop_fuel (omod : opentv_module codes) buf tsid fuel1 :
  forall fuel2 k dlen chs,
    (Z.to_nat dlen <= fuel1)%nat -> (Z.to_nat dlen <= fuel2)%nat ->
    bat_service_loop dvb_adapters fuel1 omod buf tsid k dlen chs =
    bat_service_loop dvb_adapters fuel2 omod buf tsid k dlen chs.
Proof.
  induction fuel1 as [|fuel1 IH]; intros fuel2 k dlen chs H1 H2.
  - destruct fuel2; cbn [bat_service_loop]; [reflexivity|].
    destruct (Z.ltb_spec 0 dlen); [lia | reflexivity].
  - destruct fuel2 as [|fuel2]; cbn [bat_service_loop].
    + destruct (Z.ltb_spec 0 dlen); [lia | reflexivity].
    + destruct (Z.ltb_spec 0 dlen); [|reflexivity]. apply IH; lia.
Qed.

Lemma bat_descriptor_loop_fuel (omod : opentv_module codes) buf tsid fuel1 :
  forall fuel2 j tdlen chs,
    (Z.to_nat tdlen <= fuel1)%nat -> (Z.to_nat tdlen <= fuel2)%nat ->
    bat_descriptor_loop dvb_adapters fuel1 omod buf tsid j tdlen chs =
    bat_descriptor_loop dvb_adapters fuel2 omod buf tsid j tdlen chs.
Proof.
  induction fuel1 as [|fuel1 IH]; intros fuel2 j tdlen chs H1 H2.
  - destruct fuel2; cbn [bat_descriptor_loop]; [reflexivity|].
    destruct (Z.ltb_spec 0 tdlen); [lia | reflexivity].
  - destruct fuel2 as [|fuel2]; cbn [bat_descriptor_loop].
    + destruct (Z.ltb_spec 0 tdlen); [lia | reflexivity].
    + destruct (Z.ltb_spec 0 tdlen); [|reflexivity].
      pose proof (byte_at_range buf (j + 1)). apply IH; lia.
Qed.

Lemma bat_ts_loop_fuel (omod : opentv_module codes) buf fuel1 :
  forall fuel2 i tslen chs,
    (Z.to_nat tslen <= fuel1)%nat -> (Z.to_nat tslen <= fuel2)%nat ->
    bat_ts_loop dvb_adapters fuel1 omod buf i tslen chs =
    bat_ts_loop dvb_adapters fuel2 omod buf i tslen chs.
Proof.
  induction fuel1 as [|fuel1 IH]; intros fuel2 i tslen chs H1 H2.
  - destruct fuel2; cbn [bat_ts_loop]; [reflexivity|].
    destruct (Z.ltb_spec 0 tslen); [lia | reflexivity].
  - destruct fuel2 as [|fuel2]; cbn [bat_ts_loop].
    + destruct (Z.ltb_spec 0 tslen); [lia | reflexivity].
    + destruct (Z.ltb_spec 0 tslen); [|reflexivity].
      assert (0 <= Z.lor (Z.shiftl (Z.land (byte_at buf (i + 4)) 15) 8) (byte_at buf (i + 5))).
      { pose proof (byte_at_range buf (i + 4)). pose proof (byte_at_range buf (i + 5)).
        apply Z.lor_nonneg. split; [apply Z.shiftl_nonneg, Z.land_nonneg|]; lia. }
      apply IH; lia.
Qed.

(** What one BAT record does to the channel tree. *)
Lemma bat_record_cases (omod : opentv_module codes) tsid sid cid chs :
  bat_record dvb_adapters omod tsid sid cid chs =
  match _opentv_find_service dvb_adapters tsid sid with
  | Some t =>
      match s_ch t, chs !! chid_of omod cid with
      | Some ch, None =>
          <[chid_of omod cid := mk_epggrab_channel (chid_of omod cid) (Some ch)]> chs
      | _, _ => chs
      end
  | None => chs
  end.
Proof.
  unfold bat_record, _opentv_find_channel, _opentv_find_epggrab_channel,
    epggrab_module_channel_find.
  destruct (_opentv_find_service dvb_adapters tsid sid) as [t|]; [|reflexivity].
  destruct (s_ch t) as [ch|]; [|reflexivity].
  destruct (chs !! chid_of omod cid) as [ec|]; [reflexivity|].
  cbn [ec_id]. apply insert_insert_eq.
Qed.

(** C4, in the form that holds: a BAT record establishes the binding of the EPG
    channel exactly when the service is found, the service has a channel
    (named or not), and the EPG channel did not exist before; the binding
    is then to that channel.  Every other record leaves the channel tree
    as it was.  The innermost loop of the section applies this to each of
    its 9-byte records. *)
Theorem bat_record_binding (omod : opentv_module codes) (tsid sid cid : Z)
    (chs : gmap string epggrab_channel) :
  let chid := chid_of omod cid in
  let chs' := bat_record dvb_adapters omod tsid sid cid chs in
  (establishes_binding chid chs chs' <->
   exists t ch, _opentv_find_service dvb_adapters tsid sid = Some t /\
                s_ch t = Some ch /\ chs !! chid = None) /\
  (forall t ch, _opentv_find_service dvb_adapters tsid sid = Some t ->
                s_ch t = Some ch -> chs !! chid = None ->
                chs' = <[chid := mk_epggrab_channel chid (Some ch)]> chs) /\
  (~ establishes_binding chid chs chs' -> chs' = chs) /\
  (forall fuel buf k dlen,
      0 < dlen ->
      bat_service_loop dvb_adapters (S fuel) omod buf tsid k dlen chs =
      bat_service_loop dvb_adapters fuel omod buf tsid (k + 9) (dlen - 9)
        (bat_record dvb_adapters omod tsid
           (u16 (Z.lor (Z.shiftl (byte_at buf k) 8) (byte_at buf (k + 1))))
           (Z.lor (Z.shiftl (byte_at buf (k + 3)) 8) (byte_at buf (k + 4))) chs)).
Proof.
  cbv zeta.
  assert (Hloop : forall fuel buf k dlen,
             0 < dlen ->
             bat_service_loop dvb_adapters (S fuel) omod buf tsid k dlen chs =
             bat_service_loop dvb_adapters fuel omod buf tsid (k + 9) (dlen - 9)
               (bat_record dvb_adapters omod tsid
                  (u16 (Z.lor (Z.shiftl (byte_at buf k) 8) (byte_at buf (k + 1))))
                  (Z.lor (Z.shiftl (byte_at buf (k + 3)) 8) (byte_at buf (k + 4))) chs)).
  { intros fuel buf k dlen Hd. cbn [bat_service_loop].
    destruct (Z.ltb_spec 0 dlen); [reflexivity | lia]. }
  split; [|split; [|split; [|exact Hloop]]]; clear Hloop;
    rewrite bat_record_cases; unfold establishes_binding;
    destruct (_opentv_find_service dvb_adapters tsid sid) as [t|] eqn:Hfind;
    try destruct (s_ch t) as [ch|] eqn:Hch;
    try destruct (chs !! chid_of omod cid) as [ec|] eqn:Hec.
  all: try (split; [intros [_ Hne]; congruence
                   | intros (t' & ch' & Ht & Hc & Hn); congruence]).
  all: try (intros t' ch' Ht Hc Hn; congruence).
  all: try (intros _; reflexivity).
  - split.
    + intros _. exists t, ch. auto.
    + intros _. split; [exists ch; apply lookup_insert_eq|].
      rewrite lookup_insert_eq. discriminate.
  - intros Hno. exfalso. apply Hno. split; [exists ch; apply lookup_insert_eq|].
    rewrite lookup_insert_eq. discriminate.
Qed.

End BatProperties.

(** ** The carousel tracker *)

Section CarouselProperties.
Context {codes : Type}.

Lemma find_status_zero_pids pid (l : list opentv_status) :
  pid <> 0 -> Forall (fun sta => sta_pid sta = 0) l -> find_status pid l = None.
Proof.
  intros Hpid. induction 1 as [|sta l Hsta _ IH]; cbn; [reflexivity|].
  rewrite Hsta. destruct (Z.eqb_spec 0 pid); [congruence|]. now rewrite IH.
Qed.

(** With the status records as the source creates them (their [pid] is
    never assigned), a section on a non-zero PID never finds its record:
    a new one is put in front and left STARTED, the module is returned,
    and [epggrab_ota_complete] is not called. *)
Lemma callback_on_nonzero_pid (omod : opentv_module codes) pid buf len ota :
  pid <> 0 ->
  Forall (fun sta => sta_pid sta = 0) (mod_status omod) ->
  cb_completed (_opentv_table_callback omod pid buf len ota) = false /\
  Forall (fun sta => sta_pid sta = 0)
    (mod_status (cb_module (_opentv_table_callback omod pid buf len ota))).
Proof.
  intros Hpid Hall. unfold _opentv_table_callback.
  destruct (len <? 20); [auto|].
  destruct (ota_registered ota); cbn [negb]; [|auto].
  destruct (ota_is_complete ota); [auto|].
  set (l0 := if ota_begin ota then map reset_status (mod_status omod) else mod_status omod).
  assert (Hl0 : Forall (fun sta => sta_pid sta = 0) l0).
  { subst l0. destruct (ota_begin ota); [|exact Hall].
    apply Forall_fmap. eapply Forall_impl; [exact Hall|]. intros sta Hsta. exact Hsta. }
  rewrite (find_status_zero_pids pid l0 Hpid Hl0). cbn.
  split; [reflexivity|]. constructor; [reflexivity | exact Hl0].
Qed.

Lemma carousel_run_never_completes (sections : list incoming) :
  forall (omod : opentv_module codes) n,
    Forall (fun x => in_pid x <> 0) sections ->
    Forall (fun sta => sta_pid sta = 0) (mod_status omod) ->
    snd (carousel_run omod n sections) = n.
Proof.
  induction sections as [|x rest IH]; intros omod n Hpids Hall; [reflexivity|].
  inversion Hpids as [|? ? Hx Hrest]; subst. cbn [carousel_run].
  destruct (callback_on_nonzero_pid omod (in_pid x) (in_buf x) (in_len x) (in_ota x) Hx Hall)
    as [Hc Hall'].
  rewrite Hc. apply IH; assumption.
Qed.

(** Where a record is found: a section that does not repeat the
    fingerprint of a STARTED record falls through to
    [epggrab_ota_complete], whatever the other records say. *)
Lemma callback_completes_on_mismatch (omod : opentv_module codes) pid buf len n sta :
  20 <= len ->
  find_status pid (mod_status omod) = Some n ->
  mod_status omod !! n = Some sta ->
  sta_state sta = OPENTV_STA_STARTED ->
  sta_start sta <> fingerprint buf ->
  _opentv_table_callback omod pid buf len (mk_ota_reply true false false) =
  mk_callback_result (mk_module (mod_prov omod) (mod_status omod)) false true.
Proof.
  intros Hlen Hfind Hn Hst Hne. unfold _opentv_table_callback.
  destruct (Z.ltb_spec len 20); [lia|]. cbn [ota_registered ota_is_complete ota_begin negb].
  rewrite Hfind, Hn, Hst. rewrite bool_decide_eq_false_2 by exact Hne. reflexivity.
Qed.

End CarouselProperties.

(** ** The decoders at work on the small installation *)

Section Scenarios.
#[local] Existing Instance demo_huffman.
#[local] Existing Instance demo_epg.

(** Scenario 1 and 2 of the specification, with the title arriving
    through one provider's module and the summary through another's. *)
Example title_then_summary_join :
  _opentv_events demo_titled !! (0x42, 0x1234) =
    Some (mk_event 0x42 0x1234 1590883712 1590883840
            (Some [72; 101; 108; 108; 111]) None None 0x10 0 OPENTV_TITLE) /\
  demo_joined =
    mk_state ∅ (_opentv_channels demo_bound)
      [Epg_episode_find_by_uri "episode";
       Epg_episode_set_title 1 [72; 101; 108; 108; 111];
       Epg_episode_set_summary 1 [87; 111; 114; 108; 100];
       Epg_episode_set_description 1 [97; 98; 99];
       Epg_episode_set_genre 1 0x10;
       Epg_broadcast_find_by_time demo_channel 1590883712 1590883840 0x1234;
       Epg_broadcast_set_episode 3 1;
       Epg_updated].
Proof. split; vm_compute; reflexivity. Qed.

Lemma demo_bound_reachable : reachable demo_bound.
Proof. unfold demo_bound. do 2 apply reach_bat_section. apply reach_start. Qed.

Lemma demo_joined_reachable : reachable demo_joined.
Proof.
  unfold demo_joined, demo_titled. do 2 apply reach_event_section.
  apply demo_bound_reachable.
Qed.

Lemma emitted_stop_not_before_start_witness : 1590883712 <= 1590883840.
Proof.
  apply (emitted_stop_not_before_start demo_joined demo_joined_reachable
           demo_channel 1590883712 1590883840 0x1234).
  vm_compute. do 5 apply list_elem_of_further. apply list_elem_of_here.
Defined.

(** C1 aside: the same event block read the way the specification
    words it would span 260 bytes, not 4. *)
Example payload_length_as_specified :
  Z.lor (Z.shiftl (Z.land 0x01 0x0f) 8) 0x00 + 4 = 260.
Proof. reflexivity. Qed.

(** C2, which the source does not meet: in scenario 3 (PIDs 0x30, 0x31, 0x40, each a first
    section and then a repeat of its first 20 bytes) the tracker never
    calls [epggrab_ota_complete]: a new status record keeps the zero
    [pid] of [calloc], so no section finds the record of its PID; each
    of the six sections adds a record and leaves it STARTED. *)
Theorem carousel_scenario_never_completes :
  let r := carousel_run demo_mod 0 demo_carousel in
  snd r = 0%nat /\
  map sta_pid (mod_status (fst r)) = [0; 0; 0; 0; 0; 0] /\
  map sta_state (mod_status (fst r)) = repeat OPENTV_STA_STARTED 6.
Proof. cbv zeta. repeat split; vm_compute; reflexivity. Qed.

(** C2 aside: and with a record that is found (PID 0), a second section
    that differs from the first completes the pass while that record is
    still STARTED. *)
Example carousel_completes_while_started :
  carousel_run demo_mod 0
    [mk_incoming 0 (demo_section 1) 25 (mk_ota_reply true false true);
     mk_incoming 0 (demo_section 2) 25 (mk_ota_reply true false false)] =
  (mk_module demo_prov [mk_status 0 OPENTV_STA_STARTED (fingerprint (demo_section 1))],
   1%nat).
Proof. vm_compute. reflexivity. Qed.

(** C3 as worded does not hold: with no EPG channel for channel id 0x42, the
    title section leaves the tree of partial events empty. *)
Lemma unknown_channel_creates_no_partial_event :
  ~ unknown_channel_claim demo_mod demo_title_section 25 demo_summary_section 23 demo_start.
Proof.
  intros [Hcreated _]. vm_compute in Hcreated.
  destruct Hcreated as [ev Hev]. discriminate Hev.
Qed.

Lemma unknown_channel_section_dropped_witness :
  _opentv_parse_event_section demo_mod demo_title_section 25 OPENTV_TITLE demo_start
    = Returned demo_start /\
  _opentv_parse_event_section demo_mod demo_summary_section 23 OPENTV_SUMMARY demo_start
    = Returned demo_start.
Proof.
  split.
  - apply (unknown_channel_section_dropped demo_mod demo_title_section 25 OPENTV_TITLE
             demo_start). reflexivity.
  - apply (unknown_channel_section_dropped demo_mod demo_summary_section 23 OPENTV_SUMMARY
             demo_start). reflexivity.
Defined.

(** C4 as worded does not hold: the service 0x1002 of transport stream 7 has
    a channel without name, and the BAT section binds EPG channel
    "sky-67" to it all the same. *)
Lemma bat_binds_unnamed_channel :
  _opentv_channels
    (_opentv_bat_section demo_adapters demo_mod (demo_bat 0x10 0x02 0x00 0x43) 28 demo_start)
    !! "sky-67" = Some (mk_epggrab_channel "sky-67" (Some demo_unnamed)) /\
  ~ bat_binding_claim demo_adapters demo_mod 7 0x1002 0x43 ∅.
Proof.
  split; [vm_compute; reflexivity|].
  intros [Hbind _].
  destruct Hbind as (t & ch & Ht & Hch & Hname).
  - split; [exists demo_unnamed; vm_compute; reflexivity | vm_compute; discriminate].
  - vm_compute in Ht. injection Ht as <-. cbn in Hch. injection Hch as <-.
    apply Hname. reflexivity.
Qed.

(** C4 aside: an EPG channel that exists keeps its first binding. *)
Example bat_keeps_first_binding :
  bat_record demo_adapters demo_mod 7 0x1002 0x42 (_opentv_channels demo_bound)
  = _opentv_channels demo_bound /\
  _opentv_channels demo_bound !! "sky-66" = Some (mk_epggrab_channel "sky-66" (Some demo_channel)).
Proof. split; vm_compute; reflexivity. Qed.


Lemma partial_events_shared_by_all_modules_witness :
  prov_id (mod_prov demo_mod) <> prov_id (mod_prov demo_mod_it) /\
  exists e1,
    _opentv_events demo_titled !! (0x42, 0x1234) = Some e1 /\
    _opentv_events demo_joined !! (0x42, 0x1234) = None /\
    Epg_episode_set_title 1 [72; 101; 108; 108; 111] ∈ epg_log demo_joined.
Proof.
  split; [vm_compute; discriminate|].
  destruct (partial_events_shared_by_all_modules demo_mod demo_mod_it
              demo_title_section demo_summary_section 25 23
              demo_bound demo_titled demo_joined demo_channel demo_channel)
    as (e1 & e2 & He1 & _ & _ & _ & Hgone & _).
  - vm_compute. reflexivity.
  - vm_compute. reflexivity.
  - vm_compute. reflexivity.
  - unfold single_block. vm_compute. split; [reflexivity | discriminate].
  - unfold single_block. vm_compute. split; [reflexivity | discriminate].
  - vm_compute. reflexivity.
  - vm_compute. reflexivity.
  - vm_compute. reflexivity.
  - exists e1. split; [exact He1|]. split; [exact Hgone|].
    vm_compute. apply list_elem_of_further, list_elem_of_here.
Defined.

(** C5 aside: the same title section twice through the title callback
    on PID 0x30; both calls reach the event decoder, and the tree holds
    the one event either way. *)
Example title_section_twice_through_callback :
  let '(r1, p1) := _opentv_title_callback demo_mod 0x30 demo_title_section 25
                     (mk_ota_reply true false true) demo_bound in
  let '(r2, p2) := _opentv_title_callback (cb_module r1) 0x30 demo_title_section 25
                     (mk_ota_reply true false false) (final_state p1) in
  cb_returns_mod r1 = true /\ cb_returns_mod r2 = true /\
  p1 = Returned demo_titled /\ p2 = Returned demo_titled /\
  size (_opentv_events demo_titled) = 1%nat.
Proof. vm_compute. repeat split; reflexivity. Qed.

(** C9, which the source does not meet: a fitting title record of declared length 3 on an
    event without title does not return: [_opentv_parse_string] is
    called with length -4, [malloc(-3)] fails and [*ret = 0] stores
    through NULL.  The same record on an event that has a title sets
    start, stop and category and returns. *)
Theorem short_title_record_faults :
  let rec := [0xb5; 0x03; 0x01; 0x00; 0x00; 0x40; 0x10] in
  _opentv_parse_event_record demo_prov (skel_event 0x42 0x1234) rec 7 1590883200 = Fault /\
  _opentv_parse_string demo_prov (ptr_add rec 9) (byte_at rec 1 - 7) = Fault /\
  _opentv_parse_event_record demo_prov
    (set_title (skel_event 0x42 0x1234) (Some [72])) rec 7 1590883200
  = Ok (mk_event 0x42 0x1234 1590883712 1590883840 (Some [72]) None None 0x10 0 0, 5).
Proof. cbv zeta. repeat split; vm_compute; reflexivity. Qed.

End Scenarios.

(** * Further properties of the grabber *)

(** ** PID lists and the provider and dictionary registries *)

Section Configuration.
Context {codes : Type}.

Lemma int_cast_small v : fits_int v -> int_cast v = v.
Proof. unfold fits_int, int_cast. intros Hv. rewrite Z.mod_small; lia. Qed.

Lemma count_pid_fields_spec (m : list Z) :
  forall i, count_pid_fields m i = (i + length (filter (fun v : Z => v <> 0%Z) m))%nat.
Proof.
  induction m as [|v m IH]; intros i; cbn [count_pid_fields].
  - cbn. lia.
  - rewrite IH. destruct (Z.eqb_spec v 0) as [->|Hv].
    + rewrite filter_cons_False by tauto. reflexivity.
    + rewrite filter_cons_True by assumption. cbn. lia.
Qed.

Lemma fill_pid_array_spec (m : list Z) :
  forall ret i,
    (i + length (filter (fun v : Z => v <> 0%Z) m) <= length ret)%nat ->
    fill_pid_array m ret i =
    take i ret ++ map int_cast (filter (fun v : Z => v <> 0%Z) m)
      ++ drop (i + length (filter (fun v : Z => v <> 0%Z) m)) ret.
Proof.
  induction m as [|v m IH]; intros ret i Hlen; cbn [fill_pid_array].
  - cbn. rewrite Nat.add_0_r. symmetry. apply take_drop.
  - destruct (Z.eqb_spec v 0) as [->|Hv].
    + rewrite filter_cons_False in * by tauto. apply IH, Hlen.
    + rewrite filter_cons_True in * by assumption. cbn [length map] in *.
      rewrite IH by (rewrite length_insert; lia).
      rewrite drop_insert_lt by lia.
      rewrite (take_S_r (<[i:=int_cast v]> ret) i (int_cast v))
        by (apply list_lookup_insert_eq; lia).
      rewrite take_insert_ge by lia.
      rewrite <- app_assoc. cbn [app].
      replace (S i + length (filter (fun v0 : Z => v0 <> 0%Z) m))%nat
        with (i + S (length (filter (fun v0 : Z => v0 <> 0%Z) m)))%nat by lia.
      reflexivity.
Qed.

Lemma drop_repeat_last (k : nat) : drop k (repeat 0 (S k)) = [0].
Proof. induction k as [|k IH]; [reflexivity | exact IH]. Qed.

(** X1: the array [_pid_list_to_array] makes of a PID list holds the
    non-zero values of the list, each cut to an [int], in their order,
    and one closing zero. *)
Theorem pid_list_to_array_layout (m : list Z) :
  _pid_list_to_array m = map int_cast (filter (fun v : Z => v <> 0%Z) m) ++ [0] /\
  length (_pid_list_to_array m) = S (length (filter (fun v : Z => v <> 0%Z) m)).
Proof.
  assert (Harr : _pid_list_to_array m = map int_cast (filter (fun v : Z => v <> 0%Z) m) ++ [0]).
  { unfold _pid_list_to_array. rewrite count_pid_fields_spec.
    rewrite fill_pid_array_spec by (rewrite repeat_length; lia).
    rewrite take_0. cbn [app Nat.add]. f_equal. apply drop_repeat_last. }
  split; [exact Harr|].
  rewrite Harr, length_app, length_map. cbn. lia.
Qed.

Lemma pids_until_zero_app_zero (l rest : list Z) :
  Forall (fun v : Z => v <> 0%Z) l -> pids_until_zero (l ++ 0 :: rest) = l.
Proof.
  induction 1 as [|v l Hv _ IH]; cbn; [reflexivity|].
  destruct (Z.eqb_spec v 0); [contradiction|]. now rewrite IH.
Qed.

Lemma pids_until_zero_nonzero (t : list Z) : Forall (fun v : Z => v <> 0%Z) (pids_until_zero t).
Proof.
  induction t as [|p t IH]; cbn; [constructor|].
  destruct (Z.eqb_spec p 0); constructor; assumption.
Qed.

Lemma pid_array_round_trip_aux (m : list Z) :
  Forall fits_int m ->
  pids_until_zero (_pid_list_to_array m) = filter (fun v : Z => v <> 0%Z) m.
Proof.
  intros Hfit. unfold _pid_list_to_array. rewrite count_pid_fields_spec.
  rewrite fill_pid_array_spec by (rewrite repeat_length; lia).
  rewrite take_0. cbn [app Nat.add]. rewrite drop_repeat_last.
  assert (Hmap : map int_cast (filter (fun v : Z => v <> 0%Z) m)
                 = filter (fun v : Z => v <> 0%Z) m).
  { induction Hfit as [|v m Hv _ IH]; [reflexivity|].
    destruct (Z.eq_dec v 0) as [->|Hne].
    - rewrite filter_cons_False by tauto. exact IH.
    - rewrite filter_cons_True by assumption. cbn. now rewrite IH, int_cast_small. }
  rewrite Hmap. apply pids_until_zero_app_zero.
  apply Forall_forall. intros v Hv. apply list_elem_of_filter in Hv. tauto.
Qed.

(** X2: read back the way [_opentv_tune] reads it (up to the first
    zero), the array of a PID list whose values fit an [int] is the list
    with its zeros left out; whatever the values, what is read back holds
    no zero. *)
Theorem pid_array_round_trip (m : list Z) (Hfit : Forall fits_int m) :
  pids_until_zero (_pid_list_to_array m) = filter (fun v : Z => v <> 0%Z) m /\
  forall m' : list Z, Forall (fun v : Z => v <> 0%Z) (pids_until_zero (_pid_list_to_array m')).
Proof.
  split; [apply pid_array_round_trip_aux, Hfit|].
  intros m'. apply pids_until_zero_nonzero.
Qed.

Lemma dict_load_lookup (id name : string) (tree : option codes) (dicts : gmap string codes) :
  snd (_opentv_dict_load name tree dicts) !! id =
  match dicts !! id with
  | Some c => Some c
  | None => if String.eqb name id then tree else None
  end.
Proof.
  unfold _opentv_dict_load.
  destruct (String.eqb_spec name id) as [->|Hne].
  - destruct (dicts !! id) as [c0|] eqn:Hid; cbn; [now rewrite Hid|].
    destruct tree as [c|]; cbn; [apply lookup_insert_eq | exact Hid].
  - destruct (dicts !! name) as [c0|]; cbn; [now destruct (dicts !! id)|].
    destruct tree as [c|]; cbn; [|now destruct (dicts !! id)].
    rewrite lookup_insert_ne by exact Hne. now destruct (dicts !! id).
Qed.

(** X3: after the dictionary loop of [opentv_init], an identifier names
    the dictionary it named before, if any, and otherwise the tree built
    from the list that [htsmsg_get_list] returns for it, provided it is
    the name of a field, the list is there and the tree can be built.  A
    registered dictionary is never replaced, a name that comes twice is
    registered once (both fields are answered by the same list), and a
    list whose tree cannot be built registers nothing, however often its
    name comes. *)
Theorem load_dictionaries_first_wins (names : list string)
    (get : string -> option (option codes)) (dicts : gmap string codes) (id : string) :
  load_dictionaries names get dicts !! id =
  match dicts !! id with
  | Some c => Some c
  | None => settings_tree names get id
  end.
Proof.
  unfold load_dictionaries, settings_tree. revert dicts.
  induction names as [|name rest IH]; intros dicts; cbn [fold_left].
  - rewrite bool_decide_eq_false_2 by apply not_elem_of_nil. now destruct (dicts !! id).
  - rewrite IH.
    assert (Hstep : match get name with
                    | Some tree => snd (_opentv_dict_load name tree dicts)
                    | None => dicts
                    end !! id =
                    match dicts !! id with
                    | Some c => Some c
                    | None => if String.eqb name id
                              then match get id with Some (Some c) => Some c | _ => None end
                              else None
                    end).
    { destruct (String.eqb_spec name id) as [->|Hne].
      - destruct (get id) as [tree|]; [|now destruct (dicts !! id)].
        rewrite dict_load_lookup, String.eqb_refl. now destruct tree.
      - destruct (get name) as [tree|]; [|now destruct (dicts !! id)].
        rewrite dict_load_lookup. destruct (String.eqb_spec name id); [congruence|].
        reflexivity. }
    rewrite Hstep. destruct (dicts !! id) as [c0|]; [reflexivity|].
    destruct (String.eqb_spec name id) as [->|Hne].
    + rewrite (bool_decide_eq_true_2 (id ∈ id :: rest)) by apply list_elem_of_here.
      destruct (get id) as [[c|]|]; try reflexivity.
      all: destruct (bool_decide (id ∈ rest)); reflexivity.
    + destruct (decide (id ∈ rest)) as [Hin|Hnin].
      * rewrite (bool_decide_eq_true_2 _ Hin).
        rewrite (bool_decide_eq_true_2 (id ∈ name :: rest))
          by (apply list_elem_of_further, Hin).
        reflexivity.
      * rewrite (bool_decide_eq_false_2 _ Hnin).
        rewrite (bool_decide_eq_false_2 (id ∈ name :: rest)); [reflexivity|].
        intros Hin. apply elem_of_cons in Hin as [->|Hin]; [congruence | auto].
Qed.

(** The two ways [_opentv_prov_load] can end, as the loops and the
    set-up code use them. *)
Lemma prov_load_registers (id : string) (m : prov_fields) (dicts : gmap string codes)
    (provs : gmap string (opentv_prov codes)) :
  (fst (_opentv_prov_load id m dicts provs) = 1 ->
   provs !! id = None /\
   exists name str dict cl tl sl nid tsid sid,
     f_name m = Some name /\ f_dict m = Some str /\ dicts !! str = Some dict /\
     f_channel m = Some cl /\ f_title m = Some tl /\ f_summary m = Some sl /\
     f_nid m = Some nid /\ f_tsid m = Some tsid /\ f_sid m = Some sid /\
     snd (_opentv_prov_load id m dicts provs)
     = <[id := mk_prov id name (int_cast nid) (int_cast tsid) (int_cast sid)
                  (_pid_list_to_array cl) (_pid_list_to_array tl)
                  (_pid_list_to_array sl) dict]> provs) /\
  (fst (_opentv_prov_load id m dicts provs) <> 1 ->
   snd (_opentv_prov_load id m dicts provs) = provs).
Proof.
  unfold _opentv_prov_load, _opentv_dict_find.
  destruct (f_name m) as [name|]; [|cbn; split; intros; (lia || auto)].
  destruct (f_dict m) as [str|]; [|cbn; split; intros; (lia || auto)].
  destruct (dicts !! str) as [dict|] eqn:Hdict; [|cbn; split; intros; (lia || auto)].
  destruct (f_channel m) as [cl|]; [|cbn; split; intros; (lia || auto)].
  destruct (f_title m) as [tl|]; [|cbn; split; intros; (lia || auto)].
  destruct (f_summary m) as [sl|]; [|cbn; split; intros; (lia || auto)].
  destruct (f_nid m) as [nid|]; [|cbn; split; intros; (lia || auto)].
  destruct (f_tsid m) as [tsid|]; [|cbn; split; intros; (lia || auto)].
  destruct (f_sid m) as [sid|]; [|cbn; split; intros; (lia || auto)].
  destruct (provs !! id) as [p0|] eqn:Hid; cbn [fst snd].
  - split; intros; (lia || auto).
  - split; [|intros; congruence].
    intros _. split; [reflexivity|].
    exists name, str, dict, cl, tl, sl, nid, tsid, sid. repeat split. exact Hdict.
Qed.

(** X4: [_opentv_prov_load] returns 1 only for a provider it registers:
    the identifier was free, every field was there, the dictionary was
    registered, and the provider carries that dictionary, the three
    identifiers cut to [int] and the three PID arrays.  With any other
    return value the provider tree is as before; the value is 0 only for
    an identifier already taken, -5 only for a missing title list, and a
    provider registered earlier stays what it was in every case. *)
Theorem prov_load_outcome (id : string) (m : prov_fields) (dicts : gmap string codes)
    (provs : gmap string (opentv_prov codes)) :
  let r := _opentv_prov_load id m dicts provs in
  (fst r = 1 ->
   provs !! id = None /\
   exists name str dict cl tl sl nid tsid sid,
     f_name m = Some name /\ f_dict m = Some str /\ dicts !! str = Some dict /\
     f_channel m = Some cl /\ f_title m = Some tl /\ f_summary m = Some sl /\
     f_nid m = Some nid /\ f_tsid m = Some tsid /\ f_sid m = Some sid /\
     snd r = <[id := mk_prov id name (int_cast nid) (int_cast tsid) (int_cast sid)
                       (_pid_list_to_array cl) (_pid_list_to_array tl)
                       (_pid_list_to_array sl) dict]> provs) /\
  (fst r <> 1 -> snd r = provs) /\
  (fst r = 0 -> provs !! id <> None) /\
  (fst r = -5 -> f_title m = None) /\
  (fst r = 1 \/ fst r = 0 \/ fst r = -1 \/ fst r = -5) /\
  (forall p, provs !! id = Some p -> snd r !! id = Some p /\ fst r <> 1).
Proof.
  cbv zeta. unfold _opentv_prov_load, _opentv_dict_find.
  destruct (f_name m) as [name|]; [|cbn; repeat split; intros; (lia || auto)].
  destruct (f_dict m) as [str|]; [|cbn; repeat split; intros; (lia || auto)].
  destruct (dicts !! str) as [dict|] eqn:Hdict; [|cbn; repeat split; intros; (lia || auto)].
  destruct (f_channel m) as [cl|]; [|cbn; repeat split; intros; (lia || auto)].
  destruct (f_title m) as [tl|]; [|cbn; repeat split; intros; (lia || auto)].
  destruct (f_summary m) as [sl|]; [|cbn; repeat split; intros; (lia || auto)].
  destruct (f_nid m) as [nid|]; [|cbn; repeat split; intros; (lia || auto)].
  destruct (f_tsid m) as [tsid|]; [|cbn; repeat split; intros; (lia || auto)].
  destruct (f_sid m) as [sid|]; [|cbn; repeat split; intros; (lia || auto)].
  destruct (provs !! id) as [p0|] eqn:Hid; cbn [fst snd].
  - repeat split; intros; try lia; try congruence; auto.
  - split; [|repeat split; intros; try lia; try congruence; auto].
    intros _. split; [reflexivity|].
    exists name, str, dict, cl, tl, sl, nid, tsid, sid. repeat split. exact Hdict.
Qed.

Lemma prov_load_keeps (id id' : string) (m : prov_fields) (dicts : gmap string codes)
    (provs : gmap string (opentv_prov codes)) p :
  provs !! id' = Some p -> snd (_opentv_prov_load id m dicts provs) !! id' = Some p.
Proof.
  intros Hp.
  destruct (prov_load_registers id m dicts provs) as (H1 & Hn1).
  destruct (Z.eq_dec (fst (_opentv_prov_load id m dicts provs)) 1) as [He|Hne].
  - destruct (H1 He) as (Hfree & name & str & dict & cl & tl & sl & nid & tsid & sid & Hr).
    destruct Hr as (_ & _ & _ & _ & _ & _ & _ & _ & _ & ->).
    rewrite lookup_insert_ne; [exact Hp|]. intros ->. congruence.
  - now rewrite (Hn1 Hne).
Qed.

(** X5: the provider loop of [opentv_init] never replaces or removes a
    provider: the first declaration of an identifier stays in force.  A
    provider it adds is filed under its own identifier, refers to a
    registered dictionary, and has PID arrays made by
    [_pid_list_to_array]. *)
Theorem load_providers_first_wins (entries : list (string * option prov_fields))
    (dicts : gmap string codes) (provs : gmap string (opentv_prov codes)) :
  (forall id p, provs !! id = Some p -> load_providers entries dicts provs !! id = Some p) /\
  (forall id p, load_providers entries dicts provs !! id = Some p ->
                provs !! id = Some p \/ loaded_provider dicts id p).
Proof.
  unfold load_providers. revert provs.
  induction entries as [|[name o] rest IH]; intros provs; cbn [fold_left fst snd].
  - auto.
  - destruct o as [m|]; [|apply IH].
    destruct (IH (snd (_opentv_prov_load name m dicts provs))) as [IHkeep IHnew].
    split.
    + intros id p Hp. apply IHkeep, prov_load_keeps, Hp.
    + intros id p Hp. destruct (IHnew id p Hp) as [Hold|Hnew]; [|auto].
      destruct (prov_load_registers name m dicts provs) as (H1 & Hn1).
      destruct (Z.eq_dec (fst (_opentv_prov_load name m dicts provs)) 1) as [He|Hne].
      * destruct (H1 He) as (Hfree & nm & str & dict & cl & tl & sl & nid & tsid & sid & Hr).
        destruct Hr as (_ & _ & Hdict & _ & _ & _ & _ & _ & _ & Hsnd).
        rewrite Hsnd in Hold.
        destruct (decide (name = id)) as [->|Hneq].
        -- rewrite lookup_insert_eq in Hold. injection Hold as <-. right.
           split; [reflexivity|]. split; [exists str; exact Hdict|].
           exists cl, tl, sl. auto.
        -- rewrite lookup_insert_ne in Hold by exact Hneq. auto.
      * rewrite (Hn1 Hne) in Hold. auto.
Qed.

End Configuration.

(** ** Installing tables and enabling a module *)

Section SetupProperties.
Context {codes : Type}.

(** X6: [_opentv_tune] adds tables only for an enabled module on a mux
    of the provider's transport stream; every table it adds has a
    non-zero PID and one of the three filters 0x4a/0xff (channel
    callback), 0xa0/0xfc (title callback), 0xa8/0xfc (summary
    callback). *)
Theorem tune_installs_only_nonzero_pids (m : epggrab_module_base)
    (omod : opentv_module codes) (tdmi : th_dvb_mux_instance) (t : installed_table) :
  (t ∈ _opentv_tune m omod tdmi ->
   m_enabled m <> 0 /\
   prov_tsid (mod_prov omod) = tdmi_transport_stream_id tdmi /\
   tbl_pid t <> 0 /\
   ((tbl_filter t, tbl_mask t, tbl_callback t) = (0x4a, 0xff, Channel_callback) \/
    (tbl_filter t, tbl_mask t, tbl_callback t) = (0xa0, 0xfc, Title_callback) \/
    (tbl_filter t, tbl_mask t, tbl_callback t) = (0xa8, 0xfc, Summary_callback))) /\
  (m_enabled m = 0 \/ prov_tsid (mod_prov omod) <> tdmi_transport_stream_id tdmi ->
   _opentv_tune m omod tdmi = []).
Proof.
  unfold _opentv_tune. split.
  - destruct (Z.eqb_spec (m_enabled m) 0) as [He|He]; cbn [negb andb];
      [intros Hin; inversion Hin|].
    destruct (Z.eqb_spec (prov_tsid (mod_prov omod)) (tdmi_transport_stream_id tdmi))
      as [Hts|Hts]; [|intros Hin; inversion Hin].
    intros Hin. split; [exact He|]. split; [exact Hts|].
    rewrite !elem_of_app, !list_elem_of_fmap in Hin.
    destruct Hin as [(pid & -> & Hpid)|[(pid & -> & Hpid)|(pid & -> & Hpid)]];
      (split; [exact (proj1 (Forall_forall _ _) (pids_until_zero_nonzero _) _ Hpid)|]);
      cbn; auto.
  - intros [He|Hts].
    + rewrite He. reflexivity.
    + destruct (Z.eqb_spec (prov_tsid (mod_prov omod)) (tdmi_transport_stream_id tdmi));
        [contradiction|]. now rewrite andb_false_r.
Qed.

(** X7: from the settings to the filters.  For a provider that
    [_opentv_prov_load] has registered from PID lists whose values fit an
    [int], an enabled module on a mux of the provider's transport stream
    gets one table per non-zero configured PID: the channel PIDs first,
    then the title PIDs, then the summary PIDs, each in the order of the
    settings. *)
Theorem tune_follows_settings (id : string) (fields : prov_fields)
    (dicts : gmap string codes) (provs provs' : gmap string (opentv_prov codes))
    (p : opentv_prov codes) (cl tl sl : list Z)
    (m : epggrab_module_base) (tdmi : th_dvb_mux_instance)
    (Hload : _opentv_prov_load id fields dicts provs = (1, provs'))
    (Hp : provs' !! id = Some p)
    (Hcl : f_channel fields = Some cl) (Htl : f_title fields = Some tl)
    (Hsl : f_summary fields = Some sl)
    (Hfit : Forall fits_int (cl ++ tl ++ sl))
    (Hen : m_enabled m <> 0)
    (Hts : prov_tsid p = tdmi_transport_stream_id tdmi) :
  _opentv_tune m (mk_module p []) tdmi =
  map (mk_table 0x4a 0xff Channel_callback) (filter (fun v : Z => v <> 0) cl)
  ++ map (mk_table 0xa0 0xfc Title_callback) (filter (fun v : Z => v <> 0) tl)
  ++ map (mk_table 0xa8 0xfc Summary_callback) (filter (fun v : Z => v <> 0) sl).
Proof.
  destruct (prov_load_registers id fields dicts provs) as (H1 & _).
  rewrite Hload in H1. cbn [fst snd] in H1.
  destruct (H1 eq_refl)
    as (_ & name & str & dict & cl' & tl' & sl' & nid & tsid & sid & Hr).
  destruct Hr as (_ & _ & _ & Hcl' & Htl' & Hsl' & _ & _ & _ & ->).
  rewrite lookup_insert_eq in Hp. injection Hp as <-.
  assert (cl' = cl) as -> by congruence.
  assert (tl' = tl) as -> by congruence.
  assert (sl' = sl) as -> by congruence.
  apply Forall_app in Hfit as [Hfc Hfit]. apply Forall_app in Hfit as [Hft Hfs].
  unfold _opentv_tune. cbn [mod_prov prov_tsid prov_channel prov_title prov_summary] in *.
  destruct (Z.eqb_spec (m_enabled m) 0); [contradiction|].
  rewrite Hts, Z.eqb_refl. cbn [negb andb].
  now rewrite !pid_array_round_trip_aux by assumption.
Qed.

Lemma enable_muxes_spec (tsid e : Z) (ms : list th_dvb_mux_instance) :
  enable_muxes tsid e ms =
  map (fun tdmi => if e =? 0 then Ota_unregister_one tdmi
                   else Ota_register tdmi OPENTV_SCAN_MAX OPENTV_SCAN_PER)
      (filter (fun tdmi => tdmi_transport_stream_id tdmi = tsid) ms).
Proof.
  induction ms as [|tdmi ms IH]; [reflexivity|]. cbn [enable_muxes].
  destruct (Z.eqb_spec (tdmi_transport_stream_id tdmi) tsid) as [Heq|Hne].
  - rewrite filter_cons_True by exact Heq. cbn. now rewrite IH.
  - rewrite filter_cons_False by exact Hne. exact IH.
Qed.

Lemma enable_adapters_spec (tsid e : Z) (tdas : list th_dvb_adapter) :
  enable_adapters tsid e tdas =
  map (fun tdmi => if e =? 0 then Ota_unregister_one tdmi
                   else Ota_register tdmi OPENTV_SCAN_MAX OPENTV_SCAN_PER)
      (filter (fun tdmi => tdmi_transport_stream_id tdmi = tsid)
              (concat (map tda_muxes tdas))).
Proof.
  induction tdas as [|tda tdas IH]; [reflexivity|]. cbn [enable_adapters map concat].
  now rewrite filter_app, map_app, IH, enable_muxes_spec.
Qed.

(** X8: [_opentv_enable] acts only on a change of the enabled flag.
    When the flag already has the requested value it returns 0, calls
    nothing and leaves the module as it is, so a repeated request is
    without effect; otherwise it returns 1, stores the value, and makes
    one call for each mux of the provider's transport stream, in adapter
    and mux order: a registration (600 s per pass, every 3600 s) for a
    non-zero value, an unregistration for 0.  A module that was just
    disabled gets no tables from [_opentv_tune]. *)
Theorem enable_acts_on_change (dvb_adapters : list th_dvb_adapter)
    (m : epggrab_module_base) (omod : opentv_module codes) (e : Z) :
  let '(r, m', calls) := _opentv_enable dvb_adapters m omod e in
  m_enabled m' = u8 e /\
  _opentv_enable dvb_adapters m' omod e = (0, m', []) /\
  (m_enabled m = u8 e -> r = 0 /\ m' = m /\ calls = []) /\
  (m_enabled m <> u8 e ->
   r = 1 /\
   calls = map (fun tdmi => if u8 e =? 0 then Ota_unregister_one tdmi
                            else Ota_register tdmi 600 3600)
               (filter (fun tdmi => tdmi_transport_stream_id tdmi = prov_tsid (mod_prov omod))
                       (concat (map tda_muxes dvb_adapters)))) /\
  (u8 e = 0 -> forall tdmi, _opentv_tune m' omod tdmi = []).
Proof.
  unfold _opentv_enable.
  destruct (Z.eqb_spec (m_enabled m) (u8 e)) as [Heq|Hne].
  - rewrite <- Heq, Z.eqb_refl. repeat split; try congruence; try tauto.
    intros He tdmi. unfold _opentv_tune. rewrite He. reflexivity.
  - cbn [m_enabled]. rewrite Z.eqb_refl. repeat split; try congruence; try tauto.
    + apply enable_adapters_spec.
    + intros He tdmi. unfold _opentv_tune. cbn [m_enabled]. rewrite He. reflexivity.
Qed.

End SetupProperties.

(** ** More on the carousel tracker *)

Section TrackerProperties.
Context {codes : Type} {huffman : Huffman codes} {epg : EpgStore}.

Lemma find_status_some pid (l : list opentv_status) n :
  find_status pid l = Some n ->
  exists sta, l !! n = Some sta /\ sta_pid sta = pid.
Proof.
  revert n. induction l as [|sta l IH]; intros n; cbn; [discriminate|].
  destruct (Z.eqb_spec (sta_pid sta) pid) as [Hp|Hp].
  - intros [= <-]. exists sta. auto.
  - destruct (find_status pid l) as [k|]; cbn; [|discriminate].
    intros [= <-]. apply IH. reflexivity.
Qed.

(** X9: a section shorter than 20 bytes, a mux the OTA layer does not
    register, and a pass the OTA layer reports complete all end the
    callback at once: the module is as before, NULL is returned,
    [epggrab_ota_complete] is not called, and the title, summary and
    channel callbacks leave the partial events, the EPG channels and the
    EPG store alone.  Conversely the module is returned only while the
    pass runs, and never by a call that completes the pass. *)
Theorem callback_gate (omod : opentv_module codes) (pid : Z) (buf : list Z) (len : Z)
    (ota : ota_reply) (s : opentv_state) (dvb_adapters : list th_dvb_adapter) :
  (len < 20 \/ ota_registered ota = false \/ ota_is_complete ota = true ->
   _opentv_table_callback omod pid buf len ota = mk_callback_result omod false false /\
   _opentv_title_callback omod pid buf len ota s
     = (mk_callback_result omod false false, Returned s) /\
   _opentv_summary_callback omod pid buf len ota s
     = (mk_callback_result omod false false, Returned s) /\
   _opentv_channel_callback dvb_adapters omod pid buf len ota s
     = (mk_callback_result omod false false, s)) /\
  (cb_returns_mod (_opentv_table_callback omod pid buf len ota) = true ->
   20 <= len /\ ota_registered ota = true /\ ota_is_complete ota = false /\
   cb_completed (_opentv_table_callback omod pid buf len ota) = false) /\
  (cb_completed (_opentv_table_callback omod pid buf len ota) = true ->
   20 <= len /\ ota_registered ota = true /\ ota_is_complete ota = false).
Proof.
  assert (Hgate : len < 20 \/ ota_registered ota = false \/ ota_is_complete ota = true ->
                  _opentv_table_callback omod pid buf len ota
                  = mk_callback_result omod false false).
  { unfold _opentv_table_callback. intros [Hl|[Hr|Hc]].
    - destruct (Z.ltb_spec len 20); [reflexivity | lia].
    - rewrite Hr. now destruct (len <? 20).
    - rewrite Hc. destruct (len <? 20); [reflexivity|]. now destruct (ota_registered ota). }
  split; [|split].
  - intros Hg. unfold _opentv_title_callback, _opentv_summary_callback,
      _opentv_channel_callback. rewrite (Hgate Hg). auto.
  - destruct (Z.ltb_spec len 20) as [Hl|Hl];
      [rewrite Hgate by auto; discriminate|].
    destruct (ota_registered ota) eqn:Hr; [|rewrite Hgate by auto; discriminate].
    destruct (ota_is_complete ota) eqn:Hc; [rewrite Hgate by auto; discriminate|].
    intros Hret. repeat split; try assumption.
    revert Hret. unfold _opentv_table_callback. rewrite Hr, Hc.
    destruct (Z.ltb_spec len 20); [lia|]. cbn [negb].
    destruct (find_status _ _); cbn;
      repeat match goal with
        | |- context [match ?x with _ => _ end] => destruct x; cbn
        end; congruence.
  - destruct (Z.ltb_spec len 20) as [Hl|Hl];
      [rewrite Hgate by auto; discriminate|].
    destruct (ota_registered ota) eqn:Hr; [|rewrite Hgate by auto; discriminate].
    destruct (ota_is_complete ota) eqn:Hc; [rewrite Hgate by auto; discriminate|].
    auto.
Qed.

Lemma sta_continues_refl sta : sta_continues sta sta.
Proof. unfold sta_continues. auto. Qed.

(** X10: a call of the tracker that does not begin a new pass keeps
    every status record it had: the list is the old one, or the old one
    behind one new record, or the old one with the record found for the
    PID moved on; a record keeps its PID, never falls back to an earlier
    state, and keeps its fingerprint once it has left INIT.  The
    provider is never changed. *)
Theorem tracker_records_only_advance (omod : opentv_module codes) (pid : Z)
    (buf : list Z) (len : Z) (registered complete : bool) :
  let r := _opentv_table_callback omod pid buf len
             (mk_ota_reply registered complete false) in
  mod_prov (cb_module r) = mod_prov omod /\
  exists k : nat,
    (k <= 1)%nat /\
    length (mod_status (cb_module r)) = (k + length (mod_status omod))%nat /\
    forall i sta,
      mod_status omod !! i = Some sta ->
      exists sta', mod_status (cb_module r) !! (k + i)%nat = Some sta' /\
                   sta_continues sta sta'.
Proof.
  cbv zeta. unfold _opentv_table_callback. cbn [ota_registered ota_is_complete ota_begin].
  set (l := mod_status omod).
  assert (Hsame : exists k : nat, (k <= 1)%nat /\
              length l = (k + length l)%nat /\
              forall i sta, l !! i = Some sta ->
                exists sta', l !! (k + i)%nat = Some sta' /\ sta_continues sta sta').
  { exists 0%nat. repeat split; [lia|].
    intros i sta Hi. exists sta. split; [exact Hi | apply sta_continues_refl]. }
  destruct (len <? 20); [split; [reflexivity | exact Hsame]|].
  destruct registered; cbn [negb]; [|split; [reflexivity | exact Hsame]].
  destruct complete; [split; [reflexivity | exact Hsame]|].
  destruct (find_status pid l) as [n|] eqn:Hfind.
  - destruct (find_status_some _ _ _ Hfind) as (sta0 & Hn & Hpid).
    rewrite Hn.
    assert (Hupd : forall st fp,
              (sta_rank (sta_state sta0) <= sta_rank st)%nat ->
              (sta_state sta0 <> OPENTV_STA_INIT -> fp = sta_start sta0) ->
              exists k : nat, (k <= 1)%nat /\
                length (<[n := mk_status (sta_pid sta0) st fp]> l) = (k + length l)%nat /\
                forall i sta, l !! i = Some sta ->
                  exists sta', <[n := mk_status (sta_pid sta0) st fp]> l !! (k + i)%nat
                               = Some sta' /\ sta_continues sta sta').
    { intros st fp Hrank Hfp. exists 0%nat. split; [lia|].
      split; [apply length_insert|].
      intros i sta Hi. cbn [Nat.add].
      destruct (decide (n = i)) as [->|Hni].
      - rewrite list_lookup_insert_eq by (eapply lookup_lt_Some; exact Hi).
        eexists; split; [reflexivity|].
        assert (sta = sta0) as -> by congruence.
        unfold sta_continues. cbn. auto.
      - rewrite list_lookup_insert_ne by exact Hni.
        exists sta. split; [exact Hi | apply sta_continues_refl]. }
    destruct (sta_state sta0) eqn:Hst; cbn [cb_module mod_prov mod_status].
    + split; [reflexivity|]. apply Hupd; [cbn; lia | congruence].
    + destruct (bool_decide _); [destruct (forallb _ _)|];
        cbn [cb_module mod_prov mod_status];
        (split; [reflexivity|]);
        first [apply Hupd; [cbn; lia | reflexivity] | exact Hsame].
    + split; [reflexivity|]. exact Hsame.
  - cbn [lookup list_lookup]. cbn [calloc_status sta_state cb_module mod_prov mod_status].
    split; [reflexivity|]. exists 1%nat. split; [lia|].
    split; [rewrite length_insert; reflexivity|].
    intros i sta Hi. exists sta. split; [exact Hi | apply sta_continues_refl].
Qed.

(** X11: when a call of the tracker calls [epggrab_ota_complete], then
    either every status record of the module is COMPLETE, or the call
    has written no record: it found the record of its PID STARTED with
    another fingerprint, or already COMPLETE.  A call that marks a record
    COMPLETE while another is not returns the module and completes
    nothing. *)
Theorem completion_cases (omod : opentv_module codes) (pid : Z) (buf : list Z)
    (len : Z) (ota : ota_reply) :
  let r := _opentv_table_callback omod pid buf len ota in
  let l0 := if ota_begin ota then map reset_status (mod_status omod)
            else mod_status omod in
  (cb_completed r = true ->
   forallb is_complete_sta (mod_status (cb_module r)) = true \/
   (mod_status (cb_module r) = l0 /\
    exists n sta, find_status pid l0 = Some n /\ l0 !! n = Some sta /\
                  (sta_state sta = OPENTV_STA_COMPLETE \/
                   (sta_state sta = OPENTV_STA_STARTED /\
                    sta_start sta <> fingerprint buf)))) /\
  (cb_returns_mod r = true -> cb_completed r = false).
Proof.
  cbv zeta. unfold _opentv_table_callback.
  set (l0 := if ota_begin ota then map reset_status (mod_status omod)
             else mod_status omod).
  destruct (len <? 20); [split; discriminate|].
  destruct (ota_registered ota); cbn [negb]; [|split; discriminate].
  destruct (ota_is_complete ota); [split; discriminate|].
  destruct (find_status pid l0) as [n|] eqn:Hfind.
  - destruct (find_status_some _ _ _ Hfind) as (sta0 & Hn & Hpid). rewrite Hn.
    destruct (sta_state sta0) eqn:Hst; cbn [cb_completed cb_module cb_returns_mod mod_status].
    + split; [discriminate | reflexivity].
    + destruct (bool_decide_reflect (sta_start sta0 = fingerprint buf)) as [Hfp|Hfp].
      * destruct (forallb _ _) eqn:Hall;
          cbn [cb_completed cb_module cb_returns_mod mod_status];
          (split; [|congruence]); [intros _; left; exact Hall | discriminate].
      * cbn [cb_completed cb_module cb_returns_mod mod_status].
        split; [|discriminate]. intros _. right. split; [reflexivity|].
        exists n, sta0. auto.
    + split; [|discriminate]. intros _. right. split; [reflexivity|].
      exists n, sta0. auto.
  - cbn. split; [discriminate | reflexivity].
Qed.

End TrackerProperties.

(** ** Service lookup and whole BAT sections *)

Section BatSections.
Context {codes : Type}.
Variable dvb_adapters : list th_dvb_adapter.

Lemma find_in_transports_spec sid (ts : list service_t) :
  match find_in_transports sid ts with
  | Some t => t ∈ ts /\ s_dvb_service_id t = sid
  | None => forall t, t ∈ ts -> s_dvb_service_id t <> sid
  end.
Proof.
  induction ts as [|t ts IH]; cbn.
  - intros t Ht. inversion Ht.
  - destruct (Z.eqb_spec (s_dvb_service_id t) sid) as [Heq|Hne].
    + split; [apply list_elem_of_here | exact Heq].
    + destruct (find_in_transports sid ts) as [t'|].
      * destruct IH as [Hin Hs]. split; [apply list_elem_of_further, Hin | exact Hs].
      * intros t' Ht'. apply elem_of_cons in Ht' as [->|Ht']; [exact Hne | apply IH, Ht'].
Qed.

Lemma find_in_muxes_spec tsid sid (ms : list th_dvb_mux_instance) :
  match find_in_muxes tsid sid ms with
  | Some t => exists tdmi, tdmi ∈ ms /\ tdmi_transport_stream_id tdmi = tsid /\
                           t ∈ tdmi_transports tdmi /\ s_dvb_service_id t = sid
  | None => forall tdmi t, tdmi ∈ ms -> tdmi_transport_stream_id tdmi = tsid ->
                           t ∈ tdmi_transports tdmi -> s_dvb_service_id t <> sid
  end.
Proof.
  induction ms as [|tdmi ms IH]; cbn.
  - intros tdmi t Hin. inversion Hin.
  - assert (Hrest :
      match find_in_muxes tsid sid ms with
      | Some t => exists tdmi0, tdmi0 ∈ tdmi :: ms /\ tdmi_transport_stream_id tdmi0 = tsid /\
                                t ∈ tdmi_transports tdmi0 /\ s_dvb_service_id t = sid
      | None => True
      end).
    { destruct (find_in_muxes tsid sid ms) as [t|]; [|exact I].
      destruct IH as (tdmi0 & Hin & Hrest). exists tdmi0.
      split; [apply list_elem_of_further, Hin | exact Hrest]. }
    destruct (Z.eqb_spec (tdmi_transport_stream_id tdmi) tsid) as [Hts|Hts].
    + pose proof (find_in_transports_spec sid (tdmi_transports tdmi)) as Htr.
      destruct (find_in_transports sid (tdmi_transports tdmi)) as [t|].
      * destruct Htr as [Hin Hs]. exists tdmi.
        split; [apply list_elem_of_here | auto].
      * destruct (find_in_muxes tsid sid ms) as [t|]; [exact Hrest|].
        intros tdmi0 t Hin Hts0 Ht.
        apply elem_of_cons in Hin as [->|Hin]; [apply Htr, Ht | eapply IH; eassumption].
    + destruct (find_in_muxes tsid sid ms) as [t|]; [exact Hrest|].
      intros tdmi0 t Hin Hts0 Ht.
      apply elem_of_cons in Hin as [->|Hin]; [contradiction | eapply IH; eassumption].
Qed.

(** X12: [_opentv_find_service] returns a service that has the asked
    service id and belongs to a mux with the asked transport stream id
    on one of the adapters, and it returns NULL only when no adapter has
    such a service. *)
Theorem find_service_sound_and_complete (tsid sid : Z) :
  match _opentv_find_service dvb_adapters tsid sid with
  | Some t =>
      s_dvb_service_id t = sid /\
      exists tda tdmi, tda ∈ dvb_adapters /\ tdmi ∈ tda_muxes tda /\
                       tdmi_transport_stream_id tdmi = tsid /\
                       t ∈ tdmi_transports tdmi
  | None =>
      forall tda tdmi t, tda ∈ dvb_adapters -> tdmi ∈ tda_muxes tda ->
                         tdmi_transport_stream_id tdmi = tsid ->
                         t ∈ tdmi_transports tdmi -> s_dvb_service_id t <> sid
  end.
Proof.
  unfold _opentv_find_service.
  induction dvb_adapters as [|tda tdas IH]; cbn.
  - intros tda tdmi t Hin. inversion Hin.
  - pose proof (find_in_muxes_spec tsid sid (tda_muxes tda)) as Hm.
    destruct (find_in_muxes tsid sid (tda_muxes tda)) as [t|].
    + destruct Hm as (tdmi & Hin & Hts & Ht & Hs). split; [exact Hs|].
      exists tda, tdmi. split; [apply list_elem_of_here | auto].
    + destruct (find_in_adapters tsid sid tdas) as [t|].
      * destruct IH as (Hs & tda0 & tdmi & Hin & Hrest). split; [exact Hs|].
        exists tda0, tdmi. split; [apply list_elem_of_further, Hin | exact Hrest].
      * intros tda0 tdmi t Hin Hmux Hts Ht.
        apply elem_of_cons in Hin as [->|Hin];
          [eapply Hm; eassumption | eapply IH; eassumption].
Qed.

Lemma bat_extends_refl (omod : opentv_module codes) chs :
  bat_extends dvb_adapters omod chs chs.
Proof. split; auto. Qed.

Lemma bat_extends_trans (omod : opentv_module codes) chs1 chs2 chs3 :
  bat_extends dvb_adapters omod chs1 chs2 ->
  bat_extends dvb_adapters omod chs2 chs3 ->
  bat_extends dvb_adapters omod chs1 chs3.
Proof.
  intros [Hk12 Hn12] [Hk23 Hn23]. split.
  - auto.
  - intros chid ec H3. destruct (Hn23 chid ec H3) as [H2|Hnew]; [|auto].
    apply Hn12, H2.
Qed.

Lemma bat_record_extends (omod : opentv_module codes) tsid sid cid chs :
  bat_extends dvb_adapters omod chs (bat_record dvb_adapters omod tsid sid cid chs).
Proof.
  rewrite bat_record_cases.
  destruct (_opentv_find_service dvb_adapters tsid sid) as [t|] eqn:Hfind;
    [|apply bat_extends_refl].
  destruct (s_ch t) as [ch|] eqn:Hch; [|apply bat_extends_refl].
  destruct (chs !! chid_of omod cid) as [ec0|] eqn:Hec; [apply bat_extends_refl|].
  split.
  - intros chid ec Hin. rewrite lookup_insert_ne; [exact Hin|]. intros <-. congruence.
  - intros chid ec Hin. destruct (decide (chid_of omod cid = chid)) as [<-|Hne].
    + rewrite lookup_insert_eq in Hin. injection Hin as <-. right.
      exists tsid, sid, cid, ch. unfold _opentv_find_channel. rewrite Hfind. auto.
    + rewrite lookup_insert_ne in Hin by exact Hne. auto.
Qed.

Lemma bat_service_loop_extends (omod : opentv_module codes) buf tsid fuel :
  forall k dlen chs,
    bat_extends dvb_adapters omod chs
      (bat_service_loop dvb_adapters fuel omod buf tsid k dlen chs).
Proof.
  induction fuel as [|fuel IH]; intros k dlen chs; cbn [bat_service_loop];
    destruct (0 <? dlen); try apply bat_extends_refl.
  eapply bat_extends_trans; [apply bat_record_extends | apply IH].
Qed.

Lemma bat_descriptor_loop_extends (omod : opentv_module codes) buf tsid fuel :
  forall j tdlen chs,
    bat_extends dvb_adapters omod chs
      (bat_descriptor_loop dvb_adapters fuel omod buf tsid j tdlen chs).
Proof.
  induction fuel as [|fuel IH]; intros j tdlen chs; cbn [bat_descriptor_loop];
    destruct (0 <? tdlen); try apply bat_extends_refl.
  eapply bat_extends_trans; [|apply IH].
  destruct (_ =? _); [apply bat_service_loop_extends | apply bat_extends_refl].
Qed.

Lemma bat_ts_loop_extends (omod : opentv_module codes) buf fuel :
  forall i tslen chs,
    bat_extends dvb_adapters omod chs
      (bat_ts_loop dvb_adapters fuel omod buf i tslen chs).
Proof.
  induction fuel as [|fuel IH]; intros i tslen chs; cbn [bat_ts_loop];
    destruct (0 <? tslen); try apply bat_extends_refl.
  eapply bat_extends_trans; [apply bat_descriptor_loop_extends | apply IH].
Qed.

(** X13: a whole BAT section only adds EPG channels.  It leaves the
    partial events and the EPG store alone; every EPG channel that
    existed is still there with the binding it had; and every EPG channel
    it adds is filed under "provider-channel id" of the module and bound
    to the channel of a service that [_opentv_find_channel] finds. *)
Theorem bat_section_only_adds_bound_channels (omod : opentv_module codes)
    (buf : list Z) (len : Z) (s : opentv_state) :
  let s' := _opentv_bat_section dvb_adapters omod buf len s in
  _opentv_events s' = _opentv_events s /\
  epg_log s' = epg_log s /\
  bat_extends dvb_adapters omod (_opentv_channels s) (_opentv_channels s').
Proof.
  cbv zeta. unfold _opentv_bat_section. cbn [_opentv_events epg_log _opentv_channels].
  repeat split; apply bat_ts_loop_extends.
Qed.

Lemma bat_extends_bound (omod : opentv_module codes) chs chs' :
  bat_extends dvb_adapters omod chs chs' -> channels_bound chs -> channels_bound chs'.
Proof.
  intros [_ Hnew] Hb chid ec Hin.
  destruct (Hnew chid ec Hin) as [Hold|(tsid & sid & cid & ch & _ & _ & ->)].
  - exact (Hb chid ec Hold).
  - cbn. split; [reflexivity | discriminate].
Qed.

End BatSections.

(** ** Invariants of the partial-event tree and of the call log *)

Section StoreInvariants.
Context {codes : Type} {huffman : Huffman codes} {epg : EpgStore}.

Lemma emit_event_extends (omod : opentv_module codes) cid ch ev sl :
  snd sl `prefix_of` snd (emit_event omod cid ch ev sl).
Proof.
  unfold emit_event, epg_set_if, epg_set.
  repeat match goal with
    | |- context [match ?x with _ => _ end] => destruct x eqn:?
    end;
    cbn [fst snd];
    repeat match goal with
      | |- ?l `prefix_of` ?l => reflexivity
      | |- ?l `prefix_of` _ ++ [_] =>
          etrans; [|apply prefix_app_r; reflexivity]
      end.
Qed.

(** What one turn of the event loop does to the tree, whichever way the
    status test goes. *)
Lemma event_loop_step_filed (prov : opentv_prov codes) buf len cid mjd type
    events events' key ev :
  events_filed events ->
  _opentv_parse_event prov buf len cid mjd events = Ok (events', key, ev, event_slen buf + 4) ->
  ev_key ev = key /\
  events_filed (delete key events') /\
  (u8 (Z.lor (ev_status ev) type) <> Z.lor OPENTV_TITLE OPENTV_SUMMARY ->
   events_filed (<[key := set_status ev (u8 (Z.lor (ev_status ev) type))]> events')).
Proof.
  intros Hfiled Hev. apply parse_event_inv in Hev as (Hkey & _ & -> & Hloop).
  apply record_loop_fields in Hloop as (_ & _ & _ & Hk & _).
  assert (Hevkey : ev_key ev = key).
  { rewrite Hk. destruct (events !! key) as [found|] eqn:Hfound; cbn.
    - exact (proj1 (Hfiled _ _ Hfound)).
    - rewrite Hkey. reflexivity. }
  split; [exact Hevkey|]. split.
  - rewrite delete_insert_eq. apply map_Forall_delete, Hfiled.
  - intros Hst. rewrite insert_insert_eq. apply map_Forall_insert_2; [|exact Hfiled].
    cbn. split; [exact Hevkey|]. split; [apply u8_range | exact Hst].
Qed.

Lemma event_loop_filed (omod : opentv_module codes) buf len cid mjd type ch fuel :
  forall i save s,
    events_filed (_opentv_events s) ->
    events_filed (_opentv_events
                    (final_state (fst (event_loop fuel omod buf len cid mjd type ch i save s)))).
Proof.
  induction fuel as [|fuel IH]; intros i save s Hfiled; cbn [event_loop].
  - destruct (i <? len); exact Hfiled.
  - destruct (i <? len); [|exact Hfiled].
    destruct (_opentv_parse_event _ _ _ _ _ _) as [[[[events key] ev] n]|] eqn:Hev;
      [|exact Hfiled].
    pose proof (parse_event_inv _ _ _ _ _ _ _ _ _ _ Hev) as (_ & Hn & _). subst n.
    destruct (event_loop_step_filed _ _ _ _ _ type _ _ _ _ Hfiled Hev)
      as (_ & Hdel & Hins).
    cbn [ev_status set_status].
    destruct (Z.eqb_spec (u8 (Z.lor (ev_status ev) type)) (Z.lor OPENTV_TITLE OPENTV_SUMMARY))
      as [Heq|Hne].
    + destruct (emit_event _ _ _ _ _) as [save' log]. apply IH. exact Hdel.
    + apply IH. apply Hins, Hne.
Qed.

Lemma event_loop_frame (omod : opentv_module codes) buf len cid mjd type ch fuel :
  forall i save s,
    let s' := final_state (fst (event_loop fuel omod buf len cid mjd type ch i save s)) in
    _opentv_channels s' = _opentv_channels s /\ epg_log s `prefix_of` epg_log s'.
Proof.
  induction fuel as [|fuel IH]; intros i save s; cbn [event_loop].
  - destruct (i <? len); split; reflexivity.
  - destruct (i <? len); [|split; reflexivity].
    destruct (_opentv_parse_event _ _ _ _ _ _) as [[[[events key] ev] n]|];
      [|split; reflexivity].
    destruct (_ =? _).
    + pose proof (emit_event_extends omod cid ch
                    (set_status ev (u8 (Z.lor (ev_status ev) type))) (save, epg_log s))
        as Hpre.
      destruct (emit_event _ _ _ _ _) as [save' log]. cbn [snd] in Hpre.
      destruct (IH (i + n) save' (mk_state (delete key events) (_opentv_channels s) log))
        as [Hch Hlog].
      split; [exact Hch|]. etrans; [exact Hpre | exact Hlog].
    + apply (IH (i + n) save
                (mk_state (<[key := set_status ev (u8 (Z.lor (ev_status ev) type))]> events)
                   (_opentv_channels s) (epg_log s))).
Qed.

Lemma event_section_frame_aux (omod : opentv_module codes) buf len type s :
  _opentv_channels (final_state (_opentv_parse_event_section omod buf len type s))
    = _opentv_channels s /\
  epg_log s `prefix_of`
    epg_log (final_state (_opentv_parse_event_section omod buf len type s)).
Proof.
  rewrite section_head.
  destruct (usable_channel _ _ _) as [ch|]; [|split; reflexivity].
  pose proof (event_loop_frame omod buf len (section_cid buf)
                (mjd_to_unix (section_mjd buf)) type ch (Z.to_nat len) 7 false s) as Hloop.
  cbv zeta in Hloop.
  destruct (event_loop _ _ _ _ _ _ _ _ _ _ _) as [[s'|s'] save]; cbn in *; [|exact Hloop].
  destruct save; [|exact Hloop]. cbn.
  destruct Hloop as [Hch Hlog]. split; [exact Hch|].
  etrans; [exact Hlog | apply prefix_app_r; reflexivity].
Qed.

(** X14: an event section never touches the EPG channels, and it only
    adds to the calls made to the EPG store: what was handed over before
    the section is still the beginning of the record after it, whether
    the section returns or faults, and whatever its channel. *)
Theorem event_section_frame (omod : opentv_module codes) (buf : list Z) (len type : Z)
    (s : opentv_state) :
  let s' := final_state (_opentv_parse_event_section omod buf len type s) in
  _opentv_channels s' = _opentv_channels s /\
  epg_log s `prefix_of` epg_log s'.
Proof. cbv zeta. apply event_section_frame_aux. Qed.

Lemma parse_event_section_filed (omod : opentv_module codes) buf len type s :
  events_filed (_opentv_events s) ->
  events_filed (_opentv_events (final_state (_opentv_parse_event_section omod buf len type s))).
Proof.
  intros Hfiled. rewrite section_head.
  destruct (usable_channel _ _ _) as [ch|]; [|exact Hfiled].
  pose proof (event_loop_filed omod buf len (section_cid buf)
                (mjd_to_unix (section_mjd buf)) type ch (Z.to_nat len) 7 false s Hfiled)
    as Hloop.
  destruct (event_loop _ _ _ _ _ _ _ _ _ _ _) as [[s'|s'] save]; cbn in *; [|exact Hloop].
  destruct save; exact Hloop.
Qed.

Lemma reachable_filed_and_bound (s : opentv_state) :
  reachable s -> events_filed (_opentv_events s) /\ channels_bound (_opentv_channels s).
Proof.
  induction 1 as [|omod buf len type s _ [IHe IHc]|adapters omod buf len s _ [IHe IHc]].
  - split; apply map_Forall_empty.
  - split; [apply parse_event_section_filed, IHe|].
    destruct (event_section_frame_aux omod buf len type s) as [-> _]. exact IHc.
  - split; [exact IHe|].
    eapply bat_extends_bound; [|exact IHc].
    apply (bat_ts_loop_extends adapters omod).
Qed.

(** X15: in every state the decoders can reach, a partial event sits in
    the tree under its own (channel id, event id) and is not complete:
    an event whose status has reached TITLE|SUMMARY has been taken out
    of the tree by the call that completed it. *)
Theorem reachable_events_filed (s : opentv_state) (Hs : reachable s)
    (key : Z * Z) (ev : opentv_event) (Hev : _opentv_events s !! key = Some ev) :
  ev_key ev = key /\
  ev_status ev <> Z.lor OPENTV_TITLE OPENTV_SUMMARY /\
  0 <= ev_status ev < 256.
Proof.
  destruct (reachable_filed_and_bound s Hs) as [Hfiled _].
  destruct (Hfiled key ev Hev) as (Hk & Hr & Hst). auto.
Qed.

(** X16: in every state the decoders can reach, every EPG channel is
    filed under its identifier and is bound to a channel: the BAT decoder
    is the only one to create EPG channels and binds each one as it
    creates it, and nothing unbinds them. *)
Theorem reachable_channels_bound (s : opentv_state) (Hs : reachable s)
    (chid : string) (ec : epggrab_channel) (Hec : _opentv_channels s !! chid = Some ec) :
  ec_id ec = chid /\ exists ch, ec_channel ec = Some ch.
Proof.
  destruct (reachable_filed_and_bound s Hs) as [_ Hbound].
  destruct (Hbound chid ec Hec) as [Hid Hch]. split; [exact Hid|].
  destruct (ec_channel ec) as [ch|]; [eauto | congruence].
Qed.

End StoreInvariants.

(** ** Sections of one role, single records and decoded strings *)

Section Roles.
Context {codes : Type} {huffman : Huffman codes} {epg : EpgStore}.

Lemma role_status (type st : Z) :
  type = OPENTV_TITLE \/ type = OPENTV_SUMMARY ->
  st = 0 \/ st = type ->
  u8 (Z.lor st type) = type /\ type <> Z.lor OPENTV_TITLE OPENTV_SUMMARY.
Proof. intros [->| ->] [->| ->]; split; (reflexivity || discriminate). Qed.

Lemma event_loop_one_role (omod : opentv_module codes) buf len cid mjd type ch fuel :
  type = OPENTV_TITLE \/ type = OPENTV_SUMMARY ->
  forall i save s,
    only_role type (_opentv_events s) ->
    let r := event_loop fuel omod buf len cid mjd type ch i save s in
    snd r = save /\ epg_log (final_state (fst r)) = epg_log s /\
    only_role type (_opentv_events (final_state (fst r))).
Proof.
  intros Htype. induction fuel as [|fuel IH]; intros i save s Hrole; cbn [event_loop].
  - destruct (i <? len); cbn; auto.
  - destruct (i <? len); [|cbn; auto].
    destruct (_opentv_parse_event _ _ _ _ _ _) as [[[[events key] ev] n]|] eqn:Hev;
      [|cbn; auto].
    apply parse_event_inv in Hev as (_ & _ & -> & Hloop).
    apply record_loop_fields in Hloop as (_ & _ & _ & _ & Hst).
    assert (Hev_st : ev_status ev = 0 \/ ev_status ev = type).
    { rewrite Hst. destruct (_opentv_events s !! key) as [found|] eqn:Hfound; cbn.
      - exact (Hrole _ _ Hfound).
      - left. reflexivity. }
    destruct (role_status type (ev_status ev) Htype Hev_st) as [Hu8 Hne].
    cbn [ev_status set_status]. rewrite Hu8.
    destruct (Z.eqb_spec type (Z.lor OPENTV_TITLE OPENTV_SUMMARY)); [contradiction|].
    apply (IH (i + n) save
             (mk_state (<[key := set_status ev type]> (<[key := ev]> (_opentv_events s)))
                (_opentv_channels s) (epg_log s))).
    cbn [_opentv_events]. rewrite insert_insert_eq.
    apply map_Forall_insert_2; [right; reflexivity | exact Hrole].
Qed.

(** X17: a section cannot complete an event on its own.  As long as no
    partial event carries the status bit of the other role, a title
    section (and likewise a summary section) makes no call to the EPG
    store, however many event blocks it holds and whether it returns or
    faults, and afterwards no partial event carries the other bit
    either. *)
Theorem one_role_never_emits (omod : opentv_module codes) (buf : list Z) (len type : Z)
    (s : opentv_state)
    (Htype : type = OPENTV_TITLE \/ type = OPENTV_SUMMARY)
    (Hrole : only_role type (_opentv_events s)) :
  let s' := final_state (_opentv_parse_event_section omod buf len type s) in
  epg_log s' = epg_log s /\ only_role type (_opentv_events s').
Proof.
  cbv zeta. rewrite section_head.
  destruct (usable_channel _ _ _) as [ch|]; [|auto].
  pose proof (event_loop_one_role omod buf len (section_cid buf)
                (mjd_to_unix (section_mjd buf)) type ch (Z.to_nat len) Htype 7 false s Hrole)
    as Hloop.
  cbv zeta in Hloop.
  destruct (event_loop _ _ _ _ _ _ _ _ _ _ _) as [[s'|s'] save]; cbn in *.
  - destruct Hloop as (-> & Hlog & Hr). auto.
  - destruct Hloop as (_ & Hlog & Hr). auto.
Qed.

(** X18: a record that does not fit the remaining length, and a fitting
    record whose tag is none of 0xb5, 0xb9, 0xbb, 0xc1, are passed over:
    the call returns with the event exactly as it was.  A fitting 0xc1
    record sets the series link to the 16-bit value [(b2 << 8) | b3] and
    nothing else. *)
Theorem record_passes_over_what_it_cannot_use (prov : opentv_prov codes)
    (ev : opentv_event) (buf : list Z) (len mjd : Z) :
  (len < byte_at buf 1 + 2 ->
   _opentv_parse_event_record prov ev buf len mjd = Ok (ev, byte_at buf 1 + 2)) /\
  (byte_at buf 0 <> 0xb5 -> byte_at buf 0 <> 0xb9 -> byte_at buf 0 <> 0xbb ->
   byte_at buf 0 <> 0xc1 ->
   _opentv_parse_event_record prov ev buf len mjd = Ok (ev, byte_at buf 1 + 2)) /\
  (byte_at buf 1 + 2 <= len -> byte_at buf 0 = 0xc1 ->
   _opentv_parse_event_record prov ev buf len mjd
   = Ok (set_series ev (Z.lor (Z.shiftl (byte_at buf 2) 8) (byte_at buf 3)),
         byte_at buf 1 + 2) /\
   0 <= Z.lor (Z.shiftl (byte_at buf 2) 8) (byte_at buf 3) < 65536).
Proof.
  unfold _opentv_parse_event_record. split; [|split].
  - intros Hlen. destruct (Z.leb_spec (byte_at buf 1 + 2) len); [lia | reflexivity].
  - intros H1 H2 H3 H4.
    destruct (Z.eqb_spec (byte_at buf 0) 0xb5); [contradiction|].
    destruct (Z.eqb_spec (byte_at buf 0) 0xb9); [contradiction|].
    destruct (Z.eqb_spec (byte_at buf 0) 0xbb); [contradiction|].
    destruct (Z.eqb_spec (byte_at buf 0) 0xc1); [contradiction|].
    now destruct (_ <=? _).
  - intros Hfit Htag. rewrite Htag. cbn [Z.eqb Pos.eqb].
    destruct (Z.leb_spec (byte_at buf 1 + 2) len); [|lia].
    pose proof (be16_range (byte_at buf 2) (byte_at buf 3)
                  (byte_at_range _ _) (byte_at_range _ _)) as Hr.
    split; [|exact Hr]. unfold u16. rewrite Z.mod_small by exact Hr. reflexivity.
Qed.

Lemma schar_text (c : Z) : (0x20 <? schar c) = true <-> counts_as_text c.
Proof.
  unfold schar, counts_as_text. pose proof (u8_range c).
  destruct (Z.ltb_spec (u8 c) 128); rewrite Z.ltb_lt; lia.
Qed.

Lemma has_printable_true (s : list Z) :
  has_printable s = true <->
  exists pre c post, s = pre ++ c :: post /\ counts_as_text c /\
                     Forall (fun x => u8 x <> 0) pre.
Proof.
  induction s as [|c s IH]; cbn [has_printable].
  - split; [discriminate|]. intros (pre & c & post & Heq & _). now destruct pre.
  - destruct (Z.eqb_spec (u8 c) 0) as [Hz|Hz].
    + split; [discriminate|]. intros (pre & c' & post & Heq & Htxt & Hpre).
      destruct pre as [|p pre]; cbn in Heq; injection Heq as <- _.
      * unfold counts_as_text in Htxt. lia.
      * inversion Hpre; subst. contradiction.
    + destruct (0x20 <? schar c) eqn:Hs.
      * split; [|reflexivity]. intros _. exists [], c, s.
        split; [reflexivity|]. split; [apply schar_text, Hs | constructor].
      * rewrite IH. split.
        -- intros (pre & c' & post & -> & Htxt & Hpre).
           exists (c :: pre), c', post. repeat split; try apply Htxt.
           constructor; assumption.
        -- intros (pre & c' & post & Heq & Htxt & Hpre).
           destruct pre as [|p pre]; cbn in Heq; injection Heq as <- ->.
           ++ apply schar_text in Htxt. congruence.
           ++ inversion Hpre; subst. exists pre, c', post. auto.
Qed.

(** X19: [_opentv_parse_string] returns for every length that is not
    negative, and it hands a string on only if the decoder produced it
    and the string has, before any NUL, a character above 0x20 as a
    [char] sees it, that is a byte from 0x21 to 0x7f; a decoded string
    made of blanks, control characters and bytes from 0x80 up only is
    freed and NULL returned, as is a NULL from the decoder. *)
Theorem parse_string_keeps_only_text (prov : opentv_prov codes) (buf : list Z) (len : Z) :
  (0 <= len -> exists r, _opentv_parse_string prov buf len = Ok r) /\
  (forall s, _opentv_parse_string prov buf len = Ok (Some s) ->
             huffman_decode (prov_dict prov) buf len 0x20 len = Some s /\
             exists pre c post, s = pre ++ c :: post /\ counts_as_text c /\
                                Forall (fun x => u8 x <> 0) pre) /\
  (0 <= len ->
   (huffman_decode (prov_dict prov) buf len 0x20 len = None \/
    exists s, huffman_decode (prov_dict prov) buf len 0x20 len = Some s /\
              Forall (fun c => ~ counts_as_text c) s) ->
   _opentv_parse_string prov buf len = Ok None).
Proof.
  unfold _opentv_parse_string. split; [|split].
  - intros Hlen. destruct (Z.ltb_spec len 0); [lia|].
    destruct (huffman_decode _ _ _ _ _) as [s|]; [destruct (has_printable s)|]; eauto.
  - intros s. destruct (len <? 0); [discriminate|].
    destruct (huffman_decode _ _ _ _ _) as [s'|]; [|discriminate].
    destruct (has_printable s') eqn:Hp; [|discriminate].
    intros [= ->]. split; [reflexivity|]. apply has_printable_true, Hp.
  - intros Hlen Hdec. destruct (Z.ltb_spec len 0); [lia|].
    destruct Hdec as [-> | (s & -> & Hall)]; [reflexivity|].
    destruct (has_printable s) eqn:Hp; [|reflexivity].
    apply has_printable_true in Hp as (pre & c & post & -> & Htxt & _).
    apply Forall_app in Hall as [_ Hall]. inversion Hall; subst. contradiction.
Qed.

End Roles.

(** ** Emission, the comparator and the names of EPG channels *)

Section Emission.
Context {codes : Type} {huffman : Huffman codes} {epg : EpgStore}.

Lemma drop_length_app {A : Type} (l k : list A) : drop (length l) (l ++ k) = k.
Proof. rewrite drop_app, drop_all, Nat.sub_diag. reflexivity. Qed.

(** X20: for one completed event [emit_event] hands at most one
    broadcast to the EPG store, and only after an episode was found for
    the hash of the event's texts: the broadcast is looked up for the
    bound channel with the event's start, stop and event id.  Without a
    hash nothing is called at all, and a change flag that was raised
    stays raised. *)
Theorem emit_hands_over_one_broadcast (omod : opentv_module codes) (cid : Z)
    (ch : channel_t) (ev : opentv_event) (save : bool) (log : list epg_call) :
  let r := emit_event omod cid ch ev (save, log) in
  filter is_broadcast_call (drop (length log) (snd r)) =
    match epg_hash (ev_title ev) (ev_summary ev) (ev_desc ev) with
    | Some uri =>
        match fst (episode_find_reply log uri) with
        | Some _ =>
            [Epg_broadcast_find_by_time ch (ev_start ev) (ev_stop ev) (ev_eid ev)]
        | None => []
        end
    | None => []
    end /\
  (epg_hash (ev_title ev) (ev_summary ev) (ev_desc ev) = None -> r = (save, log)) /\
  (save = true -> fst r = true).
Proof.
  cbv zeta. unfold emit_event, epg_set_if, epg_set. cbn [fst snd].
  destruct (epg_hash _ _ _) as [uri|];
    [|rewrite drop_all; auto].
  destruct (episode_find_reply log uri) as [[ee|] created]; cbn [fst snd].
  - repeat split; try discriminate.
    + repeat match goal with
        | |- context [match ?x with _ => _ end] => destruct x eqn:?
        end; cbn [fst snd];
        rewrite <- ?app_assoc, drop_length_app; reflexivity.
    + intros ->.
      repeat match goal with
        | |- context [match ?x with _ => _ end] => destruct x eqn:?
        end; cbn [fst snd]; reflexivity.
  - rewrite drop_length_app. repeat split; try discriminate.
    intros ->. reflexivity.
Qed.

End Emission.

(** X21: [_ev_cmp] is a three-way comparison on (channel id, event id),
    channel id first: it is zero exactly on events with the same key, it
    changes sign when its arguments are exchanged, and "less than" is
    transitive, as the ordered tree of partial events needs. *)
Theorem ev_cmp_orders_by_key (a b c : opentv_event) :
  (_ev_cmp a b = 0 <-> ev_key a = ev_key b) /\
  _ev_cmp b a = - _ev_cmp a b /\
  (_ev_cmp a b < 0 <->
   ev_cid a < ev_cid b \/ (ev_cid a = ev_cid b /\ ev_eid a < ev_eid b)) /\
  (_ev_cmp a b < 0 -> _ev_cmp b c < 0 -> _ev_cmp a c < 0).
Proof.
  unfold _ev_cmp, ev_key.
  destruct (Z.eqb_spec (ev_cid a - ev_cid b) 0), (Z.eqb_spec (ev_cid b - ev_cid a) 0),
    (Z.eqb_spec (ev_cid b - ev_cid c) 0), (Z.eqb_spec (ev_cid a - ev_cid c) 0);
    repeat split; intros; simplify_eq; try lia.
  all: try (f_equal; lia).
Qed.

(** ** Names of EPG channels *)

Lemma pretty_N_go_dash_free (x : N) :
  forall s, dash_free s -> dash_free (pretty_N_go x s).
Proof.
  induction (N.lt_wf_0 x) as [x _ IH]; intros s Hs.
  destruct (N.eq_dec x 0%N) as [->|Hx].
  - rewrite pretty_N_go_0. exact Hs.
  - rewrite pretty_N_go_step by lia. apply IH.
    + apply N.div_lt; lia.
    + split; [|exact Hs]. unfold pretty_N_char.
      repeat case_match; discriminate.
Qed.

Lemma pretty_dash_free (z : Z) : 0 <= z -> dash_free (pretty z).
Proof.
  intros Hz. destruct z as [|p|p]; [cbn; split; [discriminate | exact I]| |lia].
  unfold pretty, pretty_Z, pretty, pretty_positive, pretty, pretty_N.
  destruct (decide (N.pos p = 0%N)); [discriminate|].
  apply pretty_N_go_dash_free. exact I.
Qed.

Lemma dash_free_no_dash (s d : string) : ~ dash_free (s +:+ String "-"%char d).
Proof. induction s as [|a s IH]; cbn; [intros [H _]; congruence | intros [_ H]; auto]. Qed.

Lemma split_at_last_dash (s1 s2 d1 d2 : string) :
  dash_free d1 -> dash_free d2 ->
  s1 +:+ String "-"%char d1 = s2 +:+ String "-"%char d2 ->
  s1 = s2 /\ d1 = d2.
Proof.
  intros H1 H2. revert s2. induction s1 as [|a s1 IH]; intros [|b s2]; cbn.
  - intros [= ->]. auto.
  - intros [= <- ->]. exfalso. exact (dash_free_no_dash _ _ H1).
  - intros [= -> <-]. exfalso. exact (dash_free_no_dash _ _ H2).
  - intros [= -> Heq]. destruct (IH _ Heq) as [-> ->]. auto.
Qed.

(** X22: the name "provider-channel id" that
    [_opentv_find_epggrab_channel] files an EPG channel under tells the
    provider and the channel id apart: for channel ids that are not
    negative (a section gives 16-bit ones), two modules and channel ids
    get the same name only if the provider identifiers are the same and
    the channel ids are the same.  So no two providers, and no two
    channels of a provider, share an EPG channel in the common tree. *)
Theorem epg_channel_names_are_unambiguous {codes : Type}
    (omod1 omod2 : opentv_module codes) (cid1 cid2 : Z)
    (H1 : 0 <= cid1) (H2 : 0 <= cid2)
    (Hname : chid_of omod1 cid1 = chid_of omod2 cid2) :
  prov_id (mod_prov omod1) = prov_id (mod_prov omod2) /\ cid1 = cid2.
Proof.
  unfold chid_of in Hname.
  change ("-" +:+ pretty cid1) with (String "-"%char (pretty cid1)) in Hname.
  change ("-" +:+ pretty cid2) with (String "-"%char (pretty cid2)) in Hname.
  apply split_at_last_dash in Hname as [Hp Hc]; try (apply pretty_dash_free; assumption).
  split; [exact Hp|]. exact (pretty_Z_inj _ _ Hc).
Qed.

(** ** The order of arrival of title and summary *)

Section JoinOrder.
Context {codes : Type} {huffman : Huffman codes} {epg : EpgStore}.

Lemma restamp_same ev :
  restamp (ev_summary ev) (ev_desc ev) (ev_series ev) (ev_status ev) ev = ev.
Proof. now destruct ev. Qed.

Lemma restamp_restamp su de se st su' de' se' st' ev :
  restamp su de se st (restamp su' de' se' st' ev) = restamp su de se st ev.
Proof. reflexivity. Qed.

(** A record of the title side does not look at the summary side. *)
Lemma title_side_record (prov : opentv_prov codes) ev buf len mjd su de se st :
  (byte_at buf 1 + 2 <=? len) = false \/ title_side (byte_at buf 0) = true ->
  _opentv_parse_event_record prov (restamp su de se st ev) buf len mjd =
  match _opentv_parse_event_record prov ev buf len mjd with
  | Ok (e, n) => Ok (restamp su de se st e, n)
  | Fault => Fault
  end.
Proof.
  unfold _opentv_parse_event_record, title_side. intros Hside.
  destruct (byte_at buf 1 + 2 <=? len); [|reflexivity].
  destruct Hside as [Hside|Hside]; [discriminate|].
  destruct (byte_at buf 0 =? 0xb5).
  - cbn [ev_title set_times restamp].
    destruct (ev_title ev); [reflexivity|].
    destruct (_opentv_parse_string _ _ _); reflexivity.
  - destruct (byte_at buf 0 =? 0xb9); [discriminate|].
    destruct (byte_at buf 0 =? 0xbb); [discriminate|].
    destruct (byte_at buf 0 =? 0xc1); [discriminate|]. reflexivity.
Qed.

Lemma title_side_loop (prov : opentv_prov codes) buf len mjd slen su de se st fuel :
  forall i ev,
    block_tags title_side fuel buf len slen i = true ->
    record_loop fuel prov buf len mjd slen i (restamp su de se st ev) =
    match record_loop fuel prov buf len mjd slen i ev with
    | Ok e => Ok (restamp su de se st e)
    | Fault => Fault
    end.
Proof.
  induction fuel as [|fuel IH]; intros i ev; cbn [record_loop block_tags].
  - destruct (i <? slen + 4); reflexivity.
  - destruct (i <? slen + 4); [|reflexivity].
    intros Htags. apply andb_true_iff in Htags as [Hside Hrest].
    rewrite title_side_record
      by (apply orb_true_iff in Hside as [Hside|Hside];
          [left; now apply negb_true_iff | right; exact Hside]).
    destruct (_opentv_parse_event_record prov ev (ptr_add buf i) (len - i) mjd)
      as [[e n]|] eqn:Hrec; [|reflexivity].
    cbn [mbind outcome_bind].
    rewrite (record_cursor_advance_aux _ _ _ _ _ _ _ Hrec) in *.
    apply IH, Hrest.
Qed.

(** A record of the summary side returns, and what it does is settled
    by the summary side of the event alone. *)
Lemma summary_side_record (prov : opentv_prov codes) ev buf len mjd :
  (byte_at buf 1 + 2 <=? len) = false \/ summary_side (byte_at buf 0) = true ->
  exists su de se,
    forall ev', ev_summary ev' = ev_summary ev -> ev_desc ev' = ev_desc ev ->
                ev_series ev' = ev_series ev ->
                _opentv_parse_event_record prov ev' buf len mjd
                = Ok (restamp su de se (ev_status ev') ev', byte_at buf 1 + 2).
Proof.
  unfold _opentv_parse_event_record, summary_side. intros Hside.
  assert (Hid : forall ev', ev_summary ev' = ev_summary ev -> ev_desc ev' = ev_desc ev ->
                            ev_series ev' = ev_series ev ->
                            restamp (ev_summary ev) (ev_desc ev) (ev_series ev)
                              (ev_status ev') ev' = ev').
  { intros ev' <- <- <-. apply restamp_same. }
  assert (Hstr : forall b l, 0 <= l ->
            exists t, _opentv_parse_string prov b l = Ok t).
  { intros b l Hl. destruct (_opentv_parse_string prov b l) as [t|] eqn:Hp; [eauto|].
    apply parse_string_fault in Hp. lia. }
  pose proof (byte_at_range buf 1) as Hrlen.
  destruct (byte_at buf 1 + 2 <=? len);
    [|exists (ev_summary ev), (ev_desc ev), (ev_series ev);
      intros ev' H1 H2 H3; now rewrite Hid].
  destruct Hside as [Hside|Hside]; [discriminate|].
  destruct (byte_at buf 0 =? 0xb5); [discriminate|].
  destruct (byte_at buf 0 =? 0xb9).
  { destruct (Hstr (ptr_add buf 2) (byte_at buf 1)) as [t Ht]; [lia|].
    exists (keep_first (ev_summary ev) t), (ev_desc ev), (ev_series ev).
    intros ev' H1 H2 H3. rewrite H1.
    destruct (ev_summary ev) as [s0|] eqn:Hsu; cbn [keep_first].
    - now rewrite Hid.
    - rewrite Ht. cbn [mbind outcome_bind]. unfold set_summary, restamp.
      now rewrite H2, H3. }
  destruct (byte_at buf 0 =? 0xbb).
  { destruct (Hstr (ptr_add buf 2) (byte_at buf 1)) as [t Ht]; [lia|].
    exists (ev_summary ev), (keep_first (ev_desc ev) t), (ev_series ev).
    intros ev' H1 H2 H3. rewrite H2.
    destruct (ev_desc ev) as [s0|] eqn:Hde; cbn [keep_first].
    - now rewrite Hid.
    - rewrite Ht. cbn [mbind outcome_bind]. unfold set_desc, restamp.
      now rewrite H1, H3. }
  destruct (byte_at buf 0 =? 0xc1).
  { exists (ev_summary ev), (ev_desc ev),
      (u16 (Z.lor (Z.shiftl (byte_at buf 2) 8) (byte_at buf 3))).
    intros ev' H1 H2 H3. unfold set_series, restamp. now rewrite H1, H2. }
  exists (ev_summary ev), (ev_desc ev), (ev_series ev).
  intros ev' H1 H2 H3. now rewrite Hid.
Qed.

Lemma summary_side_loop (prov : opentv_prov codes) buf len mjd slen fuel :
  forall i ev,
    block_tags summary_side fuel buf len slen i = true ->
    exists su de se,
      forall ev', ev_summary ev' = ev_summary ev -> ev_desc ev' = ev_desc ev ->
                  ev_series ev' = ev_series ev ->
                  record_loop fuel prov buf len mjd slen i ev'
                  = Ok (restamp su de se (ev_status ev') ev').
Proof.
  assert (Hstop : forall ev : opentv_event,
            exists su de se,
              forall ev', ev_summary ev' = ev_summary ev -> ev_desc ev' = ev_desc ev ->
                          ev_series ev' = ev_series ev ->
                          Ok ev' = Ok (restamp su de se (ev_status ev') ev')).
  { intros ev. exists (ev_summary ev), (ev_desc ev), (ev_series ev).
    intros ev' <- <- <-. now rewrite restamp_same. }
  induction fuel as [|fuel IH]; intros i ev; cbn [record_loop block_tags].
  - destruct (i <? slen + 4); intros _; apply Hstop.
  - destruct (i <? slen + 4); [|intros _; apply Hstop].
    intros Htags. apply andb_true_iff in Htags as [Hside Hrest].
    destruct (summary_side_record prov ev (ptr_add buf i) (len - i) mjd)
      as (su1 & de1 & se1 & Hrec).
    { apply orb_true_iff in Hside as [Hside|Hside];
        [left; now apply negb_true_iff | right; exact Hside]. }
    destruct (IH (i + (byte_at (ptr_add buf i) 1 + 2))
                (restamp su1 de1 se1 (ev_status ev) ev) Hrest)
      as (su & de & se & Hloop).
    exists su, de, se. intros ev' H1 H2 H3.
    rewrite (Hrec ev' H1 H2 H3). cbn [mbind outcome_bind].
    rewrite (Hloop (restamp su1 de1 se1 (ev_status ev') ev')) by reflexivity.
    reflexivity.
Qed.

Lemma section_cid_range buf : 0 <= section_cid buf < 65536.
Proof. apply be16_range; apply byte_at_range. Qed.

Lemma first_key_cid bufA bufB :
  first_key bufB = first_key bufA ->
  section_cid bufB = section_cid bufA /\
  skel_event (section_cid bufB) (block_eid (ptr_add bufB 7))
  = skel_event (section_cid bufA) (block_eid (ptr_add bufA 7)).
Proof.
  unfold first_key, skel_event. intros [= Hc He].
  pose proof (section_cid_range bufA). pose proof (section_cid_range bufB).
  unfold u16 in Hc. rewrite !Z.mod_small in Hc by assumption.
  split; [exact Hc|]. now rewrite Hc, He.
Qed.

(** X23: the join does not depend on which section comes first.  Take a
    title section and a summary section of one event block each, for the
    same channel of a module and the same event, the event not being in
    the tree; let the title block carry no summary, description or
    series-link record, the summary block no title record, and let the
    title section return.  Then summary-after-title and
    title-after-summary return the same state: the same calls to the EPG
    store in the same order, and the event gone from the tree. *)
Theorem join_order_is_immaterial (omod : opentv_module codes)
    (bufT bufS : list Z) (lenT lenS : Z) (s s1 : opentv_state) (ch : channel_t)
    (Hch : usable_channel omod (section_cid bufT) (_opentv_channels s) = Some ch)
    (Hkey : first_key bufS = first_key bufT)
    (HoneT : single_block bufT lenT) (HoneS : single_block bufS lenS)
    (HtagsT : block_of_section title_side bufT lenT)
    (HtagsS : block_of_section summary_side bufS lenS)
    (Hnew : _opentv_events s !! first_key bufT = None)
    (HT : _opentv_parse_event_section omod bufT lenT OPENTV_TITLE s = Returned s1) :
  exists s2,
    _opentv_parse_event_section omod bufS lenS OPENTV_SUMMARY s1 = Returned s2 /\
    _opentv_parse_event_section omod bufT lenT OPENTV_TITLE
      (final_state (_opentv_parse_event_section omod bufS lenS OPENTV_SUMMARY s))
    = Returned s2 /\
    _opentv_events s2 !! first_key bufT = None.
Proof.
  destruct (first_key_cid bufT bufS Hkey) as [Hcid Hskel].
  assert (HchS : usable_channel omod (section_cid bufS) (_opentv_channels s) = Some ch)
    by now rewrite Hcid.
  set (skel := skel_event (section_cid bufT) (block_eid (ptr_add bufT 7))) in *.
  (* the title section on its own *)
  rewrite (single_block_section _ _ _ _ _ _ Hch HoneT), Hnew in HT.
  cbn [default from_option] in HT. fold skel in HT.
  destruct (record_loop _ _ (ptr_add bufT 7) _ _ _ _ skel) as [e1|] eqn:HloopT;
    [|discriminate].
  destruct (record_loop_texts_kept _ _ _ _ _ _ _ _ _ HloopT) as [_ HstT].
  cbv zeta in HT. cbn [ev_status set_status] in HT. rewrite HstT in HT.
  change (u8 (Z.lor (ev_status skel) OPENTV_TITLE)) with 1 in HT.
  change (1 =? Z.lor OPENTV_TITLE OPENTV_SUMMARY) with false in HT.
  cbv iota in HT. injection HT as <-.
  (* the summary block, on any event with the summary side of [skel] *)
  destruct (summary_side_loop (mod_prov omod) (ptr_add bufS 7) (lenS - 7)
              (mjd_to_unix (section_mjd bufS)) (event_slen (ptr_add bufS 7))
              (Z.to_nat (event_slen (ptr_add bufS 7))) 4 skel HtagsS)
    as (su & de & se & HloopS).
  (* the title block keeps the summary side *)
  assert (Hside1 : ev_summary e1 = ev_summary skel /\ ev_desc e1 = ev_desc skel /\
                   ev_series e1 = ev_series skel).
  { pose proof (title_side_loop (mod_prov omod) (ptr_add bufT 7) (lenT - 7)
                  (mjd_to_unix (section_mjd bufT)) (event_slen (ptr_add bufT 7))
                  (ev_summary skel) (ev_desc skel) (ev_series skel) (ev_status skel)
                  (Z.to_nat (event_slen (ptr_add bufT 7))) 4 skel HtagsT) as Hfix.
    rewrite restamp_same, HloopT in Hfix. injection Hfix as Hfix.
    rewrite Hfix. cbn. auto. }
  destruct Hside1 as (Hsu1 & Hde1 & Hse1).
  set (joined := restamp su de se (Z.lor OPENTV_TITLE OPENTV_SUMMARY) e1).
  destruct (emit_event omod (section_cid bufT) ch joined (false, epg_log s))
    as [save log] eqn:Hemit.
  exists (mk_state (delete (first_key bufT) (_opentv_events s)) (_opentv_channels s)
            (if save then log ++ [Epg_updated] else log)).
  split; [|split].
  - (* summary after title *)
    rewrite (single_block_section _ _ _ _ _ ch); [|exact HchS|exact HoneS].
    cbn [_opentv_events _opentv_channels epg_log].
    rewrite Hkey, lookup_insert_eq. cbn [default from_option]. unfold id.
    rewrite (HloopS (set_status e1 1)) by assumption.
    cbv zeta. cbn [ev_status set_status restamp].
    change (u8 (Z.lor 1 OPENTV_SUMMARY)) with 3.
    change (3 =? Z.lor OPENTV_TITLE OPENTV_SUMMARY) with true. cbv iota.
    match goal with
    | |- context [emit_event _ _ _ ?e _] => change e with joined
    end.
    rewrite Hcid, Hemit. rewrite delete_insert_eq. reflexivity.
  - (* title after summary *)
    rewrite (single_block_section _ _ _ OPENTV_SUMMARY _ ch); [|exact HchS|exact HoneS].
    rewrite Hkey, Hnew. cbn [default from_option]. rewrite Hskel. fold skel.
    rewrite (HloopS skel) by reflexivity.
    cbv zeta. cbn [ev_status set_status restamp skel skel_event].
    change (u8 (Z.lor 0 OPENTV_SUMMARY)) with 2.
    change (2 =? Z.lor OPENTV_TITLE OPENTV_SUMMARY) with false. cbv iota.
    cbn [final_state].
    rewrite (single_block_section _ _ _ _ _ ch); [|exact Hch|exact HoneT].
    cbn [_opentv_events _opentv_channels epg_log].
    rewrite lookup_insert_eq. cbn [default from_option]. unfold id.
    match goal with
    | |- context [record_loop _ _ _ _ _ _ _ ?e] => change e with (restamp su de se 2 skel)
    end.
    rewrite title_side_loop by exact HtagsT. rewrite HloopT.
    cbv zeta. cbn [ev_status set_status restamp].
    change (u8 (Z.lor 2 OPENTV_TITLE)) with 3.
    change (3 =? Z.lor OPENTV_TITLE OPENTV_SUMMARY) with true. cbv iota.
    match goal with
    | |- context [emit_event _ _ _ ?e _] => change e with joined
    end.
    rewrite Hemit. rewrite delete_insert_eq. reflexivity.
  - cbn [_opentv_events]. apply lookup_delete_eq.
Qed.

End JoinOrder.

(** ** The further properties on the small installation *)

Section MoreScenarios.
#[local] Existing Instance demo_huffman.
#[local] Existing Instance demo_epg.

Lemma pid_array_round_trip_witness :
  _pid_list_to_array [0x30; 0; 0x31] = [0x30; 0x31; 0] /\
  pids_until_zero (_pid_list_to_array [0x30; 0; 0x31]) = [0x30; 0x31].
Proof.
  split; [reflexivity|].
  apply (pid_array_round_trip [0x30; 0; 0x31]).
  repeat constructor; unfold fits_int; lia.
Defined.

Lemma tune_follows_settings_witness :
  _opentv_tune (mk_base "opentv-sky" "OpenTV: Sky UK" 1) (mk_module demo_loaded []) demo_mux
  = [mk_table 0x4a 0xff Channel_callback 0x11;
     mk_table 0xa0 0xfc Title_callback 0x30;
     mk_table 0xa0 0xfc Title_callback 0x31;
     mk_table 0xa8 0xfc Summary_callback 0x40].
Proof.
  apply (tune_follows_settings "sky" demo_fields demo_dicts ∅ (<["sky" := demo_loaded]> ∅)
           demo_loaded [0x11] [0x30; 0; 0x31] [0x40]).
  - vm_compute. reflexivity.
  - vm_compute. reflexivity.
  - reflexivity.
  - reflexivity.
  - reflexivity.
  - repeat constructor; unfold fits_int; lia.
  - cbn. lia.
  - reflexivity.
Defined.

Lemma demo_titled_reachable : reachable demo_titled.
Proof. unfold demo_titled. apply reach_event_section, demo_bound_reachable. Qed.

Lemma reachable_events_filed_witness :
  ev_key demo_partial = (0x42, 0x1234) /\
  ev_status demo_partial <> Z.lor OPENTV_TITLE OPENTV_SUMMARY.
Proof.
  destruct (reachable_events_filed demo_titled demo_titled_reachable (0x42, 0x1234)
              demo_partial) as (Hk & Hst & _).
  - vm_compute. reflexivity.
  - split; assumption.
Defined.

Lemma reachable_channels_bound_witness :
  exists ch, ec_channel (mk_epggrab_channel "sky-66" (Some demo_channel)) = Some ch.
Proof.
  apply (reachable_channels_bound demo_bound demo_bound_reachable "sky-66").
  vm_compute. reflexivity.
Defined.

Lemma demo_titled_events :
  _opentv_events demo_titled = {[ (0x42, 0x1234) := demo_partial ]}.
Proof. vm_compute. reflexivity. Qed.

Lemma one_role_never_emits_witness :
  epg_log (final_state (_opentv_parse_event_section demo_mod demo_title_section 25
                          OPENTV_TITLE demo_titled)) = epg_log demo_titled.
Proof.
  apply (one_role_never_emits demo_mod demo_title_section 25 OPENTV_TITLE demo_titled).
  - left. reflexivity.
  - unfold only_role. rewrite demo_titled_events.
    apply map_Forall_singleton. right. reflexivity.
Defined.

Lemma epg_channel_names_are_unambiguous_witness :
  prov_id (mod_prov demo_mod) = prov_id (mod_prov demo_mod) /\ 0x42 = 0x42.
Proof.
  apply (epg_channel_names_are_unambiguous demo_mod demo_mod 0x42 0x42);
    [lia | lia | reflexivity].
Defined.

Lemma join_order_is_immaterial_witness :
  exists s2,
    _opentv_parse_event_section demo_mod demo_summary_section 23 OPENTV_SUMMARY demo_titled
      = Returned s2 /\
    _opentv_parse_event_section demo_mod demo_title_section 25 OPENTV_TITLE
      (final_state (_opentv_parse_event_section demo_mod demo_summary_section 23
                      OPENTV_SUMMARY demo_bound))
      = Returned s2.
Proof.
  destruct (join_order_is_immaterial demo_mod demo_title_section demo_summary_section
              25 23 demo_bound demo_titled demo_channel) as (s2 & H1 & H2 & _).
  - vm_compute. reflexivity.
  - vm_compute. reflexivity.
  - unfold single_block. vm_compute. split; [reflexivity | discriminate].
  - unfold single_block. vm_compute. split; [reflexivity | discriminate].
  - vm_compute. reflexivity.
  - vm_compute. reflexivity.
  - vm_compute. reflexivity.
  - vm_compute. reflexivity.
  - exists s2. split; assumption.
Defined.

End MoreScenarios.
